(** * moco: the clustering control loop of the MySQL operator

    A shallow embedding of [controllers/mysql_clustering.go]: the instance
    probe ([getMySQLClusterStatus]), the constraint validator
    ([validateConstraints]), the planner ([decideNextOperation] and its
    stages) and the [UpdatePrimary] operator, followed by the properties the
    specification states about them.

    Conventions of the embedding.
    - Go's [int] and [int32] are [Z]; the only arithmetic of the planner is
      [replicas / 2] (truncating, [Z.quot]), [replicas - len(outOfSync)] and
      loop counters bounded by the number of instances, none of which can
      leave the 64-bit range for an [int32] replica count.
    - A Go pointer that the code tests against [nil], or that the probe can
      leave [nil], is an [option]; dereferencing [None] is the run-time
      panic [NilDereference].  The [cluster] and [status] arguments
      themselves are never [nil] at the call sites ([getMySQLClusterStatus]
      allocates its result), so they are passed by value and the
      [status == nil] guard of [validateConstraints] has no counterpart.
    - A [for i, x := range xs] loop is [range_fold], a left fold that
      carries the index and stops at the first panic.
    - Logging and the [context.Context] argument carry no behaviour and are
      left out; [LastTransitionTime] (wall-clock time) is not modelled. *)

From Stdlib Require Import ZArith List String Ascii Bool Lia.
From Stdlib Require Import DecimalString Sorted.
Import ListNotations.

Local Open Scope string_scope.
Local Open Scope list_scope.
Local Open Scope Z_scope.

(** ** Run-time failures and Go errors *)

Inductive panic : Type :=
| NilDereference      (* nil pointer dereference *)
| IndexOutOfRange     (* slice index out of range *)
| MakeSliceLen.       (* make([]T, n) with n < 0 *)

Inductive result (A : Type) : Type :=
| Ok (a : A)
| Panic (p : panic).

Arguments Ok {A} a.
Arguments Panic {A} p.

Definition bind {A B : Type} (r : result A) (k : A -> result B) : result B :=
  match r with
  | Ok a => k a
  | Panic p => Panic p
  end.

Notation "x <- r ;; k" := (bind r (fun x => k))
  (at level 61, r at next level, right associativity).
Notation "' pat <- r ;; k" := (bind r (fun x => let pat := x in k))
  (at level 61, pat pattern, r at next level, right associativity).

(** Dereference of a possibly-nil pointer. *)
Definition deref {A : Type} (p : option A) : result A :=
  match p with
  | Some a => Ok a
  | None => Panic NilDereference
  end.

(** [xs[i]] on a slice. *)
Definition index {A : Type} (xs : list A) (i : Z) : result A :=
  if i <? 0 then Panic IndexOutOfRange
  else match nth_error xs (Z.to_nat i) with
       | Some a => Ok a
       | None => Panic IndexOutOfRange
       end.

(** [for i, x := range xs { s = body i x s }], starting at index [i]. *)
Fixpoint range_fold {A S : Type} (body : Z -> A -> S -> result S)
         (xs : list A) (i : Z) (s : S) : result S :=
  match xs with
  | [] => Ok s
  | x :: rest => s' <- body i x s ;; range_fold body rest (i + 1) s'
  end.

(** Modelled from the spec: the sentinel errors are constants of package
    [moco], declared outside the files at hand.  They are the error kinds
    [UnavailableHost], [ConstraintsViolation] and [ConstraintsRecovered] of
    the error taxonomy; [ErrOther] stands for any error of a client or
    driver call. *)
Inductive error : Type :=
| ErrUnavailableHost
| ErrConstraintsViolation
| ErrConstraintsRecovered
| ErrOther (msg : string).

(** ** Observed state (package [controllers]) *)

(** [sql.NullString]; Go compares the two fields with [==]. *)
Record NullString : Type := {
  String_ : string;
  Valid : bool
}.

Definition NullString_eqb (a b : NullString) : bool :=
  String.eqb (String_ a) (String_ b) && Bool.eqb (Valid a) (Valid b).

Record MySQLPrimaryStatus : Type := {
  PrimaryExecutedGtidSet : NullString
}.

Record MySQLReplicaStatus : Type := {
  ID : Z;
  LastIoErrno : Z;
  LastIoError : NullString;
  LastSqlErrno : Z;
  LastSqlError : NullString;
  MasterHost : string;
  RetrievedGtidSet : NullString;
  ExecutedGtidSet : NullString;
  SlaveIoRunning : string;
  SlaveSqlRunning : string
}.

Record MySQLGlobalVariablesStatus : Type := {
  ReadOnly : bool;
  SuperReadOnly : bool;
  RplSemiSyncMasterWaitForSlaveCount : Z
}.

Record MySQLCloneStateStatus : Type := {
  State : NullString
}.

Record MySQLInstanceStatus : Type := {
  Available : bool;
  PrimaryStatus : option MySQLPrimaryStatus;
  ReplicaStatus : option MySQLReplicaStatus;
  GlobalVariableStatus : option MySQLGlobalVariablesStatus;
  CloneStateStatus : option MySQLCloneStateStatus
}.

Record MySQLClusterStatus : Type := {
  InstanceStatus : list MySQLInstanceStatus
}.

(** ** The cluster resource (package [mocov1alpha1])

    The API types are declared outside the files at hand; the records below
    hold the fields the control loop reads and writes, as the data model of
    the specification lists them. *)

(** Modelled from the spec: [corev1.ConditionStatus], the tri-state
    "True/False/Unknown". *)
Inductive ConditionStatus : Type :=
| ConditionTrue
| ConditionFalse
| ConditionUnknown.

(** Modelled from the spec: the recognized condition types, [Available],
    [Healthy], [OutOfSync], [Failure] and [Violation]. *)
Inductive MySQLClusterConditionType : Type :=
| ConditionAvailable
| ConditionHealthy
| ConditionOutOfSync
| ConditionFailure
| ConditionViolation.

Definition ConditionType_eqb (a b : MySQLClusterConditionType) : bool :=
  match a, b with
  | ConditionAvailable, ConditionAvailable
  | ConditionHealthy, ConditionHealthy
  | ConditionOutOfSync, ConditionOutOfSync
  | ConditionFailure, ConditionFailure
  | ConditionViolation, ConditionViolation => true
  | _, _ => false
  end.

(** Modelled from the spec: a condition carries its type, "a status, an
    optional message, and a last-transition timestamp"; the timestamp is
    left out. *)
Record MySQLClusterCondition : Type := {
  CondType : MySQLClusterConditionType;
  CondStatus : ConditionStatus;
  CondMessage : string
}.

(** Modelled from the spec: [replicas], the number of MySQL instances, an
    [int32] in the code. *)
Record MySQLClusterSpec : Type := {
  Replicas : Z
}.

(** Modelled from the spec: the persisted status of the cluster resource
    ([cluster.Status]); [CurrentPrimaryIndex] is a pointer, nil until the
    first promotion. *)
Record ClusterStatus : Type := {
  CurrentPrimaryIndex : option Z;
  Conditions : list MySQLClusterCondition;
  SyncedReplicas : Z;
  Ready : ConditionStatus
}.

(** Modelled from the spec: the cluster resource, declared spec and
    persisted status in one object. *)
Record MySQLCluster : Type := {
  Namespace : string;
  Spec : MySQLClusterSpec;
  Status : ClusterStatus
}.

(** Modelled from the spec: [findCondition] is declared outside the files at
    hand.  The condition set is "keyed by condition type", and the call
    passes the list and a type only: the lookup returns the stored condition
    of that type, or nil. *)
Fixpoint findCondition (conditions : list MySQLClusterCondition)
         (conditionType : MySQLClusterConditionType)
  : option MySQLClusterCondition :=
  match conditions with
  | [] => None
  | c :: rest =>
      if ConditionType_eqb (CondType c) conditionType then Some c
      else findCondition rest conditionType
  end.

(** Modelled from the spec: [setCondition] is declared outside the files at
    hand.  It "upserts" a condition "by type": the stored condition of that
    type takes the new status and message, and a condition of a type not yet
    stored is appended. *)
Fixpoint setCondition (conditions : list MySQLClusterCondition)
         (newCondition : MySQLClusterCondition)
  : list MySQLClusterCondition :=
  match conditions with
  | [] => [newCondition]
  | c :: rest =>
      if ConditionType_eqb (CondType c) (CondType newCondition)
      then newCondition :: rest
      else c :: setCondition rest newCondition
  end.

(** ** Operators and operations *)

Inductive Operator : Type :=
| updatePrimaryOp (newPrimaryIndex : Z)
| configureReplicationOp (index : Z) (primaryHost : string)
| turnOffReadOnlyOp (primaryIndex : Z).

(** [Conditions] and [SyncedReplicas] also name fields of the cluster's
    status; the fields of an [Operation] carry the prefix [Op]. *)
Record Operation : Type := {
  Operators : list Operator;
  Wait : bool;
  OpConditions : list MySQLClusterCondition;
  OpSyncedReplicas : option Z
}.

(** ** Formatting *)

(** [%d] of an [int]. *)
Definition format_d (z : Z) : string := NilZero.string_of_int (Z.to_int z).

Fixpoint join_ints (l : list Z) : string :=
  match l with
  | [] => EmptyString
  | [z] => format_d z
  | z :: rest => (format_d z ++ ", " ++ join_ints rest)%string
  end.

(** [%#v] of a non-nil [[]int]: Go syntax, [[]int{1, 2}]. *)
Definition format_sharp_v (l : list Z) : string :=
  ("[]int{" ++ join_ints l ++ "}")%string.

(** ** Condition sets *)

Definition mkCondition (t : MySQLClusterConditionType) (s : ConditionStatus)
           (m : string) : MySQLClusterCondition :=
  {| CondType := t; CondStatus := s; CondMessage := m |}.

(** A condition whose [Message] is left at its zero value. *)
Definition condition (t : MySQLClusterConditionType) (s : ConditionStatus)
  : MySQLClusterCondition :=
  mkCondition t s EmptyString.

Definition outOfSyncMessage (outOfSyncInstances : list Z) : string :=
  ("outOfSync instances: " ++ format_sharp_v outOfSyncInstances)%string.

Definition unavailableCondition (outOfSyncInstances : list Z)
  : list MySQLClusterCondition :=
  let conditions := [] in
  let conditions :=
    if (Z.of_nat (List.length outOfSyncInstances) =? 0)
    then setCondition conditions (condition ConditionOutOfSync ConditionFalse)
    else setCondition conditions
           (mkCondition ConditionOutOfSync ConditionTrue
                        (outOfSyncMessage outOfSyncInstances)) in
  let conditions :=
    setCondition conditions (condition ConditionFailure ConditionFalse) in
  let conditions :=
    setCondition conditions (condition ConditionHealthy ConditionFalse) in
  setCondition conditions (condition ConditionAvailable ConditionFalse).

Definition availableCondition (outOfSyncInstances : list Z)
  : list MySQLClusterCondition :=
  let conditions := [] in
  let conditions :=
    if (Z.of_nat (List.length outOfSyncInstances) =? 0)
    then
      let conditions :=
        setCondition conditions (condition ConditionOutOfSync ConditionFalse) in
      setCondition conditions (condition ConditionHealthy ConditionTrue)
    else
      let conditions :=
        setCondition conditions
          (mkCondition ConditionOutOfSync ConditionTrue
                       (outOfSyncMessage outOfSyncInstances)) in
      setCondition conditions (condition ConditionHealthy ConditionFalse) in
  let conditions :=
    setCondition conditions (condition ConditionFailure ConditionFalse) in
  setCondition conditions (condition ConditionAvailable ConditionTrue).

(** ** The planner *)

Section Planner.

(** [uniqueName(cluster)], the identity DNS names are derived from, and the
    [Error()] method of the [error] interface are declared outside the files
    at hand; the planner is parametric in both. *)
Variable uniqueName : MySQLCluster -> string.
Variable Error : error -> string.

Definition violationCondition (e : error) : list MySQLClusterCondition :=
  let conditions := [] in
  let conditions :=
    setCondition conditions (mkCondition ConditionViolation ConditionTrue (Error e)) in
  let conditions :=
    setCondition conditions (condition ConditionFailure ConditionTrue) in
  let conditions :=
    setCondition conditions (condition ConditionAvailable ConditionFalse) in
  setCondition conditions (condition ConditionHealthy ConditionFalse).

(** The loop of [validateConstraints]: the state is
    [(writableInstanceCounts, primaryIndex)]. *)
Definition countWritable (i : Z) (status : MySQLInstanceStatus) (s : Z * Z)
  : result (Z * Z) :=
  gv <- deref (GlobalVariableStatus status) ;;
  if negb (ReadOnly gv) then Ok (fst s + 1, i) else Ok s.

Definition validateConstraints (status : MySQLClusterStatus)
           (cluster : MySQLCluster) : result (option error) :=
  '(writableInstanceCounts, primaryIndex) <-
     range_fold countWritable (InstanceStatus status) 0 (0, 0) ;;
  if 1 <? writableInstanceCounts then Ok (Some ErrConstraintsViolation)
  else
    let mismatch :=
      match CurrentPrimaryIndex (Status cluster) with
      | Some current =>
          (writableInstanceCounts =? 1) && negb (current =? primaryIndex)
      | None => false
      end in
    if mismatch then Ok (Some ErrConstraintsViolation)
    else
      match findCondition (Conditions (Status cluster)) ConditionViolation with
      | Some _ => Ok (Some ErrConstraintsRecovered)
      | None => Ok None
      end.

(** TODO in the source: implementation for failover. *)
Definition selectPrimary (status : MySQLClusterStatus) (cluster : MySQLCluster)
  : Z := 0.

Definition updatePrimary (cluster : MySQLCluster) (newPrimaryIndex : Z)
  : list Operator :=
  match CurrentPrimaryIndex (Status cluster) with
  | Some current =>
      if current =? newPrimaryIndex then []
      else [updatePrimaryOp newPrimaryIndex]
  | None => [updatePrimaryOp newPrimaryIndex]
  end.

(** [fmt.Sprintf("%s.%s.%s.svc", fmt.Sprintf("%s-%d", uniqueName, index),
    uniqueName, namespace)]. *)
Definition primaryHostOf (cluster : MySQLCluster) (primaryIndex : Z) : string :=
  let podName := (uniqueName cluster ++ "-" ++ format_d primaryIndex)%string in
  (podName ++ "." ++ uniqueName cluster ++ "." ++ Namespace cluster ++ ".svc")%string.

Definition needsReplication (primaryHost : string) (ins : MySQLInstanceStatus)
  : bool :=
  match ReplicaStatus ins with
  | None => true
  | Some rs => negb (String.eqb (MasterHost rs) primaryHost)
  end.

Definition configureReplication (status : MySQLClusterStatus)
           (cluster : MySQLCluster) : result (list Operator) :=
  current <- deref (CurrentPrimaryIndex (Status cluster)) ;;
  let primaryHost := primaryHostOf cluster current in
  range_fold
    (fun i ins operators =>
       if i =? current then Ok operators
       else if needsReplication primaryHost ins
            then Ok (operators ++ [configureReplicationOp i primaryHost])
            else Ok operators)
    (InstanceStatus status) 0 [].

(** The loop of [waitForReplication]: the state is [(count, outOfSyncIns)]. *)
Definition countReplicated (primaryIndex : Z) (primaryGTID : NullString)
           (i : Z) (ins : MySQLInstanceStatus) (s : Z * list Z)
  : result (Z * list Z) :=
  if i =? primaryIndex then Ok s
  else
    rs <- deref (ReplicaStatus ins) ;;
    if negb (LastIoErrno rs =? 0) then Ok (fst s, snd s ++ [i])
    else if NullString_eqb (ExecutedGtidSet rs) primaryGTID
         then Ok (fst s + 1, snd s)
         else Ok s.

Definition waitForReplication (status : MySQLClusterStatus)
           (cluster : MySQLCluster) : result (bool * list Z) :=
  primaryIndex <- deref (CurrentPrimaryIndex (Status cluster)) ;;
  primaryStatus <- index (InstanceStatus status) primaryIndex ;;
  ps <- deref (PrimaryStatus primaryStatus) ;;
  let primaryGTID := PrimaryExecutedGtidSet ps in
  '(count, outOfSyncIns) <-
     range_fold (countReplicated primaryIndex primaryGTID)
                (InstanceStatus status) 0 (0, []) ;;
  gv <- deref (GlobalVariableStatus primaryStatus) ;;
  if negb (ReadOnly gv) then Ok (false, outOfSyncIns)
  else Ok (count <? Z.quot (Replicas (Spec cluster)) 2, outOfSyncIns).

Definition acceptWriteRequest (status : MySQLClusterStatus)
           (cluster : MySQLCluster) : result (list Operator) :=
  primaryIndex <- deref (CurrentPrimaryIndex (Status cluster)) ;;
  primaryStatus <- index (InstanceStatus status) primaryIndex ;;
  gv <- deref (GlobalVariableStatus primaryStatus) ;;
  if negb (ReadOnly gv) then Ok []
  else Ok [turnOffReadOnlyOp primaryIndex].

Definition emptyOperation : Operation :=
  {| Operators := []; Wait := false; OpConditions := [];
     OpSyncedReplicas := None |}.

(** The availability loop of [decideNextOperation]. *)
Definition anyUnavailable (status : MySQLClusterStatus) : bool :=
  fold_left (fun unavailable ins =>
               if negb (Available ins) then true else unavailable)
            (InstanceStatus status) false.

(** The planner returns a pointer to an [Operation] (possibly nil) and an
    [error] (possibly nil). *)
Definition decideNextOperation (cluster : MySQLCluster)
           (status : MySQLClusterStatus)
  : result (option Operation * option error) :=
  if anyUnavailable status then Ok (None, Some ErrUnavailableHost)
  else
    err <- validateConstraints status cluster ;;
    match err with
    | Some e =>
        Ok (Some {| Operators := []; Wait := false;
                    OpConditions := violationCondition e;
                    OpSyncedReplicas := None |}, Some e)
    | None =>
        let primaryIndex := selectPrimary status cluster in
        let ops := updatePrimary cluster primaryIndex in
        if negb (Z.of_nat (List.length ops) =? 0) then
          Ok (Some {| Operators := ops; Wait := false; OpConditions := [];
                      OpSyncedReplicas := None |}, None)
        else
          ops <- configureReplication status cluster ;;
          if negb (Z.of_nat (List.length ops) =? 0) then
            Ok (Some {| Operators := ops; Wait := false; OpConditions := [];
                        OpSyncedReplicas := None |}, None)
          else
            '(wait, outOfSyncInts) <- waitForReplication status cluster ;;
            if wait then
              Ok (Some {| Operators := []; Wait := true;
                          OpConditions := unavailableCondition outOfSyncInts;
                          OpSyncedReplicas := None |}, None)
            else
              let syncedReplicas :=
                Replicas (Spec cluster) - Z.of_nat (List.length outOfSyncInts) in
              ops <- acceptWriteRequest status cluster ;;
              if negb (Z.of_nat (List.length ops) =? 0) then
                Ok (Some {| Operators := ops; Wait := false;
                            OpConditions := availableCondition outOfSyncInts;
                            OpSyncedReplicas := Some syncedReplicas |}, None)
              else
                Ok (Some {| Operators := []; Wait := false;
                            OpConditions := availableCondition outOfSyncInts;
                            OpSyncedReplicas := Some syncedReplicas |}, None)
    end.

End Planner.

(** ** The instance probe *)

(** What [db.Queryx(q)] followed by [rows.Next()] and [rows.StructScan]
    yields: the query fails, there is no row, the first row fails to scan,
    or the first row scans into a record. *)
Inductive QueryResult (A : Type) : Type :=
| QueryError (e : error)
| NoRows
| ScanError (e : error)
| FirstRow (a : A).

Arguments QueryError {A} e.
Arguments NoRows {A}.
Arguments ScanError {A} e.
Arguments FirstRow {A} a.

(** A database handle ([*sqlx.DB]), by what its calls answer. *)
Record DB : Type := {
  showMasterStatus : QueryResult MySQLPrimaryStatus;
  showSlaveStatus : QueryResult MySQLReplicaStatus;
  selectGlobalVariables : QueryResult MySQLGlobalVariablesStatus;
  selectCloneStatus : QueryResult MySQLCloneStateStatus;
  exec : string -> list Z -> option error
}.

(** The [infrastructure] value: [getDB] (secret lookup, then the accessor's
    pool) and the status update of the resource store, by what they answer. *)
Record infrastructure : Type := {
  getDB : MySQLCluster -> Z -> error + DB;
  statusUpdate : MySQLCluster -> option error
}.

Definition getMySQLPrimaryStatus (db : DB)
  : option MySQLPrimaryStatus * option error :=
  match showMasterStatus db with
  | QueryError e => (None, Some e)
  | ScanError e => (None, Some e)
  | FirstRow status => (Some status, None)
  | NoRows => (None, Some (ErrOther "primary status is empty"))
  end.

Definition getMySQLReplicaStatus (db : DB)
  : option MySQLReplicaStatus * option error :=
  match showSlaveStatus db with
  | QueryError e => (None, Some e)
  | ScanError e => (None, Some e)
  | FirstRow status => (Some status, None)
  | NoRows => (None, None)
  end.

Definition getMySQLGlobalVariablesStatus (db : DB)
  : option MySQLGlobalVariablesStatus * option error :=
  match selectGlobalVariables db with
  | QueryError e => (None, Some e)
  | ScanError e => (None, Some e)
  | FirstRow status => (Some status, None)
  | NoRows => (None, Some (ErrOther "readOnly status is empty"))
  end.

Definition getMySQLCloneStateStatus (db : DB)
  : option MySQLCloneStateStatus * option error :=
  match selectCloneStatus db with
  | QueryError e => (None, Some e)
  | ScanError e => (None, Some e)
  | FirstRow status => (Some status, None)
  | NoRows => (None, None)
  end.

(** One iteration of the loop of [getMySQLClusterStatus]: the element starts
    zeroed, every [continue] leaves what has been assigned so far. *)
Definition probeInstance (infra : infrastructure) (cluster : MySQLCluster)
           (instanceIdx : Z) : MySQLInstanceStatus :=
  let st := {| Available := false; PrimaryStatus := None;
               ReplicaStatus := None; GlobalVariableStatus := None;
               CloneStateStatus := None |} in
  match getDB infra cluster instanceIdx with
  | inl _ => st
  | inr db =>
      match getMySQLPrimaryStatus db with
      | (_, Some _) => st
      | (primaryStatus, None) =>
          let st := {| Available := false; PrimaryStatus := primaryStatus;
                       ReplicaStatus := None; GlobalVariableStatus := None;
                       CloneStateStatus := None |} in
          match getMySQLReplicaStatus db with
          | (_, Some _) => st
          | (replicaStatus, None) =>
              let st := {| Available := false; PrimaryStatus := primaryStatus;
                           ReplicaStatus := replicaStatus;
                           GlobalVariableStatus := None;
                           CloneStateStatus := None |} in
              match getMySQLGlobalVariablesStatus db with
              | (_, Some _) => st
              | (readOnlyStatus, None) =>
                  let st := {| Available := false;
                               PrimaryStatus := primaryStatus;
                               ReplicaStatus := replicaStatus;
                               GlobalVariableStatus := readOnlyStatus;
                               CloneStateStatus := None |} in
                  match getMySQLCloneStateStatus db with
                  | (_, Some _) => st
                  | (cloneStatus, None) =>
                      {| Available := true;
                         PrimaryStatus := primaryStatus;
                         ReplicaStatus := replicaStatus;
                         GlobalVariableStatus := readOnlyStatus;
                         CloneStateStatus := cloneStatus |}
                  end
              end
          end
      end
  end.

Definition getMySQLClusterStatus (infra : infrastructure)
           (cluster : MySQLCluster) : result MySQLClusterStatus :=
  let replicas := Replicas (Spec cluster) in
  if replicas <? 0 then Panic MakeSliceLen
  else
    Ok {| InstanceStatus :=
            map (fun instanceIdx =>
                   probeInstance infra cluster (Z.of_nat instanceIdx))
                (seq 0 (Z.to_nat replicas)) |}.

(** ** The UpdatePrimary operator *)

(** The calls that leave the process, in the order they are made. *)
Inductive Event : Type :=
| StatusUpdate (cluster : MySQLCluster)
| Exec (instance : Z) (query : string) (args : list Z).

Definition withCurrentPrimaryIndex (cluster : MySQLCluster) (i : Z)
  : MySQLCluster :=
  {| Namespace := Namespace cluster;
     Spec := Spec cluster;
     Status := {| CurrentPrimaryIndex := Some i;
                  Conditions := Conditions (Status cluster);
                  SyncedReplicas := SyncedReplicas (Status cluster);
                  Ready := Ready (Status cluster) |} |}.

Definition setSemiSyncMaster : string :=
  "SET GLOBAL rpl_semi_sync_master_enabled=ON,GLOBAL rpl_semi_sync_slave_enabled=OFF".

Definition setWaitForSlaveCount : string :=
  "SET GLOBAL rpl_semi_sync_master_wait_for_slave_count=?".

(** What a run of an operator leaves behind: the calls it made, the cluster
    object as it mutated it, and how it returned. *)
Record Execution : Type := {
  trace : list Event;
  clusterAfter : MySQLCluster;
  returned : result (option error)
}.

(** [(o *updatePrimaryOp) Run]. *)
Definition updatePrimaryOp_Run (newPrimaryIndex : Z) (infra : infrastructure)
           (cluster : MySQLCluster) (status : MySQLClusterStatus) : Execution :=
  match getDB infra cluster newPrimaryIndex with
  | inl err =>
      {| trace := []; clusterAfter := cluster; returned := Ok (Some err) |}
  | inr db =>
      let cluster := withCurrentPrimaryIndex cluster newPrimaryIndex in
      let calls := [StatusUpdate cluster] in
      match statusUpdate infra cluster with
      | Some err =>
          {| trace := calls; clusterAfter := cluster;
             returned := Ok (Some err) |}
      | None =>
          let calls := calls ++ [Exec newPrimaryIndex setSemiSyncMaster []] in
          match exec db setSemiSyncMaster [] with
          | Some err =>
              {| trace := calls; clusterAfter := cluster;
                 returned := Ok (Some err) |}
          | None =>
              let expectedRplSemiSyncMasterWaitForSlaveCount :=
                Z.quot (Replicas (Spec cluster)) 2 in
              match
                st <- index (InstanceStatus status) newPrimaryIndex ;;
                deref (GlobalVariableStatus st)
              with
              | Panic p =>
                  {| trace := calls; clusterAfter := cluster;
                     returned := Panic p |}
              | Ok gv =>
                  if RplSemiSyncMasterWaitForSlaveCount gv
                     =? expectedRplSemiSyncMasterWaitForSlaveCount
                  then {| trace := calls; clusterAfter := cluster;
                          returned := Ok None |}
                  else
                    {| trace :=
                         calls ++
                         [Exec newPrimaryIndex setWaitForSlaveCount
                               [expectedRplSemiSyncMasterWaitForSlaveCount]];
                       clusterAfter := cluster;
                       returned :=
                         Ok (exec db setWaitForSlaveCount
                                  [expectedRplSemiSyncMasterWaitForSlaveCount]) |}
              end
          end
      end
  end.

(** ** The specification's vocabulary

    The definitions of this part follow the wording of the specification;
    the theorems compare them with the code above. *)

(** The instances of a slice with their ordinals, counted from [i]. *)
Fixpoint indexedFrom (i : Z) (xs : list MySQLInstanceStatus)
  : list (Z * MySQLInstanceStatus) :=
  match xs with
  | [] => []
  | x :: rest => (i, x) :: indexedFrom (i + 1) rest
  end.

(** The ordinals of the instances of [status] that satisfy [p]. *)
Definition ordinalsWhere (p : Z -> MySQLInstanceStatus -> bool)
           (status : MySQLClusterStatus) : list Z :=
  map fst (filter (fun e => p (fst e) (snd e))
                  (indexedFrom 0 (InstanceStatus status))).

(** "instance has [readOnly=false]". *)
Definition spec_writable (ins : MySQLInstanceStatus) : bool :=
  match GlobalVariableStatus ins with
  | Some gv => negb (ReadOnly gv)
  | None => false
  end.

Definition spec_writableInstances (status : MySQLClusterStatus) : list Z :=
  ordinalsWhere (fun _ ins => spec_writable ins) status.

(** "more than one instance is writable, OR [currentPrimaryIndex] is set and
    a different instance is the single writable one". *)
Definition spec_violation (cluster : MySQLCluster) (status : MySQLClusterStatus)
  : Prop :=
  (1 < List.length (spec_writableInstances status))%nat \/
  exists current i,
    CurrentPrimaryIndex (Status cluster) = Some current /\
    spec_writableInstances status = [i] /\
    i <> current.

(** The writable ordinals of a slice whose first element has ordinal [i]. *)
Definition writableFrom (i : Z) (xs : list MySQLInstanceStatus) : list Z :=
  map fst (filter (fun e => spec_writable (snd e)) (indexedFrom i xs)).

(** The decision of [validateConstraints] on the writable instances. *)
Definition violationb (cluster : MySQLCluster) (status : MySQLClusterStatus)
  : bool :=
  let W := spec_writableInstances status in
  (1 <? Z.of_nat (List.length W)) ||
  match CurrentPrimaryIndex (Status cluster) with
  | Some current =>
      (Z.of_nat (List.length W) =? 1) && negb (current =? last W 0)
  | None => false
  end.

(** "the previous stored condition set carries [Violation=True]". *)
Definition spec_storedViolationTrue (cluster : MySQLCluster) : Prop :=
  exists c,
    In c (Conditions (Status cluster)) /\
    CondType c = ConditionViolation /\
    CondStatus c = ConditionTrue.

(** The stored condition set carries a condition of type [Violation],
    whatever its status. *)
Definition storedViolation (cluster : MySQLCluster) : Prop :=
  exists c,
    In c (Conditions (Status cluster)) /\ CondType c = ConditionViolation.

(** "out-of-sync": a non-primary instance with [lastIoErrno <> 0]. *)
Definition outOfSyncb (primary : Z) (i : Z) (ins : MySQLInstanceStatus) : bool :=
  negb (i =? primary) &&
  match ReplicaStatus ins with
  | Some rs => negb (LastIoErrno rs =? 0)
  | None => false
  end.

Definition spec_outOfSync (status : MySQLClusterStatus) (primary : Z) : list Z :=
  ordinalsWhere (outOfSyncb primary) status.

(** "caught-up": a non-primary instance with [lastIoErrno = 0] whose
    [executedGtidSet] equals the primary's. *)
Definition caughtUpb (primary : Z) (primaryGTID : NullString)
           (i : Z) (ins : MySQLInstanceStatus) : bool :=
  negb (i =? primary) &&
  match ReplicaStatus ins with
  | Some rs =>
      (LastIoErrno rs =? 0) && NullString_eqb (ExecutedGtidSet rs) primaryGTID
  | None => false
  end.

Definition spec_caughtUp (status : MySQLClusterStatus) (primary : Z)
           (primaryGTID : NullString) : list Z :=
  ordinalsWhere (caughtUpb primary primaryGTID) status.

(** Stage D: the non-primary instances whose [replicaStatus] is null or
    whose [masterHost] is not the primary's DNS name. *)
Definition spec_misconfigured (status : MySQLClusterStatus) (primary : Z)
           (primaryHost : string) : list Z :=
  ordinalsWhere
    (fun i ins =>
       negb (i =? primary) &&
       match ReplicaStatus ins with
       | Some rs => negb (String.eqb (MasterHost rs) primaryHost)
       | None => true
       end)
    status.

(** "<clusterUniqueName>-<primaryIndex>.<clusterUniqueName>.<namespace>.svc" *)
Definition spec_primaryDNS (clusterUniqueName : string) (primaryIndex : Z)
           (namespace : string) : string :=
  (clusterUniqueName ++ "-" ++ format_d primaryIndex ++ "." ++
   clusterUniqueName ++ "." ++ namespace ++ ".svc")%string.

(** What the probe guarantees of an instance it reports available: the two
    records whose absence is an error are there. *)
Definition probed (ins : MySQLInstanceStatus) : Prop :=
  Available ins = true ->
  PrimaryStatus ins <> None /\ GlobalVariableStatus ins <> None.

(** The claim on [syncedReplicas] as the specification words it: the value
    reported lies in [[0, N-1]] and is [N - 1 - |outOfSync|]. *)
Definition spec_syncedReplicas (cluster : MySQLCluster)
           (status : MySQLClusterStatus) (syncedReplicas : Z) : Prop :=
  let N := Replicas (Spec cluster) in
  exists primary,
    CurrentPrimaryIndex (Status cluster) = Some primary /\
    0 <= syncedReplicas <= N - 1 /\
    syncedReplicas = N - 1 - Z.of_nat (List.length (spec_outOfSync status primary)).

(** ** Seed scenarios

    The cluster of the specification's scenarios: three instances, unique
    name [c], namespace [ns], primary DNS name [c-0.c.ns.svc]. *)

Module Scenario.

Definition uniqueName (_ : MySQLCluster) : string := "c".

(** The texts of the sentinel errors are not in the files at hand; these
    stand for them. *)
Definition Error (e : error) : string :=
  match e with
  | ErrUnavailableHost => "unavailable host exists"
  | ErrConstraintsViolation => "constraints violation occurs"
  | ErrConstraintsRecovered => "constrains recovered but once violated"
  | ErrOther msg => msg
  end.

(** The planner of the scenarios. *)
Definition plan : MySQLCluster -> MySQLClusterStatus ->
                  result (option Operation * option error) :=
  decideNextOperation uniqueName Error.

Definition gtid (s : string) : NullString := {| String_ := s; Valid := true |}.

Definition null : NullString := {| String_ := EmptyString; Valid := false |}.

Definition replicaOf (host : string) (lastIoErrno : Z) (executed : NullString)
  : MySQLReplicaStatus :=
  {| ID := 0; LastIoErrno := lastIoErrno; LastIoError := null;
     LastSqlErrno := 0; LastSqlError := null; MasterHost := host;
     RetrievedGtidSet := executed; ExecutedGtidSet := executed;
     SlaveIoRunning := "Yes"; SlaveSqlRunning := "Yes" |}.

Definition instance (readOnly : bool) (waitCount : Z) (executed : NullString)
           (replica : option MySQLReplicaStatus) : MySQLInstanceStatus :=
  {| Available := true;
     PrimaryStatus := Some {| PrimaryExecutedGtidSet := executed |};
     ReplicaStatus := replica;
     GlobalVariableStatus :=
       Some {| ReadOnly := readOnly; SuperReadOnly := readOnly;
               RplSemiSyncMasterWaitForSlaveCount := waitCount |};
     CloneStateStatus := None |}.

Definition down : MySQLInstanceStatus :=
  {| Available := false; PrimaryStatus := None; ReplicaStatus := None;
     GlobalVariableStatus := None; CloneStateStatus := None |}.

Definition cluster (current : option Z)
           (conditions : list MySQLClusterCondition) : MySQLCluster :=
  {| Namespace := "ns";
     Spec := {| Replicas := 3 |};
     Status := {| CurrentPrimaryIndex := current; Conditions := conditions;
                  SyncedReplicas := 0; Ready := ConditionUnknown |} |}.

Definition observed (instances : list MySQLInstanceStatus) : MySQLClusterStatus :=
  {| InstanceStatus := instances |}.

Definition dns : string := "c-0.c.ns.svc".

Definition follower (lastIoErrno : Z) (executed : string) : MySQLInstanceStatus :=
  instance true 1 (gtid executed) (Some (replicaOf dns lastIoErrno (gtid executed))).

(** 1. First promotion: nothing persisted, every instance read-only. *)
Definition fresh : MySQLClusterStatus :=
  observed [instance true 1 null None; instance true 1 null None;
            instance true 1 null None].

(** 2. Steady state. *)
Definition steady : MySQLClusterStatus :=
  observed [instance false 1 (gtid "u:1-5") None;
            follower 0 "u:1-5"; follower 0 "u:1-5"].

(** 3. The primary is still read-only, one replica lags. *)
Definition oneLagging : MySQLClusterStatus :=
  observed [instance true 1 (gtid "u:1-5") None;
            follower 0 "u:1-3"; follower 0 "u:1-5"].

(** 4. The primary is still read-only, both replicas lag. *)
Definition bothLagging : MySQLClusterStatus :=
  observed [instance true 1 (gtid "u:1-5") None;
            follower 0 "u:1-3"; follower 0 "u:1-4"].

(** 5. Two writable instances. *)
Definition twoWritable : MySQLClusterStatus :=
  observed [instance false 1 (gtid "u:1-5") None;
            instance false 1 (gtid "u:1-5") (Some (replicaOf dns 0 (gtid "u:1-5")));
            follower 0 "u:1-5"].

(** 6. Instance 2 reports an I/O error. *)
Definition ioError : MySQLClusterStatus :=
  observed [instance false 1 (gtid "u:1-5") None;
            follower 0 "u:1-5"; follower 1236 "u:1-2"].

(** One instance does not answer. *)
Definition oneDown : MySQLClusterStatus :=
  observed [instance false 1 (gtid "u:1-5") None; down; follower 0 "u:1-5"].

(** A stored [Violation] condition whose status is [False]. *)
Definition clearedViolation : list MySQLClusterCondition :=
  [condition ConditionViolation ConditionFalse].

(** An infrastructure in which every call succeeds and every instance
    answers like [ins]. *)
Definition answering (ins : MySQLInstanceStatus) : DB :=
  {| showMasterStatus :=
       match PrimaryStatus ins with Some s => FirstRow s | None => NoRows end;
     showSlaveStatus :=
       match ReplicaStatus ins with Some s => FirstRow s | None => NoRows end;
     selectGlobalVariables :=
       match GlobalVariableStatus ins with Some s => FirstRow s | None => NoRows end;
     selectCloneStatus :=
       match CloneStateStatus ins with Some s => FirstRow s | None => NoRows end;
     exec := fun _ _ => None |}.

Definition healthy (status : MySQLClusterStatus) : infrastructure :=
  {| getDB := fun _ i =>
       match nth_error (InstanceStatus status) (Z.to_nat i) with
       | Some ins => inr (answering ins)
       | None => inl (ErrOther "no such host")
       end;
     statusUpdate := fun _ => None |}.

End Scenario.

(** ** The other operators, the status writer and the reconcile driver *)

(** An argument of [db.Exec]. *)
Inductive SQLArg : Type :=
| IntArg (z : Z)
| StringArg (s : string).

(** An outward call of a reconcile: a call of [Event], or an [Exec] whose
    arguments are not all integers. *)
Inductive Call : Type :=
| Issued (e : Event)
| ExecWith (instance : Z) (query : string) (args : list SQLArg).

(** What [UpdatePrimary] does not need of the infrastructure, by what it
    answers: the read of the controller's secret (an error, or the [Data]
    of the secret, a map from keys to values) and [db.Exec] with arguments
    of mixed types. *)
Record replicationAccess : Type := {
  getSecret : MySQLCluster -> error + (string -> option string);
  execWith : DB -> string -> list SQLArg -> option error
}.

(** [infra.getPassword]: [string(secret.Data[passwordKey])]; a key the map
    does not hold reads as the empty value. *)
Definition getPassword (access : replicationAccess) (cluster : MySQLCluster)
           (passwordKey : string) : error + string :=
  match getSecret access cluster with
  | inl err => inl err
  | inr data =>
      inr (match data passwordKey with
           | Some password => password
           | None => EmptyString
           end)
  end.

(** What a piece of the driver leaves behind: the calls it made, the
    cluster object as it mutated it, and what it returned. *)
Record Outcome (A : Type) : Type := {
  calls : list Call;
  object : MySQLCluster;
  value : result A
}.

Arguments calls {A} o.
Arguments object {A} o.
Arguments value {A} o.

(** Statements issued one after the other, each with the error it answers;
    the first error stops the sequence and is returned. *)
Fixpoint issue (statements : list (Call * option error))
  : list Call * option error :=
  match statements with
  | [] => ([], None)
  | (c, Some err) :: _ => ([c], Some err)
  | (c, None) :: rest =>
      let (cs, err) := issue rest in (c :: cs, err)
  end.

Definition stopSlave : string := "STOP SLAVE".

Definition changeMaster : string :=
  "CHANGE MASTER TO MASTER_HOST = ?, MASTER_PORT = ?, MASTER_USER = ?, MASTER_PASSWORD = ?, MASTER_AUTO_POSITION = 1".

Definition setSemiSyncSlave : string :=
  "SET GLOBAL rpl_semi_sync_master_enabled=OFF,GLOBAL rpl_semi_sync_slave_enabled=ON".

Definition startSlave : string := "START SLAVE".

Definition setReadOnlyOff : string := "set global read_only=0".

(** [ctrl.Result]; [RequeueAfter] is a [time.Duration], in nanoseconds. *)
Record Result : Type := {
  Requeue : bool;
  RequeueAfter : Z
}.

(** [time.Second]. *)
Definition Second : Z := 1000000000.

Definition withStatus (cluster : MySQLCluster) (st : ClusterStatus)
  : MySQLCluster :=
  {| Namespace := Namespace cluster; Spec := Spec cluster; Status := st |}.

(** [setCondition(&cluster.Status.Conditions, c)]. *)
Definition setClusterCondition (cluster : MySQLCluster)
           (c : MySQLClusterCondition) : MySQLCluster :=
  withStatus cluster
    {| CurrentPrimaryIndex := CurrentPrimaryIndex (Status cluster);
       Conditions := setCondition (Conditions (Status cluster)) c;
       SyncedReplicas := SyncedReplicas (Status cluster);
       Ready := Ready (Status cluster) |}.

(** [cluster.Status.Ready = s]. *)
Definition setReady (cluster : MySQLCluster) (s : ConditionStatus)
  : MySQLCluster :=
  withStatus cluster
    {| CurrentPrimaryIndex := CurrentPrimaryIndex (Status cluster);
       Conditions := Conditions (Status cluster);
       SyncedReplicas := SyncedReplicas (Status cluster);
       Ready := s |}.

(** [cluster.Status.SyncedReplicas = n]. *)
Definition setSyncedReplicas (cluster : MySQLCluster) (n : Z) : MySQLCluster :=
  withStatus cluster
    {| CurrentPrimaryIndex := CurrentPrimaryIndex (Status cluster);
       Conditions := Conditions (Status cluster);
       SyncedReplicas := n;
       Ready := Ready (Status cluster) |}.

Section Driver.

(** Declared outside the files at hand: [uniqueName], the [Error()] method,
    and the constants [moco.ReplicationPasswordKey], [moco.MySQLPort] and
    [moco.ReplicatorUser]. *)
Variable uniqueName : MySQLCluster -> string.
Variable Error : error -> string.
Variable ReplicationPasswordKey : string.
Variable MySQLPort : Z.
Variable ReplicatorUser : string.

Variable infra : infrastructure.
Variable access : replicationAccess.

(** [(r configureReplicationOp) Run]. *)
Definition configureReplicationOp_Run (index : Z) (primaryHost : string)
           (cluster : MySQLCluster) (status : MySQLClusterStatus)
  : Outcome (option error) :=
  match getPassword access cluster ReplicationPasswordKey with
  | inl err => {| calls := []; object := cluster; value := Ok (Some err) |}
  | inr password =>
      match getDB infra cluster index with
      | inl err => {| calls := []; object := cluster; value := Ok (Some err) |}
      | inr db =>
          let changeMasterArgs :=
            [StringArg primaryHost; IntArg MySQLPort;
             StringArg ReplicatorUser; StringArg password] in
          let (cs, err) :=
            issue
              [(Issued (Exec index stopSlave []), exec db stopSlave []);
               (ExecWith index changeMaster changeMasterArgs,
                execWith access db changeMaster changeMasterArgs);
               (Issued (Exec index setSemiSyncSlave []),
                exec db setSemiSyncSlave []);
               (Issued (Exec index startSlave []), exec db startSlave [])] in
          {| calls := cs; object := cluster; value := Ok err |}
      end
  end.

(** [(o turnOffReadOnlyOp) Run]. *)
Definition turnOffReadOnlyOp_Run (primaryIndex : Z)
           (cluster : MySQLCluster) (status : MySQLClusterStatus)
  : Outcome (option error) :=
  match getDB infra cluster primaryIndex with
  | inl err => {| calls := []; object := cluster; value := Ok (Some err) |}
  | inr db =>
      {| calls := [Issued (Exec primaryIndex setReadOnlyOff [])];
         object := cluster;
         value := Ok (exec db setReadOnlyOff []) |}
  end.

(** [o.Run(ctx, infra, cluster, status)] through the [Operator] interface. *)
Definition Run (o : Operator) (cluster : MySQLCluster)
           (status : MySQLClusterStatus) : Outcome (option error) :=
  match o with
  | updatePrimaryOp newPrimaryIndex =>
      let ex := updatePrimaryOp_Run newPrimaryIndex infra cluster status in
      {| calls := map Issued (trace ex); object := clusterAfter ex;
         value := returned ex |}
  | configureReplicationOp index primaryHost =>
      configureReplicationOp_Run index primaryHost cluster status
  | turnOffReadOnlyOp primaryIndex =>
      turnOffReadOnlyOp_Run primaryIndex cluster status
  end.

(** [setFailureCondition]: the mutated cluster and what the update of the
    store answers. *)
Definition setFailureCondition (cluster : MySQLCluster) (e : error)
           (outOfSyncInstances : list Z) : MySQLCluster * option error :=
  let cluster :=
    setClusterCondition cluster
      (mkCondition ConditionFailure ConditionTrue (Error e)) in
  let cluster :=
    setClusterCondition cluster (condition ConditionAvailable ConditionFalse) in
  let cluster :=
    setClusterCondition cluster (condition ConditionHealthy ConditionFalse) in
  let cluster :=
    if negb (Z.of_nat (List.length outOfSyncInstances) =? 0)
    then setClusterCondition cluster
           (mkCondition ConditionOutOfSync ConditionTrue
                        (outOfSyncMessage outOfSyncInstances))
    else cluster in
  (cluster, statusUpdate infra cluster).

(** [setMySQLClusterStatus]: the mutated cluster and what the update of the
    store answers. *)
Definition setMySQLClusterStatus (cluster : MySQLCluster)
           (conditions : list MySQLClusterCondition) (syncedStatus : option Z)
  : MySQLCluster * option error :=
  let cluster :=
    fold_left
      (fun cluster cond =>
         let cluster :=
           if ConditionType_eqb (CondType cond) ConditionAvailable
           then setReady cluster (CondStatus cond)
           else cluster in
         setClusterCondition cluster cond)
      conditions cluster in
  let cluster :=
    match syncedStatus with
    | Some n => setSyncedReplicas cluster n
    | None => cluster
    end in
  (cluster, statusUpdate infra cluster).

(** The loop of [reconcileClustering] over [op.Operators]: the operators run
    in the order of the list, each on the cluster as the ones before left
    it, until one returns an error (or panics). *)
Fixpoint runOperators (ops : list Operator) (cluster : MySQLCluster)
         (status : MySQLClusterStatus) : Outcome (option error) :=
  match ops with
  | [] => {| calls := []; object := cluster; value := Ok None |}
  | o :: rest =>
      let first := Run o cluster status in
      match value first with
      | Ok None =>
          let others := runOperators rest (object first) status in
          {| calls := calls first ++ calls others;
             object := object others;
             value := value others |}
      | _ => first
      end
  end.

(** [reconcileClustering].  The probe and the planner make no call that
    changes anything; the calls recorded are those of the operators and of
    the status writer. *)
Definition reconcileClustering (cluster : MySQLCluster)
  : Outcome (Result * option error) :=
  let noRequeue := {| Requeue := false; RequeueAfter := 0 |} in
  match getMySQLClusterStatus infra cluster with
  | Panic p => {| calls := []; object := cluster; value := Panic p |}
  | Ok status =>
      match decideNextOperation uniqueName Error cluster status with
      | Panic p => {| calls := []; object := cluster; value := Panic p |}
      | Ok (_, Some err) =>
          let (cluster, _) := setFailureCondition cluster err [] in
          {| calls := [Issued (StatusUpdate cluster)]; object := cluster;
             value := Ok (noRequeue, Some err) |}
      | Ok (None, None) =>
          {| calls := []; object := cluster; value := Panic NilDereference |}
      | Ok (Some op, None) =>
          let ran := runOperators (Operators op) cluster status in
          match value ran with
          | Panic p =>
              {| calls := calls ran; object := object ran; value := Panic p |}
          | Ok (Some err) =>
              let (cluster, _) := setFailureCondition (object ran) err [] in
              {| calls := calls ran ++ [Issued (StatusUpdate cluster)];
                 object := cluster;
                 value := Ok (noRequeue, Some err) |}
          | Ok None =>
              let (cluster, err) :=
                setMySQLClusterStatus (object ran) (OpConditions op)
                                      (OpSyncedReplicas op) in
              {| calls := calls ran ++ [Issued (StatusUpdate cluster)];
                 object := cluster;
                 value :=
                   match err with
                   | None =>
                       if Wait op
                       then Ok ({| Requeue := false;
                                   RequeueAfter := 10 * Second |}, None)
                       else Ok (noRequeue, None)
                   | Some _ => Ok (noRequeue, err)
                   end |}
          end
      end
  end.

End Driver.

(** The record a query yields, if any, and whether it failed. *)
Definition rowOf {A : Type} (q : QueryResult A) : option A :=
  match q with
  | FirstRow a => Some a
  | _ => None
  end.

Definition failed {A : Type} (q : QueryResult A) : bool :=
  match q with
  | QueryError _ | ScanError _ => true
  | NoRows | FirstRow _ => false
  end.

(** ** Further scenarios *)

Module Drill.

Import Scenario.

(** The constants of package [moco] are not in the files at hand; these
    values stand for them. *)
Definition ReplicationPasswordKey : string := "replication-password".

Definition MySQLPort : Z := 3306.

Definition ReplicatorUser : string := "moco-repl".

(** Every secret read and every statement succeeds. *)
Definition granted : replicationAccess :=
  {| getSecret := fun _ => inr (fun _ => Some "secret");
     execWith := fun _ _ _ => None |}.

(** The secret is there, without the key asked for. *)
Definition keyless : replicationAccess :=
  {| getSecret := fun _ => inr (fun _ => None);
     execWith := fun _ _ _ => None |}.

(** The secret cannot be read. *)
Definition denied : replicationAccess :=
  {| getSecret := fun _ => inl (ErrOther "secret not found");
     execWith := fun _ _ _ => None |}.

(** [CHANGE MASTER TO] is refused. *)
Definition refused : replicationAccess :=
  {| getSecret := fun _ => inr (fun _ => Some "secret");
     execWith := fun _ _ _ => Some (ErrOther "access denied") |}.

(** The instances answer like [status], the store refuses every update. *)
Definition conflicting (status : MySQLClusterStatus) : infrastructure :=
  {| getDB := getDB (healthy status);
     statusUpdate := fun _ => Some (ErrOther "conflict") |}.

(** An instance whose global variables cannot be read. *)
Definition halfAnswering : DB :=
  {| showMasterStatus := FirstRow {| PrimaryExecutedGtidSet := gtid "u:1-5" |};
     showSlaveStatus := NoRows;
     selectGlobalVariables := QueryError (ErrOther "timeout");
     selectCloneStatus := NoRows;
     exec := fun _ _ => None |}.

(** Instance 1 answers only in part, the others like [status]. *)
Definition flaky (status : MySQLClusterStatus) : infrastructure :=
  {| getDB := fun c i =>
       if i =? 1 then inr halfAnswering else getDB (healthy status) c i;
     statusUpdate := fun _ => None |}.

(** The reconcile driver of the scenarios. *)
Definition reconcile (infra : infrastructure) (access : replicationAccess)
  : MySQLCluster -> Outcome (Result * option error) :=
  reconcileClustering uniqueName Error ReplicationPasswordKey MySQLPort
                      ReplicatorUser infra access.

(** The operation planned for a cluster and a status, when there is one. *)
Definition planned (cluster : MySQLCluster) (status : MySQLClusterStatus)
  : Operation :=
  match plan cluster status with
  | Ok (Some op, _) => op
  | _ => emptyOperation
  end.

(** A cluster of a single instance. *)
Definition single (current : option Z) : MySQLCluster :=
  {| Namespace := "ns";
     Spec := {| Replicas := 1 |};
     Status := {| CurrentPrimaryIndex := current; Conditions := [];
                  SyncedReplicas := 0; Ready := ConditionUnknown |} |}.

Definition alone : MySQLClusterStatus :=
  observed [instance true 0 (gtid "u:1-5") None].

(** A cluster whose stored status says it is ready. *)
Definition readyCluster : MySQLCluster :=
  {| Namespace := "ns";
     Spec := {| Replicas := 3 |};
     Status := {| CurrentPrimaryIndex := Some 0;
                  Conditions := availableCondition [];
                  SyncedReplicas := 3; Ready := ConditionTrue |} |}.

End Drill.

(** * Properties *)

Section PlannerProperties.

Variable uniqueName : MySQLCluster -> string.
Variable Error : error -> string.

Local Abbreviation plan := (decideNextOperation uniqueName Error).

(** The inductive step of [countReplicated_loop]: the rest of the slice is
    folded from index [i] and state [(count, outOfSyncIns)]; what is left
    to show is how the two results relate to the state before this step. *)
Ltac rest_of_loop IH i count outOfSyncIns :=
  specialize (IH i count outOfSyncIns);
  destruct (range_fold _ _ i (count, outOfSyncIns)) as [[? ?] | ?];
  [ destruct IH as (Hc & Ho & Hf); repeat split;
    [ .. | constructor; [simpl; congruence | assumption] ]
  | destruct IH as [Hp He]; split; [assumption | now apply Exists_cons_tl] ].

(** ** Generic facts on the loops *)

Lemma bind_Ok_inv {A B : Type} (r : result A) (k : A -> result B) (b : B) :
  bind r k = Ok b -> exists a, r = Ok a /\ k a = Ok b.
Proof.
  destruct r as [a | p]; simpl; intros H; [eauto | discriminate].
Qed.

Lemma indexedFrom_length (xs : list MySQLInstanceStatus) :
  forall i, List.length (indexedFrom i xs) = List.length xs.
Proof.
  induction xs as [| x rest IH]; intros i; simpl; [reflexivity |].
  now rewrite IH.
Qed.

Lemma indexedFrom_bounds (xs : list MySQLInstanceStatus) :
  forall i j ins,
    In (j, ins) (indexedFrom i xs) ->
    i <= j < i + Z.of_nat (List.length xs) /\
    nth_error xs (Z.to_nat (j - i)) = Some ins.
Proof.
  induction xs as [| x rest IH]; intros i j ins Hin; simpl in Hin.
  - contradiction.
  - destruct Hin as [Heq | Hin].
    + inversion Heq; subst. split.
      * simpl List.length. lia.
      * now rewrite Z.sub_diag.
    + apply IH in Hin as [Hb Hn]. split.
      * simpl List.length. lia.
      * replace (Z.to_nat (j - i)) with (S (Z.to_nat (j - (i + 1)))) by lia.
        exact Hn.
Qed.

Lemma indexedFrom_complete (xs : list MySQLInstanceStatus) :
  forall i n ins,
    nth_error xs n = Some ins -> In (i + Z.of_nat n, ins) (indexedFrom i xs).
Proof.
  induction xs as [| x rest IH]; intros i n ins Hn.
  - destruct n; discriminate.
  - destruct n as [| n]; simpl in Hn.
    + inversion Hn; subst. left. f_equal. simpl. lia.
    + right. replace (i + Z.of_nat (S n)) with (i + 1 + Z.of_nat n) by lia.
      now apply IH.
Qed.

(** The ordinals a filter keeps come in strictly ascending order. *)
Lemma ordinals_ascending (p : Z * MySQLInstanceStatus -> bool)
      (xs : list MySQLInstanceStatus) :
  forall i, StronglySorted Z.lt (map fst (filter p (indexedFrom i xs))) /\
            Forall (fun j => i <= j) (map fst (filter p (indexedFrom i xs))).
Proof.
  induction xs as [| x rest IH]; intros i; simpl.
  - split; constructor.
  - destruct (IH (i + 1)) as [Hs Hf].
    assert (Hf' : Forall (fun j => i < j)
                         (map fst (filter p (indexedFrom (i + 1) rest)))).
    { eapply Forall_impl; [| exact Hf]. simpl. intros; lia. }
    destruct (p (i, x)); simpl.
    + split.
      * constructor; assumption.
      * constructor; [lia |]. eapply Forall_impl; [| exact Hf'].
        simpl. intros; lia.
    + split; [assumption |]. eapply Forall_impl; [| exact Hf'].
      simpl. intros; lia.
Qed.

(** [len(xs) != 0]. *)
Lemma len_test {A : Type} (xs : list A) :
  negb (Z.of_nat (List.length xs) =? 0) =
  match xs with [] => false | _ :: _ => true end.
Proof.
  destruct xs; [reflexivity |].
  apply negb_true_iff, Z.eqb_neq. simpl List.length. lia.
Qed.

Lemma anyUnavailable_existsb (status : MySQLClusterStatus) :
  anyUnavailable status =
  existsb (fun ins => negb (Available ins)) (InstanceStatus status).
Proof.
  unfold anyUnavailable.
  assert (H : forall l acc,
             fold_left (fun unavailable ins =>
                          if negb (Available ins) then true else unavailable)
                       l acc =
             acc || existsb (fun ins => negb (Available ins)) l).
  { induction l as [| x rest IH]; intros acc; simpl.
    - now rewrite orb_false_r.
    - rewrite IH. destruct (Available x), acc; reflexivity. }
  now rewrite H.
Qed.

Lemma anyUnavailable_false (status : MySQLClusterStatus) :
  anyUnavailable status = false <->
  Forall (fun ins => Available ins = true) (InstanceStatus status).
Proof.
  rewrite anyUnavailable_existsb, Forall_forall. split.
  - intros H ins Hin.
    destruct (Available ins) eqn:E; [reflexivity |].
    assert (existsb (fun ins => negb (Available ins)) (InstanceStatus status)
            = true) as Ht.
    { apply existsb_exists. exists ins. now rewrite E. }
    congruence.
  - intros H.
    destruct (existsb _ _) eqn:E; [| reflexivity].
    apply existsb_exists in E as [ins [Hin Hneg]].
    rewrite (H ins Hin) in Hneg. discriminate.
Qed.

(** Every instance of an all-available probed status carries its global
    variables and its primary status. *)
Lemma available_probed (status : MySQLClusterStatus) :
  anyUnavailable status = false ->
  Forall probed (InstanceStatus status) ->
  Forall (fun ins => PrimaryStatus ins <> None /\
                     GlobalVariableStatus ins <> None)
         (InstanceStatus status).
Proof.
  intros Ha Hp. apply anyUnavailable_false in Ha.
  rewrite Forall_forall in *. intros ins Hin.
  apply (Hp ins Hin). now apply Ha.
Qed.

(** ** The constraint validator *)

Lemma last_cons {A : Type} (l : list A) :
  forall a d, last (a :: l) d = last l a.
Proof.
  induction l as [| b rest IH]; intros a d; [reflexivity |].
  change (last (a :: b :: rest) d) with (last (b :: rest) d).
  now rewrite !IH.
Qed.

(** The loop of [validateConstraints] counts the writable instances and
    leaves the ordinal of the last of them in [primaryIndex]. *)
Lemma countWritable_loop (xs : list MySQLInstanceStatus) :
  forall i count primaryIndex,
    Forall (fun ins => GlobalVariableStatus ins <> None) xs ->
    range_fold countWritable xs i (count, primaryIndex) =
    Ok (count + Z.of_nat (List.length (writableFrom i xs)),
        last (writableFrom i xs) primaryIndex).
Proof.
  unfold writableFrom.
  induction xs as [| x rest IH]; intros i count primaryIndex Hgv; simpl.
  - now rewrite Z.add_0_r.
  - inversion Hgv as [| ? ? Hx Hrest]; subst.
    unfold countWritable at 1.
    destruct (GlobalVariableStatus x) as [gv |] eqn:E; [| congruence].
    assert (Hw : spec_writable x = negb (ReadOnly gv))
      by (unfold spec_writable; now rewrite E).
    simpl bind. rewrite Hw.
    destruct (ReadOnly gv); simpl; rewrite IH by assumption.
    + reflexivity.
    + f_equal. f_equal; [lia |].
      symmetry. exact (last_cons _ i primaryIndex).
Qed.

Lemma violationb_spec (cluster : MySQLCluster) (status : MySQLClusterStatus) :
  violationb cluster status = true <-> spec_violation cluster status.
Proof.
  unfold violationb, spec_violation.
  set (W := spec_writableInstances status).
  rewrite orb_true_iff, Z.ltb_lt. split.
  - intros [H | H]; [left; lia |].
    destruct (CurrentPrimaryIndex (Status cluster)) as [current |];
      [| discriminate].
    apply andb_true_iff in H as [Hone Hne].
    apply Z.eqb_eq in Hone. apply negb_true_iff, Z.eqb_neq in Hne.
    destruct W as [| i [| j W']]; simpl in Hone; try lia.
    right. exists current, i. simpl in Hne. repeat split; congruence.
  - intros [H | (current & i & Hc & HW & Hne)]; [left; lia |].
    right. rewrite Hc, HW. simpl.
    apply negb_true_iff, Z.eqb_neq. congruence.
Qed.

Lemma validateConstraints_eq (cluster : MySQLCluster)
      (status : MySQLClusterStatus) :
  Forall (fun ins => GlobalVariableStatus ins <> None) (InstanceStatus status) ->
  validateConstraints status cluster =
  Ok (if violationb cluster status then Some ErrConstraintsViolation
      else match findCondition (Conditions (Status cluster)) ConditionViolation with
           | Some _ => Some ErrConstraintsRecovered
           | None => None
           end).
Proof.
  intros Hgv. unfold validateConstraints, violationb.
  rewrite (countWritable_loop _ 0 0 0 Hgv). simpl bind.
  change (writableFrom 0 (InstanceStatus status))
    with (spec_writableInstances status).
  set (W := spec_writableInstances status).
  destruct (1 <? Z.of_nat (List.length W)); [reflexivity |]. simpl.
  destruct (CurrentPrimaryIndex (Status cluster)) as [current |]; simpl.
  - destruct ((Z.of_nat (List.length W) =? 1) && negb (current =? last W 0));
      [reflexivity |].
    now destruct (findCondition _ _).
  - now destruct (findCondition _ _).
Qed.

(** A nil [GlobalVariableStatus] makes the validator panic. *)
Lemma validateConstraints_no_panic_inv (cluster : MySQLCluster)
      (status : MySQLClusterStatus) (e : option error) :
  validateConstraints status cluster = Ok e ->
  Forall (fun ins => GlobalVariableStatus ins <> None) (InstanceStatus status).
Proof.
  unfold validateConstraints. intros H.
  apply bind_Ok_inv in H as [[count primaryIndex] [H _]].
  revert H. generalize 0 at 1. generalize (0, 0).
  induction (InstanceStatus status) as [| x rest IH]; intros s i H.
  - constructor.
  - simpl in H. apply bind_Ok_inv in H as [s' [Hx Hrest]].
    constructor; [| now apply (IH s' (i + 1))].
    unfold countWritable in Hx.
    destruct (GlobalVariableStatus x); [congruence | discriminate].
Qed.

Lemma findCondition_Some (conditions : list MySQLClusterCondition)
      (t : MySQLClusterConditionType) :
  (exists c, findCondition conditions t = Some c) <->
  (exists c, In c conditions /\ CondType c = t).
Proof.
  induction conditions as [| c rest IH]; simpl.
  - split; intros [c H]; [discriminate | tauto].
  - destruct (ConditionType_eqb (CondType c) t) eqn:E.
    + split; intros _; [| eauto].
      exists c. split; [now left |].
      destruct (CondType c), t; simpl in E; congruence.
    + rewrite IH. split; intros [c' [Hin Ht]].
      * eauto.
      * destruct Hin as [-> | Hin]; [| eauto].
        subst t. destruct (CondType c'); discriminate.
Qed.

(** ** The planner, stage by stage *)

(** C6 (Stage A).  When at least one instance of the observed status has
    [available=false], the planner returns the error [ErrUnavailableHost]
    and a nil [Operation]: no operators, no conditions.  Nothing else of the
    status is read, so neither the constraint check nor a later stage runs,
    whatever the other fields hold. *)
Theorem unavailable_host_short_circuits
        (cluster : MySQLCluster) (status : MySQLClusterStatus) :
  (exists ins, In ins (InstanceStatus status) /\ Available ins = false) ->
  plan cluster status = Ok (None, Some ErrUnavailableHost).
Proof.
  intros (ins & Hin & Hdown).
  unfold decideNextOperation.
  rewrite anyUnavailable_existsb.
  replace (existsb _ _) with true; [reflexivity |].
  symmetry. apply existsb_exists. exists ins. now rewrite Hdown.
Qed.

(** C2 (Stage B, violation).  For an observed status in which all instances
    are available, the validator returns [ErrConstraintsViolation] exactly
    when more than one instance is writable, or [currentPrimaryIndex] is set
    and the single writable instance is another one; the planner then
    returns no operators and the conditions [Violation=True],
    [Failure=True], [Available=False], [Healthy=False], with that error. *)
Theorem constraint_violation
        (cluster : MySQLCluster) (status : MySQLClusterStatus) :
  anyUnavailable status = false ->
  Forall probed (InstanceStatus status) ->
  (validateConstraints status cluster = Ok (Some ErrConstraintsViolation) <->
   spec_violation cluster status) /\
  (spec_violation cluster status ->
   plan cluster status =
   Ok (Some {| Operators := []; Wait := false;
               OpConditions :=
                 [mkCondition ConditionViolation ConditionTrue
                              (Error ErrConstraintsViolation);
                  condition ConditionFailure ConditionTrue;
                  condition ConditionAvailable ConditionFalse;
                  condition ConditionHealthy ConditionFalse];
               OpSyncedReplicas := None |},
       Some ErrConstraintsViolation)).
Proof.
  intros Ha Hp.
  assert (Hgv : Forall (fun ins => GlobalVariableStatus ins <> None)
                       (InstanceStatus status)).
  { eapply Forall_impl; [| exact (available_probed _ Ha Hp)]. simpl. tauto. }
  pose proof (validateConstraints_eq cluster status Hgv) as Hv.
  pose proof (violationb_spec cluster status) as Hs.
  split.
  - rewrite Hv. destruct (violationb cluster status).
    + split; [intros _; now apply Hs | reflexivity].
    + split.
      * destruct (findCondition _ _); discriminate.
      * intros H. apply Hs in H. discriminate.
  - intros H. apply Hs in H.
    unfold decideNextOperation. rewrite Ha, Hv, H. reflexivity.
Qed.

(** Stage B, recovery.  For an observed status in which all instances are
    available and no constraint is violated, the validator returns
    [ErrConstraintsRecovered] exactly when the stored condition set
    carries a condition of type [Violation], whatever its status; the
    planner then returns that error with the violation condition set and
    no operators. *)
Lemma recovered_plan
        (cluster : MySQLCluster) (status : MySQLClusterStatus) :
  anyUnavailable status = false ->
  Forall probed (InstanceStatus status) ->
  ~ spec_violation cluster status ->
  (validateConstraints status cluster = Ok (Some ErrConstraintsRecovered) <->
   storedViolation cluster) /\
  (storedViolation cluster ->
   plan cluster status =
   Ok (Some {| Operators := []; Wait := false;
               OpConditions := violationCondition Error ErrConstraintsRecovered;
               OpSyncedReplicas := None |},
       Some ErrConstraintsRecovered)).
Proof.
  intros Ha Hp Hnv.
  assert (Hgv : Forall (fun ins => GlobalVariableStatus ins <> None)
                       (InstanceStatus status)).
  { eapply Forall_impl; [| exact (available_probed _ Ha Hp)]. simpl. tauto. }
  pose proof (validateConstraints_eq cluster status Hgv) as Hv.
  assert (Hb : violationb cluster status = false).
  { destruct (violationb cluster status) eqn:E; [| reflexivity].
    exfalso. apply Hnv. now apply violationb_spec. }
  rewrite Hb in Hv.
  pose proof (findCondition_Some (Conditions (Status cluster))
                                 ConditionViolation) as Hf.
  fold (storedViolation cluster) in Hf.
  split.
  - rewrite Hv, <- Hf. destruct (findCondition _ _) as [c |].
    + split; [eauto | reflexivity].
    + split; [discriminate | intros [c H]; discriminate].
  - intros Hs. apply Hf in Hs as [c Hc]. rewrite Hc in Hv.
    unfold decideNextOperation. rewrite Ha, Hv. reflexivity.
Qed.

(** C4 (Stage C).  When all instances are available and the validator
    passes, the selected primary is 0; if the persisted
    [currentPrimaryIndex] is absent or is not 0, the planner returns the
    operator list [[UpdatePrimary(0)]] alone, with no condition, no wait
    flag and no [syncedReplicas]; otherwise the stage emits nothing. *)
Theorem primary_promotion_stage
        (cluster : MySQLCluster) (status : MySQLClusterStatus) :
  anyUnavailable status = false ->
  validateConstraints status cluster = Ok None ->
  selectPrimary status cluster = 0 /\
  ((CurrentPrimaryIndex (Status cluster) = None \/
    exists current, CurrentPrimaryIndex (Status cluster) = Some current /\
                    current <> selectPrimary status cluster) ->
   plan cluster status =
   Ok (Some {| Operators := [updatePrimaryOp 0]; Wait := false;
               OpConditions := []; OpSyncedReplicas := None |}, None)) /\
  (CurrentPrimaryIndex (Status cluster) = Some (selectPrimary status cluster) ->
   updatePrimary cluster (selectPrimary status cluster) = []).
Proof.
  intros Ha Hv. split; [reflexivity |]. split.
  - intros Hc. unfold decideNextOperation. rewrite Ha, Hv. simpl bind.
    unfold selectPrimary in *. unfold updatePrimary.
    destruct Hc as [-> | (current & -> & Hne)]; [reflexivity |].
    apply Z.eqb_neq in Hne. rewrite Hne. reflexivity.
  - intros Hc. unfold updatePrimary. rewrite Hc.
    now rewrite Z.eqb_refl.
Qed.


(** *** Stage D: replica configuration *)

Lemma append_assoc (a b c : string) :
  ((a ++ b) ++ c)%string = (a ++ b ++ c)%string.
Proof.
  induction a as [| ch a IH]; simpl; [reflexivity | now rewrite IH].
Qed.

Lemma primaryHostOf_spec (cluster : MySQLCluster) (primaryIndex : Z) :
  primaryHostOf uniqueName cluster primaryIndex =
  spec_primaryDNS (uniqueName cluster) primaryIndex (Namespace cluster).
Proof.
  unfold primaryHostOf, spec_primaryDNS. now rewrite !append_assoc.
Qed.

Lemma ordinalsWhere_In (p : Z -> MySQLInstanceStatus -> bool)
      (status : MySQLClusterStatus) (i : Z) :
  In i (ordinalsWhere p status) <->
  0 <= i /\
  exists ins, nth_error (InstanceStatus status) (Z.to_nat i) = Some ins /\
              p i ins = true.
Proof.
  unfold ordinalsWhere. rewrite in_map_iff. split.
  - intros ([j ins] & Hfst & Hin). simpl in Hfst. subst j.
    apply filter_In in Hin as [Hin Hp]. simpl in Hp.
    apply indexedFrom_bounds in Hin as [Hb Hn].
    rewrite Z.sub_0_r in Hn. split; [lia | eauto].
  - intros (Hi & ins & Hn & Hp). exists (i, ins). split; [reflexivity |].
    apply filter_In. split; [| exact Hp].
    apply (indexedFrom_complete _ 0) in Hn.
    now rewrite Z.add_0_l, Z2Nat.id in Hn.
Qed.

Lemma ordinalsWhere_nil (p : Z -> MySQLInstanceStatus -> bool)
      (status : MySQLClusterStatus) :
  ordinalsWhere p status = [] ->
  forall n ins, nth_error (InstanceStatus status) n = Some ins ->
                p (Z.of_nat n) ins = false.
Proof.
  intros Hnil n ins Hn.
  destruct (p (Z.of_nat n) ins) eqn:E; [| reflexivity].
  assert (Hin : In (Z.of_nat n) (ordinalsWhere p status)).
  { apply ordinalsWhere_In. split; [lia |]. exists ins.
    now rewrite Nat2Z.id. }
  rewrite Hnil in Hin. contradiction.
Qed.

(** The loop of [configureReplication] appends one operator per
    misconfigured non-primary instance, in the order of the slice. *)
Lemma configureReplication_loop (current : Z) (primaryHost : string)
      (xs : list MySQLInstanceStatus) :
  forall i operators,
    range_fold
      (fun i ins operators =>
         if i =? current then Ok operators
         else if needsReplication primaryHost ins
              then Ok (operators ++ [configureReplicationOp i primaryHost])
              else Ok operators)
      xs i operators =
    Ok (operators ++
        map (fun j => configureReplicationOp j primaryHost)
            (map fst
                 (filter (fun e =>
                            negb (fst e =? current) &&
                            match ReplicaStatus (snd e) with
                            | Some rs =>
                                negb (String.eqb (MasterHost rs) primaryHost)
                            | None => true
                            end)
                         (indexedFrom i xs)))).
Proof.
  induction xs as [| x rest IH]; intros i operators; simpl.
  - now rewrite app_nil_r.
  - unfold needsReplication at 1.
    destruct (i =? current); simpl.
    + apply IH.
    + destruct (match ReplicaStatus x with
                | Some rs => negb (String.eqb (MasterHost rs) primaryHost)
                | None => true
                end); simpl.
      * rewrite IH, <- app_assoc. reflexivity.
      * apply IH.
Qed.

Lemma configureReplication_eq (cluster : MySQLCluster)
      (status : MySQLClusterStatus) (current : Z) :
  CurrentPrimaryIndex (Status cluster) = Some current ->
  let host := spec_primaryDNS (uniqueName cluster) current (Namespace cluster) in
  configureReplication uniqueName status cluster =
  Ok (map (fun i => configureReplicationOp i host)
          (spec_misconfigured status current host)).
Proof.
  intros Hc host. unfold configureReplication. rewrite Hc. simpl bind.
  rewrite configureReplication_loop, primaryHostOf_spec. reflexivity.
Qed.

(** C5 (Stage D).  When Stage D is reached, [configureReplication] emits one
    [ConfigureReplication(i, primaryHost)] for exactly the instances [i]
    other than [currentPrimaryIndex] whose [replicaStatus] is null or whose
    [masterHost] is not
    "<clusterUniqueName>-<primaryIndex>.<clusterUniqueName>.<namespace>.svc",
    in ascending order of [i]; a non-empty list is what the planner
    returns, with nothing of a later stage. *)
Theorem replica_configuration_stage
        (cluster : MySQLCluster) (status : MySQLClusterStatus) (current : Z) :
  anyUnavailable status = false ->
  validateConstraints status cluster = Ok None ->
  CurrentPrimaryIndex (Status cluster) = Some current ->
  updatePrimary cluster (selectPrimary status cluster) = [] ->
  let host := spec_primaryDNS (uniqueName cluster) current (Namespace cluster) in
  let targets := spec_misconfigured status current host in
  configureReplication uniqueName status cluster =
  Ok (map (fun i => configureReplicationOp i host) targets) /\
  StronglySorted Z.lt targets /\
  (forall i,
      In i targets <->
      0 <= i /\ i <> current /\
      exists ins,
        nth_error (InstanceStatus status) (Z.to_nat i) = Some ins /\
        (ReplicaStatus ins = None \/
         exists rs, ReplicaStatus ins = Some rs /\ MasterHost rs <> host)) /\
  (targets <> [] ->
   plan cluster status =
   Ok (Some {| Operators := map (fun i => configureReplicationOp i host) targets;
               Wait := false; OpConditions := [];
               OpSyncedReplicas := None |}, None)).
Proof.
  intros Ha Hv Hc Hu host targets.
  pose proof (configureReplication_eq cluster status current Hc) as Heq.
  fold host in Heq. fold targets in Heq. cbv zeta in Heq.
  split; [exact Heq |]. split; [| split].
  - apply ordinals_ascending.
  - intros i. unfold targets, spec_misconfigured.
    rewrite ordinalsWhere_In. split.
    + intros (Hi & ins & Hn & Hp).
      apply andb_true_iff in Hp as [Hne Hrs].
      apply negb_true_iff, Z.eqb_neq in Hne.
      split; [exact Hi |]. split; [exact Hne |]. exists ins.
      split; [exact Hn |].
      destruct (ReplicaStatus ins) as [rs |]; [| now left].
      right. exists rs. split; [reflexivity |].
      apply negb_true_iff in Hrs. now apply String.eqb_neq.
    + intros (Hi & Hne & ins & Hn & Hrs).
      split; [exact Hi |]. exists ins. split; [exact Hn |].
      apply andb_true_iff. split.
      * now apply negb_true_iff, Z.eqb_neq.
      * destruct Hrs as [-> | (rs & -> & Hh)]; [reflexivity |].
        now apply negb_true_iff, String.eqb_neq.
  - intros Hne. unfold decideNextOperation.
    rewrite Ha, Hv. simpl bind. rewrite Hu. simpl.
    rewrite Heq. simpl bind. rewrite len_test.
    destruct (map _ _) eqn:E; [| reflexivity].
    apply map_eq_nil in E. contradiction.
Qed.

(** *** Stage E: the replication gate *)

(** The loop of [waitForReplication]: when it ends, [count] has grown by the
    number of caught-up instances and [outOfSyncIns] by the out-of-sync
    ordinals, and every non-primary instance had a replica status; when it
    panics, some non-primary instance had none. *)
Lemma countReplicated_loop (primary : Z) (primaryGTID : NullString)
      (xs : list MySQLInstanceStatus) :
  forall i count outOfSyncIns,
    match range_fold (countReplicated primary primaryGTID) xs i
                     (count, outOfSyncIns) with
    | Ok (count', outOfSyncIns') =>
        count' =
        count +
        Z.of_nat (List.length
                    (map fst (filter (fun e => caughtUpb primary primaryGTID
                                                         (fst e) (snd e))
                                     (indexedFrom i xs)))) /\
        outOfSyncIns' =
        outOfSyncIns ++
        map fst (filter (fun e => outOfSyncb primary (fst e) (snd e))
                        (indexedFrom i xs)) /\
        Forall (fun e => fst e <> primary -> ReplicaStatus (snd e) <> None)
               (indexedFrom i xs)
    | Panic p =>
        p = NilDereference /\
        Exists (fun e => fst e <> primary /\ ReplicaStatus (snd e) = None)
               (indexedFrom i xs)
    end.
Proof.
  induction xs as [| x rest IH]; intros i count outOfSyncIns.
  - simpl. rewrite Z.add_0_r, app_nil_r. repeat split. constructor.
  - cbn [range_fold indexedFrom filter fst snd].
    unfold countReplicated at 1, caughtUpb at 1, outOfSyncb at 1.
    destruct (i =? primary) eqn:Ei.
    + apply Z.eqb_eq in Ei. cbn [bind negb andb].
      rest_of_loop IH (i + 1) count outOfSyncIns; assumption.
    + apply Z.eqb_neq in Ei. cbn [negb andb].
      destruct (ReplicaStatus x) as [rs |] eqn:Ers; cbn [deref bind].
      * destruct (LastIoErrno rs =? 0); cbn [negb andb fst snd];
          [destruct (NullString_eqb (ExecutedGtidSet rs) primaryGTID) |];
          cbn [bind map List.length fst].
        -- rest_of_loop IH (i + 1) (count + 1) outOfSyncIns;
             [rewrite Hc; lia | assumption].
        -- rest_of_loop IH (i + 1) count outOfSyncIns; assumption.
        -- rest_of_loop IH (i + 1) count (outOfSyncIns ++ [i]);
             [assumption | rewrite Ho, <- app_assoc; reflexivity].
      * split; [reflexivity |]. apply Exists_cons_hd. simpl. now split.
Qed.

Lemma index_Ok_inv {A : Type} (xs : list A) (i : Z) (a : A) :
  index xs i = Ok a <-> 0 <= i /\ nth_error xs (Z.to_nat i) = Some a.
Proof.
  unfold index. destruct (i <? 0) eqn:E.
  - apply Z.ltb_lt in E. split; [discriminate | lia].
  - apply Z.ltb_ge in E.
    destruct (nth_error xs (Z.to_nat i)) as [b |].
    + split; [intros H; inversion H; now split | intros [_ H]; congruence].
    + split; [discriminate | intros [_ H]; discriminate].
Qed.

Lemma indexedFrom_Forall (P : Z -> MySQLInstanceStatus -> Prop)
      (xs : list MySQLInstanceStatus) :
  Forall (fun e => P (fst e) (snd e)) (indexedFrom 0 xs) <->
  forall n ins, nth_error xs n = Some ins -> P (Z.of_nat n) ins.
Proof.
  rewrite Forall_forall. split.
  - intros H n ins Hn.
    apply (indexedFrom_complete _ 0) in Hn. apply H in Hn. exact Hn.
  - intros H [j ins] Hin. apply indexedFrom_bounds in Hin as [Hb Hn].
    rewrite Z.sub_0_r in Hn. apply H in Hn.
    rewrite Z2Nat.id in Hn by lia. exact Hn.
Qed.

(** What [waitForReplication] answers when it returns. *)
Lemma waitForReplication_inv (cluster : MySQLCluster)
      (status : MySQLClusterStatus) (wait : bool) (outOfSyncIns : list Z) :
  waitForReplication status cluster = Ok (wait, outOfSyncIns) ->
  exists primaryIndex primaryStatus ps gv,
    CurrentPrimaryIndex (Status cluster) = Some primaryIndex /\
    0 <= primaryIndex /\
    nth_error (InstanceStatus status) (Z.to_nat primaryIndex) = Some primaryStatus /\
    PrimaryStatus primaryStatus = Some ps /\
    GlobalVariableStatus primaryStatus = Some gv /\
    (forall n ins, nth_error (InstanceStatus status) n = Some ins ->
                   Z.of_nat n <> primaryIndex -> ReplicaStatus ins <> None) /\
    outOfSyncIns = spec_outOfSync status primaryIndex /\
    wait = ReadOnly gv &&
           (Z.of_nat (List.length (spec_caughtUp status primaryIndex
                                                 (PrimaryExecutedGtidSet ps)))
            <? Z.quot (Replicas (Spec cluster)) 2).
Proof.
  unfold waitForReplication. intros H.
  apply bind_Ok_inv in H as (primaryIndex & Hc & H).
  apply bind_Ok_inv in H as (primaryStatus & Hi & H).
  apply bind_Ok_inv in H as (ps & Hps & H).
  apply bind_Ok_inv in H as ([count oos] & Hloop & H).
  apply bind_Ok_inv in H as (gv & Hgv & H).
  apply index_Ok_inv in Hi as [Hpos Hn].
  exists primaryIndex, primaryStatus, ps, gv.
  destruct (CurrentPrimaryIndex (Status cluster)); [| discriminate].
  destruct (PrimaryStatus primaryStatus); [| discriminate].
  destruct (GlobalVariableStatus primaryStatus); [| discriminate].
  simpl in Hc, Hps, Hgv. inversion Hc; inversion Hps; inversion Hgv; subst.
  pose proof (countReplicated_loop primaryIndex (PrimaryExecutedGtidSet ps)
                (InstanceStatus status) 0 0 []) as L.
  rewrite Hloop in L. destruct L as (Hcount & Hoos & Hrs).
  rewrite Z.add_0_l in Hcount. rewrite app_nil_l in Hoos.
  pose proof (proj1 (indexedFrom_Forall
                       (fun i ins => i <> primaryIndex ->
                                     ReplicaStatus ins <> None) _) Hrs) as Hrs'.
  repeat split; try assumption; try reflexivity.
  - destruct (ReadOnly gv); simpl in H; inversion H; subst; reflexivity.
  - destruct (ReadOnly gv); simpl in H; inversion H; subst; reflexivity.
Qed.

(** [waitForReplication] returns whenever the primary is observed with its
    two records and every other instance carries a replica status. *)
Lemma waitForReplication_eq (cluster : MySQLCluster)
      (status : MySQLClusterStatus) (primaryIndex : Z)
      (primaryStatus : MySQLInstanceStatus)
      (ps : MySQLPrimaryStatus) (gv : MySQLGlobalVariablesStatus) :
  CurrentPrimaryIndex (Status cluster) = Some primaryIndex ->
  0 <= primaryIndex ->
  nth_error (InstanceStatus status) (Z.to_nat primaryIndex) = Some primaryStatus ->
  PrimaryStatus primaryStatus = Some ps ->
  GlobalVariableStatus primaryStatus = Some gv ->
  (forall n ins, nth_error (InstanceStatus status) n = Some ins ->
                 Z.of_nat n <> primaryIndex -> ReplicaStatus ins <> None) ->
  waitForReplication status cluster =
  Ok (ReadOnly gv &&
      (Z.of_nat (List.length (spec_caughtUp status primaryIndex
                                            (PrimaryExecutedGtidSet ps)))
       <? Z.quot (Replicas (Spec cluster)) 2),
      spec_outOfSync status primaryIndex).
Proof.
  intros Hc Hpos Hn Hps Hgv Hrs.
  unfold waitForReplication. rewrite Hc. simpl bind.
  rewrite (proj2 (index_Ok_inv _ _ _) (conj Hpos Hn)). simpl bind.
  rewrite Hps. simpl bind.
  pose proof (countReplicated_loop primaryIndex (PrimaryExecutedGtidSet ps)
                (InstanceStatus status) 0 0 []) as L.
  destruct (range_fold _ _ _ _) as [[count oos] | p].
  - destruct L as (Hcount & Hoos & _). simpl bind. rewrite Hgv. simpl bind.
    rewrite Z.add_0_l in Hcount. rewrite app_nil_l in Hoos. subst.
    destruct (ReadOnly gv); reflexivity.
  - destruct L as [_ He]. exfalso.
    apply Exists_exists in He as ([j ins] & Hin & Hne & Hnone).
    apply indexedFrom_bounds in Hin as [Hb Hj].
    rewrite Z.sub_0_r in Hj. simpl in Hne, Hnone.
    apply (Hrs _ _ Hj); [lia | exact Hnone].
Qed.

Lemma acceptWriteRequest_eq (cluster : MySQLCluster)
      (status : MySQLClusterStatus) (primaryIndex : Z)
      (primaryStatus : MySQLInstanceStatus) (gv : MySQLGlobalVariablesStatus) :
  CurrentPrimaryIndex (Status cluster) = Some primaryIndex ->
  0 <= primaryIndex ->
  nth_error (InstanceStatus status) (Z.to_nat primaryIndex) = Some primaryStatus ->
  GlobalVariableStatus primaryStatus = Some gv ->
  acceptWriteRequest status cluster =
  Ok (if ReadOnly gv then [turnOffReadOnlyOp primaryIndex] else []).
Proof.
  intros Hc Hpos Hn Hgv. unfold acceptWriteRequest.
  rewrite Hc. simpl bind.
  rewrite (proj2 (index_Ok_inv _ _ _) (conj Hpos Hn)). simpl bind.
  rewrite Hgv. simpl bind. now destruct (ReadOnly gv).
Qed.

(** Go's [/] truncates and the specification's [floor(replicas/2)] rounds
    down; a count, which is not negative, is below the one exactly when it
    is below the other. *)
Lemma below_half (count N : Z) :
  0 <= count -> (count < Z.quot N 2 <-> count < N / 2).
Proof.
  intros Hc. destruct (Z_lt_le_dec N 0) as [Hn | Hn].
  - assert (Z.quot N 2 <= 0).
    { rewrite <- (Z.opp_involutive N), Z.quot_opp_l by lia.
      pose proof (Z.quot_pos (- N) 2). lia. }
    assert (N / 2 < 0) by (apply Z.div_lt_upper_bound; lia).
    lia.
  - rewrite Z.quot_div_nonneg by lia. reflexivity.
Qed.

(** Once [configureReplication] emits nothing, every non-primary instance
    replicates from the primary's DNS name. *)
Lemma configured_replicas (cluster : MySQLCluster)
      (status : MySQLClusterStatus) (current : Z) :
  CurrentPrimaryIndex (Status cluster) = Some current ->
  configureReplication uniqueName status cluster = Ok [] ->
  forall n ins,
    nth_error (InstanceStatus status) n = Some ins ->
    Z.of_nat n <> current ->
    exists rs,
      ReplicaStatus ins = Some rs /\
      MasterHost rs =
      spec_primaryDNS (uniqueName cluster) current (Namespace cluster).
Proof.
  intros Hc Hcfg n ins Hn Hne.
  rewrite (configureReplication_eq cluster status current Hc) in Hcfg.
  inversion Hcfg as [Hnil]. apply map_eq_nil in Hnil.
  pose proof (ordinalsWhere_nil _ _ Hnil n ins Hn) as Hp. simpl in Hp.
  apply Z.eqb_neq in Hne. rewrite Hne in Hp. simpl in Hp.
  destruct (ReplicaStatus ins) as [rs |]; [| discriminate].
  exists rs. split; [reflexivity |].
  apply negb_false_iff in Hp. now apply String.eqb_eq.
Qed.

(** The stages of a successful plan. *)
Lemma plan_inv (cluster : MySQLCluster) (status : MySQLClusterStatus)
      (op : Operation) :
  plan cluster status = Ok (Some op, None) ->
  op = {| Operators := [updatePrimaryOp 0]; Wait := false;
          OpConditions := []; OpSyncedReplicas := None |} \/
  (exists o ops,
      configureReplication uniqueName status cluster = Ok (o :: ops) /\
      op = {| Operators := o :: ops; Wait := false;
              OpConditions := []; OpSyncedReplicas := None |}) \/
  (exists outOfSyncInts,
      waitForReplication status cluster = Ok (true, outOfSyncInts) /\
      op = {| Operators := []; Wait := true;
              OpConditions := unavailableCondition outOfSyncInts;
              OpSyncedReplicas := None |}) \/
  (exists outOfSyncInts ops,
      waitForReplication status cluster = Ok (false, outOfSyncInts) /\
      acceptWriteRequest status cluster = Ok ops /\
      op = {| Operators := ops; Wait := false;
              OpConditions := availableCondition outOfSyncInts;
              OpSyncedReplicas :=
                Some (Replicas (Spec cluster) -
                      Z.of_nat (List.length outOfSyncInts)) |}).
Proof.
  unfold decideNextOperation.
  destruct (anyUnavailable status); [discriminate |].
  destruct (validateConstraints status cluster) as [[e |] | p];
    simpl bind; try discriminate.
  rewrite len_test. unfold selectPrimary, updatePrimary.
  destruct (CurrentPrimaryIndex (Status cluster)) as [current |];
    [destruct (current =? 0) |];
    try (intros H; inversion H; now left).
  destruct (configureReplication uniqueName status cluster) as [ops | p];
    simpl bind; [| discriminate].
  rewrite len_test. destruct ops as [| o ops].
  - destruct (waitForReplication status cluster) as [[wait oos] | p];
      simpl bind; [| discriminate].
    destruct wait.
    + intros H; inversion H. right. right. left. eauto.
    + destruct (acceptWriteRequest status cluster) as [ops | p];
        simpl bind; [| discriminate].
      rewrite len_test.
      destruct ops; intros H; inversion H; right; right; right; eauto.
  - intros H; inversion H. right. left. eauto.
Qed.

(** What the planner returns once Stage D has nothing left to do. *)
Lemma plan_gate (cluster : MySQLCluster) (status : MySQLClusterStatus)
      (primaryStatus : MySQLInstanceStatus)
      (ps : MySQLPrimaryStatus) (gv : MySQLGlobalVariablesStatus) :
  anyUnavailable status = false ->
  validateConstraints status cluster = Ok None ->
  CurrentPrimaryIndex (Status cluster) = Some 0 ->
  configureReplication uniqueName status cluster = Ok [] ->
  nth_error (InstanceStatus status) 0 = Some primaryStatus ->
  PrimaryStatus primaryStatus = Some ps ->
  GlobalVariableStatus primaryStatus = Some gv ->
  let outOfSyncInts := spec_outOfSync status 0 in
  let caught :=
    Z.of_nat (List.length (spec_caughtUp status 0 (PrimaryExecutedGtidSet ps))) in
  plan cluster status =
  Ok (Some (if ReadOnly gv && (caught <? Z.quot (Replicas (Spec cluster)) 2)
            then {| Operators := []; Wait := true;
                    OpConditions := unavailableCondition outOfSyncInts;
                    OpSyncedReplicas := None |}
            else {| Operators :=
                      if ReadOnly gv then [turnOffReadOnlyOp 0] else [];
                    Wait := false;
                    OpConditions := availableCondition outOfSyncInts;
                    OpSyncedReplicas :=
                      Some (Replicas (Spec cluster) -
                            Z.of_nat (List.length outOfSyncInts)) |}),
      None).
Proof.
  intros Ha Hv Hc Hcfg Hn Hps Hgv outOfSyncInts caught.
  assert (Hrs : forall n ins,
             nth_error (InstanceStatus status) n = Some ins ->
             Z.of_nat n <> 0 -> ReplicaStatus ins <> None).
  { intros n ins Hi Hne.
    destruct (configured_replicas cluster status 0 Hc Hcfg n ins Hi Hne)
      as (rs & -> & _). discriminate. }
  unfold decideNextOperation.
  rewrite Ha, Hv. simpl bind. unfold selectPrimary, updatePrimary.
  rewrite Hc. simpl. rewrite Hcfg. simpl.
  rewrite (waitForReplication_eq cluster status 0 primaryStatus ps gv)
    by (assumption || lia).
  simpl bind. fold outOfSyncInts. fold caught.
  destruct (ReadOnly gv && (caught <? Z.quot (Replicas (Spec cluster)) 2))
           eqn:Ew; [reflexivity |].
  rewrite (acceptWriteRequest_eq cluster status 0 primaryStatus gv)
    by (assumption || lia).
  simpl bind. rewrite len_test. now destruct (ReadOnly gv).
Qed.

(** C3 (Stage E).  For a status that reaches Stage E (all instances
    available, validator passed, [currentPrimaryIndex] the selected primary,
    nothing left to configure), the planner returns, and it returns
    [wait=true] exactly when the primary is still [readOnly=true] and fewer
    than [floor(replicas/2)] non-primary instances have [lastIoErrno = 0]
    and the primary's [executedGtidSet]; with a writable primary the gate
    passes whatever the GTID sets are. *)
Theorem replication_gate
        (cluster : MySQLCluster) (status : MySQLClusterStatus)
        (primaryStatus : MySQLInstanceStatus) :
  anyUnavailable status = false ->
  Forall probed (InstanceStatus status) ->
  validateConstraints status cluster = Ok None ->
  CurrentPrimaryIndex (Status cluster) = Some (selectPrimary status cluster) ->
  configureReplication uniqueName status cluster = Ok [] ->
  nth_error (InstanceStatus status) (Z.to_nat (selectPrimary status cluster))
  = Some primaryStatus ->
  exists ps gv op,
    PrimaryStatus primaryStatus = Some ps /\
    GlobalVariableStatus primaryStatus = Some gv /\
    plan cluster status = Ok (Some op, None) /\
    (Wait op = true <->
     ReadOnly gv = true /\
     Z.of_nat (List.length
                 (spec_caughtUp status (selectPrimary status cluster)
                                (PrimaryExecutedGtidSet ps)))
     < Replicas (Spec cluster) / 2) /\
    (ReadOnly gv = false -> Wait op = false).
Proof.
  unfold selectPrimary. simpl Z.to_nat.
  intros Ha Hp Hv Hc Hcfg Hn.
  pose proof (available_probed _ Ha Hp) as Hall.
  rewrite Forall_forall in Hall.
  destruct (Hall _ (nth_error_In _ _ Hn)) as [Hps Hgv].
  destruct (PrimaryStatus primaryStatus) as [ps |] eqn:Eps; [| congruence].
  destruct (GlobalVariableStatus primaryStatus) as [gv |] eqn:Egv;
    [| congruence].
  pose proof (plan_gate cluster status primaryStatus ps gv
                        Ha Hv Hc Hcfg Hn Eps Egv) as Hplan.
  cbv zeta in Hplan.
  set (caught := Z.of_nat (List.length
                             (spec_caughtUp status 0
                                            (PrimaryExecutedGtidSet ps)))) in *.
  assert (Hhalf : caught < Z.quot (Replicas (Spec cluster)) 2 <->
                  caught < Replicas (Spec cluster) / 2)
    by (apply below_half; unfold caught; lia).
  exists ps, gv. eexists. repeat split; try exact Hplan.
  - destruct (ReadOnly gv); [reflexivity |]. simpl. discriminate.
  - destruct (ReadOnly gv); simpl in H; [| discriminate].
    apply Hhalf. destruct (caught <? _) eqn:E; [now apply Z.ltb_lt |].
    discriminate.
  - intros [Hro Hlt]. rewrite Hro. apply Hhalf, Z.ltb_lt in Hlt.
    simpl. rewrite Hlt. reflexivity.
  - intros Hro. rewrite Hro. reflexivity.
Qed.

(** *** Stages F and G: the shape of a returned operation *)

Lemma availableCondition_Available (outOfSyncInstances : list Z) :
  findCondition (availableCondition outOfSyncInstances) ConditionAvailable =
  Some (condition ConditionAvailable ConditionTrue).
Proof.
  unfold availableCondition.
  destruct (Z.of_nat (List.length outOfSyncInstances) =? 0); reflexivity.
Qed.

Lemma unavailableCondition_Available (outOfSyncInstances : list Z) :
  findCondition (unavailableCondition outOfSyncInstances) ConditionAvailable =
  Some (condition ConditionAvailable ConditionFalse).
Proof.
  unfold unavailableCondition.
  destruct (Z.of_nat (List.length outOfSyncInstances) =? 0); reflexivity.
Qed.

(** C10.  An [Operation] the planner returns without error has no operator
    and no [SyncedReplicas] when [Wait] is set, and carries a
    [SyncedReplicas] exactly when its conditions are the available
    condition set, the one with [Available=True]. *)
Theorem operation_shape
        (cluster : MySQLCluster) (status : MySQLClusterStatus) (op : Operation) :
  plan cluster status = Ok (Some op, None) ->
  (Wait op = true -> Operators op = [] /\ OpSyncedReplicas op = None) /\
  (OpSyncedReplicas op <> None <->
   exists outOfSyncInts, OpConditions op = availableCondition outOfSyncInts) /\
  (OpSyncedReplicas op <> None <->
   findCondition (OpConditions op) ConditionAvailable =
   Some (condition ConditionAvailable ConditionTrue)).
Proof.
  intros H. apply plan_inv in H.
  destruct H as [-> | [(o & ops & _ & ->) | [(oos & _ & ->) | (oos & ops & _ & _ & ->)]]];
    simpl.
  - split; [discriminate |]. split; split; try congruence.
    intros [oos H].
    pose proof (availableCondition_Available oos) as Hf.
    rewrite <- H in Hf. discriminate.
  - split; [discriminate |]. split; split; try congruence.
    intros [oos H].
    pose proof (availableCondition_Available oos) as Hf.
    rewrite <- H in Hf. discriminate.
  - split; [now split |]. split; split; try congruence.
    + intros [oos' H].
      pose proof (availableCondition_Available oos') as Hf.
      rewrite <- H, unavailableCondition_Available in Hf. discriminate.
    + rewrite unavailableCondition_Available. discriminate.
  - split; [discriminate |]. split; split; try discriminate.
    + eauto.
    + intros _. apply availableCondition_Available.
Qed.

Lemma filter_drops {A : Type} (f : A -> bool) (xs : list A) (x : A) :
  In x xs -> f x = false ->
  (List.length (filter f xs) < List.length xs)%nat.
Proof.
  induction xs as [| y rest IH]; intros Hin Hf; [contradiction |].
  simpl. destruct Hin as [-> | Hin].
  - rewrite Hf. pose proof (filter_length_le f rest). lia.
  - specialize (IH Hin Hf). destruct (f y); simpl; lia.
Qed.

(** C1, as the code has it.  When the planner returns a [SyncedReplicas]
    (Stages F and G) for an observed status of [N = spec.replicas]
    instances, the value is [N] minus the number of out-of-sync instances
    (the non-primary instances with [lastIoErrno <> 0]) and lies in
    [[1, N]]: the primary is counted. *)
Theorem synced_replicas_includes_primary
        (cluster : MySQLCluster) (status : MySQLClusterStatus)
        (op : Operation) (n : Z) :
  Z.of_nat (List.length (InstanceStatus status)) = Replicas (Spec cluster) ->
  plan cluster status = Ok (Some op, None) ->
  OpSyncedReplicas op = Some n ->
  exists primary,
    CurrentPrimaryIndex (Status cluster) = Some primary /\
    n = Replicas (Spec cluster) -
        Z.of_nat (List.length (spec_outOfSync status primary)) /\
    1 <= n <= Replicas (Spec cluster).
Proof.
  intros Hlen H Hn. apply plan_inv in H.
  destruct H as [-> | [(o & ops & _ & ->) | [(oos & _ & ->) | (oos & ops & Hw & _ & ->)]]];
    simpl in Hn; try discriminate.
  inversion Hn; subst n; clear Hn.
  apply waitForReplication_inv in Hw
    as (primary & primaryStatus & ps & gv & Hc & Hpos & Hnth & _ & _ & _ & -> & _).
  exists primary. split; [exact Hc |]. split; [reflexivity |].
  unfold spec_outOfSync, ordinalsWhere. rewrite length_map.
  pose proof (indexedFrom_complete _ 0 _ _ Hnth) as Hin.
  rewrite Z.add_0_l, Z2Nat.id in Hin by assumption.
  pose proof (filter_drops
                (fun e => outOfSyncb primary (fst e) (snd e))
                _ _ Hin) as Hlt.
  rewrite indexedFrom_length in Hlt.
  assert (Hf : outOfSyncb primary primary primaryStatus = false)
    by (unfold outOfSyncb; now rewrite Z.eqb_refl).
  specialize (Hlt Hf). lia.
Qed.

(** *** The probe and nil safety *)

(** The probe sets [Available] only on the path on which the primary status
    and the global variables were read without error, hence are not nil. *)
Lemma probeInstance_probed (infra : infrastructure) (cluster : MySQLCluster)
      (instanceIdx : Z) :
  probed (probeInstance infra cluster instanceIdx).
Proof.
  unfold probed, probeInstance.
  destruct (getDB infra cluster instanceIdx) as [e | db]; [discriminate |].
  unfold getMySQLPrimaryStatus, getMySQLReplicaStatus,
    getMySQLGlobalVariablesStatus, getMySQLCloneStateStatus.
  destruct (showMasterStatus db); try discriminate.
  destruct (showSlaveStatus db); try discriminate;
    destruct (selectGlobalVariables db); try discriminate;
    destruct (selectCloneStatus db); try discriminate;
    intros _; split; discriminate.
Qed.

Lemma getMySQLClusterStatus_observed (infra : infrastructure)
      (cluster : MySQLCluster) (status : MySQLClusterStatus) :
  getMySQLClusterStatus infra cluster = Ok status ->
  Z.of_nat (List.length (InstanceStatus status)) = Replicas (Spec cluster) /\
  Forall probed (InstanceStatus status).
Proof.
  unfold getMySQLClusterStatus.
  destruct (Replicas (Spec cluster) <? 0) eqn:E; [discriminate |].
  apply Z.ltb_ge in E. intros H. inversion H; subst; clear H. simpl. split.
  - rewrite length_map, length_seq. lia.
  - apply Forall_forall. intros ins Hin.
    apply in_map_iff in Hin as (i & <- & _). apply probeInstance_probed.
Qed.

(** On an all-available probed status the planner returns, unless the
    status has no instance at all, in which case the primary's slot is out
    of range. *)
Lemma plan_on_probed (cluster : MySQLCluster) (status : MySQLClusterStatus) :
  anyUnavailable status = false ->
  Forall probed (InstanceStatus status) ->
  (exists r, plan cluster status = Ok r) \/
  (InstanceStatus status = [] /\ plan cluster status = Panic IndexOutOfRange).
Proof.
  intros Ha Hp.
  pose proof (available_probed _ Ha Hp) as Hall.
  assert (Hgv : Forall (fun ins => GlobalVariableStatus ins <> None)
                       (InstanceStatus status)).
  { eapply Forall_impl; [| exact Hall]. simpl. tauto. }
  pose proof (validateConstraints_eq cluster status Hgv) as Hv.
  destruct (if violationb cluster status then _ else _) as [e |] eqn:Ee.
  { left. unfold decideNextOperation. rewrite Ha, Hv. simpl. eauto. }
  destruct (CurrentPrimaryIndex (Status cluster)) as [current |] eqn:Hc.
  2: { left. unfold decideNextOperation, updatePrimary.
       rewrite Ha, Hv, Hc. simpl. eauto. }
  destruct (current =? 0) eqn:E0.
  2: { left. unfold decideNextOperation, updatePrimary, selectPrimary.
       rewrite Ha, Hv, Hc. simpl bind. rewrite E0. simpl. eauto. }
  apply Z.eqb_eq in E0. subst current.
  pose proof (configureReplication_eq cluster status 0 Hc) as Hcfg.
  cbv zeta in Hcfg.
  destruct (spec_misconfigured status 0 _) as [| t rest] eqn:Et.
  2: { left. unfold decideNextOperation, updatePrimary, selectPrimary.
       rewrite Ha, Hv, Hc. simpl bind. simpl. rewrite Hcfg. simpl. eauto. }
  simpl in Hcfg.
  destruct (InstanceStatus status) as [| primaryStatus others] eqn:El.
  - right. split; [reflexivity |].
    unfold decideNextOperation, updatePrimary, selectPrimary.
    rewrite Ha, Hv, Hc. simpl bind. simpl. rewrite Hcfg. simpl.
    unfold waitForReplication. rewrite Hc, El. reflexivity.
  - left. inversion Hall as [| ? ? [Hps Hg] _]; subst.
    destruct (PrimaryStatus primaryStatus) as [ps |] eqn:Eps; [| congruence].
    destruct (GlobalVariableStatus primaryStatus) as [gv |] eqn:Egv;
      [| congruence].
    assert (Hn : nth_error (InstanceStatus status) 0 = Some primaryStatus)
      by now rewrite El.
    rewrite (plan_gate cluster status primaryStatus ps gv
                       Ha Hv Hc Hcfg Hn Eps Egv).
    eauto.
Qed.

(** C9.  For a status the probe built in which every instance is available,
    the planner dereferences no nil record: every instance carries its
    primary status and its global variables, so the validator returns;
    where [configureReplication] emits nothing, every non-primary instance
    carries a replica status; and the planner as a whole never stops on a
    nil dereference (it returns as soon as the cluster has an instance). *)
Theorem planner_nil_safe
        (infra : infrastructure) (cluster : MySQLCluster)
        (status : MySQLClusterStatus) :
  getMySQLClusterStatus infra cluster = Ok status ->
  anyUnavailable status = false ->
  Forall (fun ins => PrimaryStatus ins <> None /\
                     GlobalVariableStatus ins <> None)
         (InstanceStatus status) /\
  (exists e, validateConstraints status cluster = Ok e) /\
  (forall current,
      CurrentPrimaryIndex (Status cluster) = Some current ->
      configureReplication uniqueName status cluster = Ok [] ->
      forall n ins, nth_error (InstanceStatus status) n = Some ins ->
                    Z.of_nat n <> current -> ReplicaStatus ins <> None) /\
  plan cluster status <> Panic NilDereference /\
  (0 < Replicas (Spec cluster) -> exists r, plan cluster status = Ok r).
Proof.
  intros Hprobe Ha.
  apply getMySQLClusterStatus_observed in Hprobe as [Hlen Hp].
  pose proof (available_probed _ Ha Hp) as Hall.
  split; [exact Hall |]. split; [| split; [| split]].
  - rewrite validateConstraints_eq; [eauto |].
    eapply Forall_impl; [| exact Hall]. simpl. tauto.
  - intros current Hc Hcfg n ins Hn Hne.
    destruct (configured_replicas cluster status current Hc Hcfg n ins Hn Hne)
      as (rs & -> & _). discriminate.
  - destruct (plan_on_probed cluster status Ha Hp) as [[r ->] | [_ ->]];
      discriminate.
  - intros Hpos.
    destruct (plan_on_probed cluster status Ha Hp) as [Hr | [Hnil _]];
      [exact Hr |].
    rewrite Hnil in Hlen. simpl in Hlen. lia.
Qed.

End PlannerProperties.

(** ** The UpdatePrimary operator *)

Lemma statements_differ : setSemiSyncMaster <> setWaitForSlaveCount.
Proof.
  apply String.eqb_neq. reflexivity.
Qed.

(** The calls of a run, case by case. *)
Lemma updatePrimaryOp_Run_trace (newPrimaryIndex : Z) (infra : infrastructure)
      (cluster : MySQLCluster) (status : MySQLClusterStatus) :
  let written := withCurrentPrimaryIndex cluster newPrimaryIndex in
  let expected := Z.quot (Replicas (Spec cluster)) 2 in
  let run := updatePrimaryOp_Run newPrimaryIndex infra cluster status in
  trace run = [] \/
  trace run = [StatusUpdate written] \/
  (statusUpdate infra written = None /\
   trace run = [StatusUpdate written;
                Exec newPrimaryIndex setSemiSyncMaster []]) \/
  (statusUpdate infra written = None /\
   (exists st gv,
       0 <= newPrimaryIndex /\
       nth_error (InstanceStatus status) (Z.to_nat newPrimaryIndex) = Some st /\
       GlobalVariableStatus st = Some gv /\
       RplSemiSyncMasterWaitForSlaveCount gv <> expected) /\
   trace run = [StatusUpdate written;
                Exec newPrimaryIndex setSemiSyncMaster [];
                Exec newPrimaryIndex setWaitForSlaveCount [expected]]).
Proof.
  intros written expected run. unfold run, updatePrimaryOp_Run.
  destruct (getDB infra cluster newPrimaryIndex) as [e | db]; [now left |].
  fold written.
  destruct (statusUpdate infra written) eqn:Eu; [right; now left |].
  destruct (exec db setSemiSyncMaster []); [right; right; left; now split |].
  destruct (index (InstanceStatus status) newPrimaryIndex) as [st | p] eqn:Ei;
    simpl bind; [| right; right; left; now split].
  destruct (GlobalVariableStatus st) as [gv |] eqn:Eg; simpl deref;
    [| right; right; left; now split].
  change (Replicas (Spec written)) with (Replicas (Spec cluster)).
  fold expected. cbv beta iota.
  destruct (RplSemiSyncMasterWaitForSlaveCount gv =? expected) eqn:Ew;
    [right; right; left; now split |].
  right; right; right. split; [reflexivity |]. split; [| reflexivity].
  apply index_Ok_inv in Ei as [Hpos Hn]. apply Z.eqb_neq in Ew.
  exists st, gv. auto.
Qed.

(** C8.  In every run of [UpdatePrimary(newIndex)], a MySQL statement is
    issued only after [currentPrimaryIndex = newIndex] has been written to
    the resource store (and the write succeeded), and the statement that
    sets the semi-sync wait count is issued only if the observed
    [rplSemiSyncMasterWaitForSlaveCount] differs from [floor(replicas/2)].
    The replica count is not negative. *)
Theorem update_primary_order
        (newIndex : Z) (infra : infrastructure)
        (cluster : MySQLCluster) (status : MySQLClusterStatus) :
  0 <= Replicas (Spec cluster) ->
  let run := updatePrimaryOp_Run newIndex infra cluster status in
  (forall before instance query args after,
      trace run = before ++ Exec instance query args :: after ->
      exists written,
        In (StatusUpdate written) before /\
        CurrentPrimaryIndex (Status written) = Some newIndex /\
        statusUpdate infra written = None) /\
  (forall instance args,
      In (Exec instance setWaitForSlaveCount args) (trace run) ->
      exists st gv,
        nth_error (InstanceStatus status) (Z.to_nat newIndex) = Some st /\
        GlobalVariableStatus st = Some gv /\
        RplSemiSyncMasterWaitForSlaveCount gv <> Replicas (Spec cluster) / 2).
Proof.
  intros Hn run.
  pose proof (updatePrimaryOp_Run_trace newIndex infra cluster status) as Ht.
  cbv zeta in Ht. fold run in Ht.
  rewrite Z.quot_div_nonneg in Ht by lia.
  pose proof statements_differ as Hd.
  destruct Ht as [Ht | [Ht | [[Hu Ht] | (Hu & (st & gv & _ & Hs & Hg & Hw) & Ht)]]];
    rewrite Ht; split.
  - intros [| e before] ? ? ? ? H; discriminate.
  - intros ? ? [].
  - intros [| e1 [| e2 before]] ? ? ? ? H; discriminate.
  - intros ? ? [H | []]. discriminate.
  - intros [| e1 [| e2 [| e3 before]]] ? ? ? ? H; try discriminate.
    inversion H; subst. eexists. split; [now left |]. now split.
  - intros ? ? [H | [H | []]]; [discriminate |].
    exfalso. apply Hd. congruence.
  - intros [| e1 [| e2 [| e3 [| e4 before]]]] ? ? ? ? H; try discriminate;
      inversion H; subst; eexists; (split; [now left | now split]).
  - intros ? ? _. eauto.
Qed.

(** ** The seed scenarios, run *)

Module Runs.

Import Scenario.

Lemma all_probed (instances : list MySQLInstanceStatus) :
  forallb (fun ins =>
             match PrimaryStatus ins, GlobalVariableStatus ins with
             | Some _, Some _ => true
             | _, _ => false
             end) instances = true ->
  Forall probed instances.
Proof.
  intros H. apply Forall_forall. intros ins Hin _.
  rewrite forallb_forall in H. specialize (H ins Hin).
  destruct (PrimaryStatus ins), (GlobalVariableStatus ins);
    try discriminate; split; discriminate.
Qed.

(** Scenario 1: the first reconcile promotes instance 0, the next one
    configures the two replicas. *)
Example first_promotion :
  plan (cluster None []) fresh =
  Ok (Some {| Operators := [updatePrimaryOp 0]; Wait := false;
              OpConditions := []; OpSyncedReplicas := None |}, None) /\
  plan (cluster (Some 0) []) fresh =
  Ok (Some {| Operators := [configureReplicationOp 1 "c-0.c.ns.svc";
                            configureReplicationOp 2 "c-0.c.ns.svc"];
              Wait := false; OpConditions := [];
              OpSyncedReplicas := None |}, None).
Proof. split; reflexivity. Qed.

(** Scenario 3: one caught-up replica out of three opens the gate. *)
Example gate_passes :
  exists op,
    plan (cluster (Some 0) []) oneLagging = Ok (Some op, None) /\
    Operators op = [turnOffReadOnlyOp 0] /\ Wait op = false /\
    findCondition (OpConditions op) ConditionAvailable =
    Some (condition ConditionAvailable ConditionTrue).
Proof. eexists. repeat split. Qed.

(** Scenario 6: the replica with an I/O error is reported out of sync. *)
Example io_error_reported :
  exists op,
    plan (cluster (Some 0) []) ioError = Ok (Some op, None) /\
    OpSyncedReplicas op = Some 2 /\
    findCondition (OpConditions op) ConditionOutOfSync =
    Some (mkCondition ConditionOutOfSync ConditionTrue
                      "outOfSync instances: []int{2}").
Proof. eexists. repeat split. Qed.

(** C1, as the specification words it, fails on scenario 2: the steady
    cluster of three instances reports [syncedReplicas = 3], which is
    neither within [[0, 2]] nor [3 - 1 - 0]. *)
Lemma synced_replicas_counterexample :
  exists op,
    Z.of_nat (List.length (InstanceStatus steady)) =
    Replicas (Spec (cluster (Some 0) [])) /\
    plan (cluster (Some 0) []) steady = Ok (Some op, None) /\
    OpSyncedReplicas op = Some 3 /\
    ~ spec_syncedReplicas (cluster (Some 0) []) steady 3.
Proof.
  eexists. repeat split.
  intros (primary & _ & Hrange & _). simpl in Hrange. lia.
Qed.

Lemma synced_replicas_includes_primary_witness :
  exists primary,
    CurrentPrimaryIndex (Status (cluster (Some 0) [])) = Some primary /\
    2 = Replicas (Spec (cluster (Some 0) [])) -
        Z.of_nat (List.length (spec_outOfSync ioError primary)) /\
    1 <= 2 <= Replicas (Spec (cluster (Some 0) [])).
Proof.
  eapply (synced_replicas_includes_primary uniqueName Error (cluster (Some 0) [])
                                ioError _ 2);
    reflexivity.
Defined.

Lemma constraint_violation_witness :
  spec_violation (cluster (Some 0) []) twoWritable /\
  plan (cluster (Some 0) []) twoWritable =
  Ok (Some {| Operators := []; Wait := false;
              OpConditions :=
                [mkCondition ConditionViolation ConditionTrue
                             (Error ErrConstraintsViolation);
                 condition ConditionFailure ConditionTrue;
                 condition ConditionAvailable ConditionFalse;
                 condition ConditionHealthy ConditionFalse];
              OpSyncedReplicas := None |},
      Some ErrConstraintsViolation).
Proof.
  assert (Hv : spec_violation (cluster (Some 0) []) twoWritable)
    by (left; simpl; lia).
  split; [exact Hv |].
  apply (constraint_violation uniqueName Error (cluster (Some 0) []) twoWritable);
    [reflexivity | apply all_probed; reflexivity | exact Hv].
Defined.

Lemma replication_gate_witness :
  exists ps gv op,
    PrimaryStatus (instance true 1 (gtid "u:1-5") None) = Some ps /\
    GlobalVariableStatus (instance true 1 (gtid "u:1-5") None) = Some gv /\
    plan (cluster (Some 0) []) bothLagging = Ok (Some op, None) /\
    (Wait op = true <->
     ReadOnly gv = true /\
     Z.of_nat (List.length
                 (spec_caughtUp bothLagging
                    (selectPrimary bothLagging (cluster (Some 0) []))
                    (PrimaryExecutedGtidSet ps)))
     < Replicas (Spec (cluster (Some 0) [])) / 2) /\
    (ReadOnly gv = false -> Wait op = false).
Proof.
  apply (replication_gate uniqueName Error (cluster (Some 0) []) bothLagging);
    [reflexivity | apply all_probed; reflexivity
     | reflexivity | reflexivity | reflexivity | reflexivity].
Defined.

(** With nothing persisted the planner stops at Stage C; Stage D, had it
    run, would have dereferenced the nil [currentPrimaryIndex]. *)
Lemma primary_promotion_stage_witness :
  configureReplication uniqueName fresh (cluster None []) =
  Panic NilDereference /\
  plan (cluster None []) fresh =
  Ok (Some {| Operators := [updatePrimaryOp 0]; Wait := false;
              OpConditions := []; OpSyncedReplicas := None |}, None).
Proof.
  split; [reflexivity |].
  apply (primary_promotion_stage uniqueName Error (cluster None []) fresh);
    [reflexivity | reflexivity | left; reflexivity].
Defined.

(** The planner stops at Stage D; Stage E, had it run, would have
    dereferenced the nil replica status of instance 1. *)
Lemma replica_configuration_stage_witness :
  waitForReplication fresh (cluster (Some 0) []) = Panic NilDereference /\
  plan (cluster (Some 0) []) fresh =
  Ok (Some {| Operators :=
                map (fun i => configureReplicationOp i "c-0.c.ns.svc") [1; 2];
              Wait := false; OpConditions := [];
              OpSyncedReplicas := None |}, None).
Proof.
  split; [reflexivity |].
  apply (replica_configuration_stage uniqueName Error (cluster (Some 0) [])
                                     fresh 0);
    [reflexivity | reflexivity | reflexivity | reflexivity | discriminate].
Defined.

(** The planner stops at Stage A; the validator, had it run, would have
    dereferenced the nil global variables of the instance that is down. *)
Lemma unavailable_host_witness :
  validateConstraints oneDown (cluster (Some 0) []) = Panic NilDereference /\
  plan (cluster (Some 0) []) oneDown = Ok (None, Some ErrUnavailableHost).
Proof.
  split; [reflexivity |].
  apply (unavailable_host_short_circuits uniqueName Error).
  exists down. split; [right; left; reflexivity | reflexivity].
Defined.

(** C7, as the specification words it, fails twice.  On a stored
    [Violation=False]: nothing is violated, no stored condition is
    [Violation=True], and the validator still returns
    [ErrConstraintsRecovered].  On a stored [Violation=True] with nothing
    violated: the reconcile returns [ErrConstraintsRecovered], and the
    next reconcile, on the cluster object it left and the same
    observation, does not plan the steady state: its planner returns
    [ErrConstraintsRecovered] again. *)
Lemma recovered_counterexample :
  anyUnavailable steady = false /\
  ~ spec_violation (cluster (Some 0) clearedViolation) steady /\
  ~ spec_storedViolationTrue (cluster (Some 0) clearedViolation) /\
  validateConstraints steady (cluster (Some 0) clearedViolation) =
  Ok (Some ErrConstraintsRecovered) /\
  (let stored := cluster (Some 0) [condition ConditionViolation ConditionTrue] in
   let first := Drill.reconcile (healthy steady) Drill.granted stored in
   spec_storedViolationTrue stored /\
   ~ spec_violation stored steady /\
   getMySQLClusterStatus (healthy steady) stored = Ok steady /\
   value first =
   Ok ({| Requeue := false; RequeueAfter := 0 |},
       Some ErrConstraintsRecovered) /\
   getMySQLClusterStatus (healthy steady) (object first) = Ok steady /\
   ~ spec_violation (object first) steady /\
   plan (cluster (Some 0) []) steady =
   Ok (Some {| Operators := []; Wait := false;
               OpConditions := availableCondition [];
               OpSyncedReplicas := Some 3 |}, None) /\
   plan (object first) steady =
   Ok (Some {| Operators := []; Wait := false;
               OpConditions := violationCondition Error ErrConstraintsRecovered;
               OpSyncedReplicas := None |},
       Some ErrConstraintsRecovered) /\
   value (Drill.reconcile (healthy steady) Drill.granted (object first)) =
   Ok ({| Requeue := false; RequeueAfter := 0 |},
       Some ErrConstraintsRecovered)).
Proof.
  split; [reflexivity |]. split; [| split; [| split; [reflexivity |]]].
  - intros H. apply violationb_spec in H. discriminate.
  - intros (c & [<- | []] & _ & H). discriminate.
  - cbv zeta. split.
    { eexists. split; [left; reflexivity |]. split; reflexivity. }
    split; [intros H; apply violationb_spec in H; discriminate |].
    split; [reflexivity |]. split; [reflexivity |]. split; [reflexivity |].
    split; [intros H; apply violationb_spec in H; discriminate |].
    repeat split.
Qed.

Lemma update_primary_order_witness :
  trace (updatePrimaryOp_Run 0 (healthy fresh) (cluster None []) fresh) =
  [StatusUpdate (cluster (Some 0) []); Exec 0 setSemiSyncMaster []] /\
  forall before instance query args after,
    trace (updatePrimaryOp_Run 0 (healthy fresh) (cluster None []) fresh) =
    before ++ Exec instance query args :: after ->
    exists written,
      In (StatusUpdate written) before /\
      CurrentPrimaryIndex (Status written) = Some 0 /\
      statusUpdate (healthy fresh) written = None.
Proof.
  split; [reflexivity |].
  apply (update_primary_order 0 (healthy fresh) (cluster None []) fresh).
  simpl. lia.
Defined.

Lemma planner_nil_safe_witness :
  plan (cluster (Some 0) []) steady <> Panic NilDereference /\
  exists r, plan (cluster (Some 0) []) steady = Ok r.
Proof.
  destruct (planner_nil_safe uniqueName Error (healthy steady)
                             (cluster (Some 0) []) steady)
    as (_ & _ & _ & Hnil & Hret); [reflexivity | reflexivity |].
  split; [exact Hnil |]. apply Hret. simpl. lia.
Defined.

Lemma operation_shape_witness :
  exists op,
    plan (cluster (Some 0) []) bothLagging = Ok (Some op, None) /\
    Wait op = true /\ Operators op = [] /\ OpSyncedReplicas op = None.
Proof.
  eexists. split; [reflexivity |]. split; [reflexivity |].
  eapply (operation_shape uniqueName Error (cluster (Some 0) []) bothLagging);
    reflexivity.
Defined.

End Runs.

(** * Further properties of the code *)

(** ** The instance probe *)

(** [getMySQLClusterStatus] fails only on a negative replica count;
    otherwise the status has one entry per declared replica, and entry [i]
    is the probe of instance [i] alone: what another instance answers does
    not change it. *)
Theorem probe_covers_every_replica
        (infra : infrastructure) (cluster : MySQLCluster) :
  (Replicas (Spec cluster) < 0 ->
   getMySQLClusterStatus infra cluster = Panic MakeSliceLen) /\
  (0 <= Replicas (Spec cluster) ->
   exists status,
     getMySQLClusterStatus infra cluster = Ok status /\
     Z.of_nat (List.length (InstanceStatus status)) = Replicas (Spec cluster) /\
     forall i, 0 <= i < Replicas (Spec cluster) ->
               nth_error (InstanceStatus status) (Z.to_nat i) =
               Some (probeInstance infra cluster i)).
Proof.
  unfold getMySQLClusterStatus. split; intros H.
  - apply Z.ltb_lt in H. now rewrite H.
  - assert (E : (Replicas (Spec cluster) <? 0) = false)
      by now apply Z.ltb_ge.
    rewrite E. eexists. split; [reflexivity |]. simpl. split.
    + rewrite length_map, length_seq. lia.
    + intros i Hi. rewrite nth_error_map, nth_error_seq.
      assert (Hlt : (Z.to_nat i <? Z.to_nat (Replicas (Spec cluster)))%nat
                    = true) by (apply Nat.ltb_lt; lia).
      rewrite Hlt. simpl. now rewrite Z2Nat.id by lia.
Qed.

(** An instance is reported available exactly when its handle could be
    opened, the primary status and the global variables each gave a row,
    and neither the replica status nor the clone status failed; the four
    records are then the rows read (none where the replica or clone query
    gave no row). *)
Theorem probe_available_iff
        (infra : infrastructure) (cluster : MySQLCluster) (instanceIdx : Z) :
  let st := probeInstance infra cluster instanceIdx in
  (Available st = true <->
   exists db,
     getDB infra cluster instanceIdx = inr db /\
     rowOf (showMasterStatus db) <> None /\
     failed (showSlaveStatus db) = false /\
     rowOf (selectGlobalVariables db) <> None /\
     failed (selectCloneStatus db) = false) /\
  (Available st = true ->
   forall db,
     getDB infra cluster instanceIdx = inr db ->
     PrimaryStatus st = rowOf (showMasterStatus db) /\
     ReplicaStatus st = rowOf (showSlaveStatus db) /\
     GlobalVariableStatus st = rowOf (selectGlobalVariables db) /\
     CloneStateStatus st = rowOf (selectCloneStatus db)).
Proof.
  unfold probeInstance, getMySQLPrimaryStatus, getMySQLReplicaStatus,
    getMySQLGlobalVariablesStatus, getMySQLCloneStateStatus.
  destruct (getDB infra cluster instanceIdx) as [e | db]; simpl.
  - split; [| discriminate].
    split; [discriminate | intros (db & H & _); discriminate].
  - destruct (showMasterStatus db) eqn:E1, (showSlaveStatus db) eqn:E2,
      (selectGlobalVariables db) eqn:E3, (selectCloneStatus db) eqn:E4; simpl;
      (split;
       [ split;
         [ try discriminate; intros _; exists db;
           rewrite E1, E2, E3, E4; repeat split; discriminate
         | intros (db' & H & Hp & Hr & Hg & Hc);
           inversion H; subst db'; rewrite ?E1, ?E2, ?E3, ?E4 in *;
           simpl in *; try reflexivity; congruence ]
       | try discriminate; intros _ db' H; inversion H; subst db';
         rewrite E1, E2, E3, E4; simpl; repeat split ]).
Qed.

(** The probe collects in a fixed order and stops at the first failure:
    whatever an instance is reported with, a replica status or global
    variables come with a primary status, and a clone status only with
    [Available]. *)
Theorem probe_collects_in_order
        (infra : infrastructure) (cluster : MySQLCluster) (instanceIdx : Z) :
  let st := probeInstance infra cluster instanceIdx in
  (ReplicaStatus st <> None -> PrimaryStatus st <> None) /\
  (GlobalVariableStatus st <> None -> PrimaryStatus st <> None) /\
  (CloneStateStatus st <> None -> Available st = true) /\
  (PrimaryStatus st = None ->
   st = {| Available := false; PrimaryStatus := None; ReplicaStatus := None;
           GlobalVariableStatus := None; CloneStateStatus := None |}).
Proof.
  unfold probeInstance, getMySQLPrimaryStatus, getMySQLReplicaStatus,
    getMySQLGlobalVariablesStatus, getMySQLCloneStateStatus.
  destruct (getDB infra cluster instanceIdx) as [e | db]; simpl.
  - repeat split; congruence.
  - destruct (showMasterStatus db), (showSlaveStatus db),
      (selectGlobalVariables db), (selectCloneStatus db); simpl;
      repeat split; congruence.
Qed.

(** ** The planner as a whole *)

Section PlannerCoverage.

Variable uniqueName : MySQLCluster -> string.
Variable Error : error -> string.

Local Abbreviation plan := (decideNextOperation uniqueName Error).
Local Abbreviation dns :=
  (fun cluster => spec_primaryDNS (uniqueName cluster) 0 (Namespace cluster)).

(** The path of a plan that ends without error. *)
Lemma plan_stages (cluster : MySQLCluster) (status : MySQLClusterStatus)
      (op : Operation) :
  plan cluster status = Ok (Some op, None) ->
  anyUnavailable status = false /\
  validateConstraints status cluster = Ok None /\
  ((CurrentPrimaryIndex (Status cluster) <> Some 0 /\
    op = {| Operators := [updatePrimaryOp 0]; Wait := false;
            OpConditions := []; OpSyncedReplicas := None |}) \/
   (CurrentPrimaryIndex (Status cluster) = Some 0 /\
    ((exists o ops,
         configureReplication uniqueName status cluster = Ok (o :: ops) /\
         op = {| Operators := o :: ops; Wait := false;
                 OpConditions := []; OpSyncedReplicas := None |}) \/
     (configureReplication uniqueName status cluster = Ok [] /\
      exists wait outOfSyncInts ops,
        waitForReplication status cluster = Ok (wait, outOfSyncInts) /\
        (wait = false -> acceptWriteRequest status cluster = Ok ops) /\
        op = if wait
             then {| Operators := []; Wait := true;
                     OpConditions := unavailableCondition outOfSyncInts;
                     OpSyncedReplicas := None |}
             else {| Operators := ops; Wait := false;
                     OpConditions := availableCondition outOfSyncInts;
                     OpSyncedReplicas :=
                       Some (Replicas (Spec cluster) -
                             Z.of_nat (List.length outOfSyncInts)) |})))).
Proof.
  unfold decideNextOperation.
  destruct (anyUnavailable status); [discriminate |].
  destruct (validateConstraints status cluster) as [[e |] | p];
    simpl bind; try discriminate.
  rewrite len_test. unfold selectPrimary, updatePrimary.
  intros H. split; [reflexivity |]. split; [reflexivity |].
  destruct (CurrentPrimaryIndex (Status cluster)) as [current |].
  2: { left. split; [discriminate |]. now inversion H. }
  destruct (current =? 0) eqn:E0.
  2: { left. apply Z.eqb_neq in E0. split; [congruence |]. now inversion H. }
  apply Z.eqb_eq in E0. subst current. right. split; [reflexivity |].
  destruct (configureReplication uniqueName status cluster) as [ops | p];
    simpl bind in H; [| discriminate].
  rewrite len_test in H. destruct ops as [| o ops].
  2: { left. exists o, ops. split; [reflexivity |]. now inversion H. }
  right. split; [reflexivity |].
  destruct (waitForReplication status cluster) as [[wait oos] | p];
    simpl bind in H; [| discriminate].
  destruct wait.
  - exists true, oos, []. split; [reflexivity |].
    split; [discriminate |]. now inversion H.
  - destruct (acceptWriteRequest status cluster) as [ops | p];
      simpl bind in H; [| discriminate].
    rewrite len_test in H. exists false, oos, ops.
    split; [reflexivity |]. split; [reflexivity |].
    destruct ops; now inversion H.
Qed.

(** What passing the validator means for the writable instances. *)
Lemma validated_writers (cluster : MySQLCluster) (status : MySQLClusterStatus) :
  validateConstraints status cluster = Ok None ->
  Forall (fun ins => GlobalVariableStatus ins <> None) (InstanceStatus status) /\
  (List.length (spec_writableInstances status) <= 1)%nat /\
  (forall current i,
      CurrentPrimaryIndex (Status cluster) = Some current ->
      In i (spec_writableInstances status) -> i = current) /\
  findCondition (Conditions (Status cluster)) ConditionViolation = None.
Proof.
  intros Hv.
  pose proof (validateConstraints_no_panic_inv _ _ _ Hv) as Hgv.
  split; [exact Hgv |].
  rewrite (validateConstraints_eq _ _ Hgv) in Hv.
  destruct (violationb cluster status) eqn:Eb; [discriminate |].
  destruct (findCondition _ _) eqn:Ef; [discriminate |].
  assert (Hn : ~ spec_violation cluster status).
  { intros H. apply violationb_spec in H. congruence. }
  unfold spec_violation in Hn.
  split; [lia |]. split; [| reflexivity].
  intros current i Hc Hin.
  destruct (spec_writableInstances status) as [| j [| k W]] eqn:EW.
  - contradiction.
  - destruct Hin as [-> | []].
    destruct (Z.eq_dec i current) as [-> | Hne]; [reflexivity |].
    exfalso. apply Hn. right. exists current, i. auto.
  - exfalso. apply Hn. left. simpl. lia.
Qed.

(** The planner returns a nil [Operation] exactly with
    [ErrUnavailableHost]; the only other errors are the two sentinel errors
    of the validator, and an error never comes with an operator, a wait
    flag or a [SyncedReplicas]. *)
Theorem planner_errors
        (cluster : MySQLCluster) (status : MySQLClusterStatus)
        (oop : option Operation) (oe : option error) :
  plan cluster status = Ok (oop, oe) ->
  (oop = None <-> oe = Some ErrUnavailableHost) /\
  (forall e,
      oe = Some e ->
      (e = ErrUnavailableHost \/ e = ErrConstraintsViolation \/
       e = ErrConstraintsRecovered) /\
      forall op,
        oop = Some op ->
        op = {| Operators := []; Wait := false;
                OpConditions := violationCondition Error e;
                OpSyncedReplicas := None |}).
Proof.
  unfold decideNextOperation.
  destruct (anyUnavailable status).
  { intros H; inversion H; subst. split; [tauto |].
    intros e He; inversion He; subst. split; [auto | discriminate]. }
  destruct (validateConstraints status cluster) as [[e |] | p] eqn:Ev;
    simpl bind; try discriminate.
  - intros H; inversion H; subst. split.
    + split; [discriminate |]. intros He. inversion He; subst e.
      exfalso. unfold validateConstraints in Ev.
      apply bind_Ok_inv in Ev as ([c i] & _ & Ev).
      destruct (1 <? c); [discriminate |].
      destruct (match CurrentPrimaryIndex (Status cluster) with
                | Some current => _ | None => _ end); [discriminate |].
      destruct (findCondition _ _); discriminate.
    + intros e' He; inversion He; subst e'. split.
      * unfold validateConstraints in Ev.
        apply bind_Ok_inv in Ev as ([c i] & _ & Ev).
        destruct (1 <? c); [inversion Ev; auto |].
        destruct (match CurrentPrimaryIndex (Status cluster) with
                  | Some current => _ | None => _ end); [inversion Ev; auto |].
        destruct (findCondition _ _); inversion Ev; auto.
      * intros op Hop. now inversion Hop.
  - intros H.
    assert (Hs : exists op, oop = Some op /\ oe = None).
    { revert H. rewrite len_test.
      destruct (updatePrimary _ _);
        [| intros H; inversion H; eauto].
      destruct (configureReplication _ _ _) as [ops | p]; simpl bind;
        [| discriminate].
      rewrite len_test. destruct ops; [| intros H; inversion H; eauto].
      destruct (waitForReplication _ _) as [[[] oos] | p]; simpl bind;
        [intros H; inversion H; eauto | | discriminate].
      destruct (acceptWriteRequest _ _) as [ops | p]; simpl bind;
        [| discriminate].
      destruct (negb _); intros H; inversion H; eauto. }
    destruct Hs as (op & -> & ->). split.
    + split; discriminate.
    + discriminate.
Qed.

(** Without operation there is an error. *)
Lemma plan_nil_has_error (cluster : MySQLCluster)
      (status : MySQLClusterStatus) :
  plan cluster status <> Ok (None, None).
Proof.
  unfold decideNextOperation.
  destruct (anyUnavailable status); [discriminate |].
  destruct (validateConstraints status cluster) as [[e |] | p];
    simpl bind; try discriminate.
  rewrite len_test.
  destruct (updatePrimary _ _); [| discriminate].
  destruct (configureReplication _ _ _) as [ops | p]; simpl bind;
    [| discriminate].
  rewrite len_test. destruct ops; [| discriminate].
  destruct (waitForReplication _ _) as [[[] oos] | p]; simpl bind;
    try discriminate.
  destruct (acceptWriteRequest _ _) as [ops | p]; simpl bind;
    [| discriminate].
  destruct (negb _); discriminate.
Qed.

Lemma acceptWriteRequest_inv (cluster : MySQLCluster)
      (status : MySQLClusterStatus) (ops : list Operator) :
  acceptWriteRequest status cluster = Ok ops ->
  exists primaryIndex primaryStatus gv,
    CurrentPrimaryIndex (Status cluster) = Some primaryIndex /\
    0 <= primaryIndex /\
    nth_error (InstanceStatus status) (Z.to_nat primaryIndex) = Some primaryStatus /\
    GlobalVariableStatus primaryStatus = Some gv /\
    ops = if ReadOnly gv then [turnOffReadOnlyOp primaryIndex] else [].
Proof.
  unfold acceptWriteRequest. intros H.
  apply bind_Ok_inv in H as (primaryIndex & Hc & H).
  apply bind_Ok_inv in H as (primaryStatus & Hi & H).
  apply bind_Ok_inv in H as (gv & Hgv & H).
  apply index_Ok_inv in Hi as [Hpos Hn].
  destruct (CurrentPrimaryIndex (Status cluster)); [| discriminate].
  destruct (GlobalVariableStatus primaryStatus) eqn:Eg; [| discriminate].
  simpl in Hc, Hgv. inversion Hc; inversion Hgv; subst.
  exists primaryIndex, primaryStatus, gv. repeat split; try assumption.
  destruct (ReadOnly gv); simpl in H; now inversion H.
Qed.

(** The replicas Stage D targets are within the slice and none is
    instance 0. *)
Lemma misconfigured_targets (status : MySQLClusterStatus) (host : string) :
  StronglySorted Z.lt (spec_misconfigured status 0 host) /\
  Forall (fun i => 0 < i < Z.of_nat (List.length (InstanceStatus status)))
         (spec_misconfigured status 0 host).
Proof.
  split; [apply ordinals_ascending |].
  apply Forall_forall. intros i Hin.
  apply ordinalsWhere_In in Hin as (Hi & ins & Hn & Hp).
  apply andb_true_iff in Hp as [Hne _].
  apply negb_true_iff, Z.eqb_neq in Hne.
  assert (Hlt : (Z.to_nat i < List.length (InstanceStatus status))%nat).
  { apply nth_error_Some. congruence. }
  lia.
Qed.

(** The operators of a plan are of one kind: nothing, the promotion of
    instance 0 alone, [TurnOffReadOnly(0)] alone, or one
    [ConfigureReplication] per target, all towards the DNS name of
    instance 0, in ascending order of targets that are instances of the
    status other than instance 0. *)
Theorem planned_operators
        (cluster : MySQLCluster) (status : MySQLClusterStatus) (op : Operation) :
  plan cluster status = Ok (Some op, None) ->
  Operators op = [] \/
  Operators op = [updatePrimaryOp 0] \/
  Operators op = [turnOffReadOnlyOp 0] \/
  exists targets,
    targets <> [] /\
    Operators op =
    map (fun i => configureReplicationOp i (dns cluster)) targets /\
    StronglySorted Z.lt targets /\
    Forall (fun i => 0 < i < Z.of_nat (List.length (InstanceStatus status)))
           targets.
Proof.
  intros H. apply plan_stages in H as (_ & _ & [[_ ->] | [Hc H]]).
  { right. now left. }
  destruct H as [(o & ops & Hcfg & ->) | (_ & wait & oos & ops & _ & Ha & ->)].
  - right. right. right.
    rewrite (configureReplication_eq uniqueName cluster status 0 Hc) in Hcfg.
    injection Hcfg as Hcfg.
    exists (spec_misconfigured status 0 (dns cluster)).
    split; [| split; [now simpl | apply misconfigured_targets]].
    intros E. rewrite E in Hcfg. discriminate.
  - destruct wait; [now left |]. simpl.
    apply acceptWriteRequest_inv in Ha
      as (p & primaryStatus & gv & Hp & _ & _ & _ & ->); [| reflexivity].
    rewrite Hc in Hp. injection Hp as <-.
    destruct (ReadOnly gv); [right; right; now left | now left].
Qed.

(** Whenever the planner returns conditions without error (it waits, or it
    reports the cluster available), instance 0 is the recorded primary and
    every other instance replicates from its DNS name. *)
Theorem conditions_mean_configured
        (cluster : MySQLCluster) (status : MySQLClusterStatus) (op : Operation) :
  plan cluster status = Ok (Some op, None) ->
  OpConditions op <> [] ->
  CurrentPrimaryIndex (Status cluster) = Some 0 /\
  spec_misconfigured status 0 (dns cluster) = [] /\
  forall n ins,
    nth_error (InstanceStatus status) n = Some ins ->
    n <> 0%nat ->
    exists rs, ReplicaStatus ins = Some rs /\ MasterHost rs = dns cluster.
Proof.
  intros H Hne. apply plan_stages in H as (_ & _ & [[_ ->] | [Hc H]]).
  { now contradiction Hne. }
  destruct H as [(o & ops & _ & ->) | (Hcfg & _)].
  { now contradiction Hne. }
  split; [exact Hc |]. split.
  - rewrite (configureReplication_eq uniqueName cluster status 0 Hc) in Hcfg.
    injection Hcfg as Hcfg. now apply map_eq_nil in Hcfg.
  - intros n ins Hn Hn0.
    apply (configured_replicas uniqueName cluster status 0 Hc Hcfg n ins Hn).
    lia.
Qed.

(** [TurnOffReadOnly] is planned only for instance 0, the recorded
    primary, and only when no instance accepts writes, every other
    instance replicates from instance 0, and at least [replicas / 2]
    of them have executed the primary's GTID set without I/O error. *)
Theorem write_acceptance_is_gated
        (cluster : MySQLCluster) (status : MySQLClusterStatus)
        (op : Operation) (i : Z) :
  plan cluster status = Ok (Some op, None) ->
  In (turnOffReadOnlyOp i) (Operators op) ->
  i = 0 /\
  CurrentPrimaryIndex (Status cluster) = Some 0 /\
  spec_writableInstances status = [] /\
  spec_misconfigured status 0 (dns cluster) = [] /\
  exists primaryStatus ps,
    nth_error (InstanceStatus status) 0 = Some primaryStatus /\
    PrimaryStatus primaryStatus = Some ps /\
    Z.quot (Replicas (Spec cluster)) 2 <=
    Z.of_nat (List.length
                (spec_caughtUp status 0 (PrimaryExecutedGtidSet ps))).
Proof.
  intros H Hin. apply plan_stages in H as (_ & Hv & [[_ ->] | [Hc H]]).
  { destruct Hin as [Hin | []]. discriminate. }
  destruct H as [(o & ops & Hcfg & ->) | (Hcfg & wait & oos & ops & Hw & Ha & ->)].
  { exfalso. cbn [Operators] in Hin.
    rewrite (configureReplication_eq uniqueName cluster status 0 Hc) in Hcfg.
    injection Hcfg as Hcfg. rewrite <- Hcfg in Hin.
    apply in_map_iff in Hin as (j & Hj & _). discriminate. }
  destruct wait; [contradiction |]. simpl in Hin.
  apply waitForReplication_inv in Hw
    as (p & primaryStatus & ps & gv & Hp & _ & Hn & Hps & Hgv & _ & _ & Hwait).
  rewrite Hc in Hp. injection Hp as <-. simpl in Hn.
  rewrite (acceptWriteRequest_eq cluster status 0 primaryStatus gv
                                 Hc (Z.le_refl 0) Hn Hgv) in Ha.
  specialize (Ha eq_refl). injection Ha as <-.
  destruct (ReadOnly gv) eqn:Ero; [| contradiction].
  destruct Hin as [Hin | []]. injection Hin as <-.
  split; [reflexivity |]. split; [exact Hc |]. split; [| split].
  - apply validated_writers in Hv as (_ & Hlen & Hcur & _).
    destruct (spec_writableInstances status) as [| j W] eqn:EW;
      [reflexivity |].
    exfalso. assert (Hj : j = 0) by (apply (Hcur 0 j Hc); now left).
    subst j.
    assert (Hin : In 0 (spec_writableInstances status))
      by (rewrite EW; now left).
    apply ordinalsWhere_In in Hin as (_ & ins & Hn' & Hwr).
    simpl in Hn'. rewrite Hn in Hn'. injection Hn' as <-.
    unfold spec_writable in Hwr. rewrite Hgv, Ero in Hwr. discriminate.
  - rewrite (configureReplication_eq uniqueName cluster status 0 Hc) in Hcfg.
    injection Hcfg as Hcfg. now apply map_eq_nil in Hcfg.
  - exists primaryStatus, ps. split; [exact Hn |]. split; [exact Hps |].
    simpl in Hwait. symmetry in Hwait. apply Z.ltb_ge in Hwait. exact Hwait.
Qed.

(** [len(xs) == 0]. *)
Lemma len_zero_test {A : Type} (xs : list A) :
  (Z.of_nat (List.length xs) =? 0) =
  match xs with [] => true | _ :: _ => false end.
Proof.
  destruct xs; [reflexivity |].
  apply Z.eqb_neq. simpl List.length. lia.
Qed.

(** The planner asks for nothing (no operator, no wait, no error) exactly in
    the steady state: instance 0 is the recorded primary and the only
    writable instance, every other instance replicates from it, and no
    [Violation] condition is stored.  It then reports the cluster
    available. *)
Theorem steady_state_iff
        (cluster : MySQLCluster) (status : MySQLClusterStatus) :
  anyUnavailable status = false ->
  Forall probed (InstanceStatus status) ->
  let steady :=
    CurrentPrimaryIndex (Status cluster) = Some 0 /\
    spec_writableInstances status = [0] /\
    findCondition (Conditions (Status cluster)) ConditionViolation = None /\
    spec_misconfigured status 0 (dns cluster) = [] in
  ((exists op, plan cluster status = Ok (Some op, None) /\
               Operators op = [] /\ Wait op = false) <-> steady) /\
  (steady ->
   plan cluster status =
   Ok (Some {| Operators := []; Wait := false;
               OpConditions := availableCondition (spec_outOfSync status 0);
               OpSyncedReplicas :=
                 Some (Replicas (Spec cluster) -
                       Z.of_nat (List.length (spec_outOfSync status 0))) |},
       None)).
Proof.
  intros Ha Hp steady.
  assert (Hfwd : steady ->
                 plan cluster status =
                 Ok (Some {| Operators := []; Wait := false;
                             OpConditions :=
                               availableCondition (spec_outOfSync status 0);
                             OpSyncedReplicas :=
                               Some (Replicas (Spec cluster) -
                                     Z.of_nat (List.length
                                                 (spec_outOfSync status 0))) |},
                     None)).
  { intros (Hc & HW & Hf & Hm).
    pose proof (available_probed _ Ha Hp) as Hall.
    assert (Hgv : Forall (fun ins => GlobalVariableStatus ins <> None)
                         (InstanceStatus status)).
    { eapply Forall_impl; [| exact Hall]. simpl. tauto. }
    assert (Hv : validateConstraints status cluster = Ok None).
    { rewrite (validateConstraints_eq _ _ Hgv), Hf.
      destruct (violationb cluster status) eqn:Eb; [| reflexivity].
      exfalso. apply violationb_spec in Eb.
      destruct Eb as [Hlt | (current & i & Hc' & HW' & Hne)].
      - rewrite HW in Hlt. simpl in Hlt. lia.
      - congruence. }
    assert (Hin : In 0 (spec_writableInstances status))
      by (rewrite HW; now left).
    apply ordinalsWhere_In in Hin as (_ & primaryStatus & Hn & Hwr).
    change (Z.to_nat 0) with 0%nat in Hn. unfold spec_writable in Hwr.
    destruct (GlobalVariableStatus primaryStatus) as [gv |] eqn:Egv;
      [| discriminate].
    apply negb_true_iff in Hwr.
    rewrite Forall_forall in Hall.
    destruct (Hall _ (nth_error_In _ _ Hn)) as [Hps _].
    destruct (PrimaryStatus primaryStatus) as [ps |] eqn:Eps; [| congruence].
    assert (Hcfg : configureReplication uniqueName status cluster = Ok []).
    { rewrite (configureReplication_eq uniqueName cluster status 0 Hc).
      cbv zeta. now rewrite Hm. }
    rewrite (plan_gate uniqueName Error cluster status primaryStatus ps gv
                       Ha Hv Hc Hcfg Hn Eps Egv).
    now rewrite Hwr. }
  split; [| exact Hfwd]. split.
  - intros (op & H & Hops & Hwait).
    apply plan_stages in H as (_ & Hv & [[_ ->] | [Hc H]]);
      [discriminate |].
    destruct H as [(o & ops & _ & ->) | (Hcfg & wait & oos & ops & Hw & Hacc & ->)];
      [discriminate |].
    destruct wait; [discriminate |]. simpl in Hops. subst ops.
    specialize (Hacc eq_refl).
    apply acceptWriteRequest_inv in Hacc
      as (p & primaryStatus & gv & Hp' & _ & Hn & Hgv & Hnil).
    rewrite Hc in Hp'. injection Hp' as <-.
    change (Z.to_nat 0) with 0%nat in Hn.
    destruct (ReadOnly gv) eqn:Ero; [discriminate |].
    apply validated_writers in Hv as (_ & Hlen & Hcur & Hf).
    assert (Hin : In 0 (spec_writableInstances status)).
    { apply ordinalsWhere_In. split; [lia |]. exists primaryStatus.
      split; [exact Hn |]. unfold spec_writable. now rewrite Hgv, Ero. }
    repeat split; try assumption.
    + destruct (spec_writableInstances status) as [| j [| k W]];
        [contradiction | | simpl in Hlen; lia].
      destruct Hin as [-> | []]. reflexivity.
    + rewrite (configureReplication_eq uniqueName cluster status 0 Hc) in Hcfg.
      injection Hcfg as Hcfg. now apply map_eq_nil in Hcfg.
  - intros Hs. eexists. split; [exact (Hfwd Hs) |]. now split.
Qed.

(** The list of out-of-sync instances that [waitForReplication] returns
    holds exactly the instances other than the primary whose replica status
    has [lastIoErrno <> 0], each once and in ascending order. *)
Theorem out_of_sync_list
        (cluster : MySQLCluster) (status : MySQLClusterStatus)
        (wait : bool) (outOfSyncIns : list Z) :
  waitForReplication status cluster = Ok (wait, outOfSyncIns) ->
  exists primaryIndex,
    CurrentPrimaryIndex (Status cluster) = Some primaryIndex /\
    StronglySorted Z.lt outOfSyncIns /\
    forall i,
      In i outOfSyncIns <->
      0 <= i /\ i <> primaryIndex /\
      exists ins rs,
        nth_error (InstanceStatus status) (Z.to_nat i) = Some ins /\
        ReplicaStatus ins = Some rs /\ LastIoErrno rs <> 0.
Proof.
  intros H. apply waitForReplication_inv in H
    as (p & _ & _ & _ & Hc & _ & _ & _ & _ & _ & -> & _).
  exists p. split; [exact Hc |]. split; [apply ordinals_ascending |].
  intros i. unfold spec_outOfSync. rewrite ordinalsWhere_In.
  unfold outOfSyncb. split.
  - intros (Hi & ins & Hn & Hb). apply andb_true_iff in Hb as [Hne Hio].
    apply negb_true_iff, Z.eqb_neq in Hne.
    destruct (ReplicaStatus ins) as [rs |] eqn:Ers; [| discriminate].
    apply negb_true_iff, Z.eqb_neq in Hio.
    split; [exact Hi |]. split; [exact Hne |]. now exists ins, rs.
  - intros (Hi & Hne & ins & rs & Hn & Hrs & Hio).
    split; [exact Hi |]. exists ins. split; [exact Hn |].
    rewrite Hrs. apply andb_true_iff.
    split; now apply negb_true_iff, Z.eqb_neq.
Qed.

(** The conditions of a plan, when there are any: one condition for each
    of [OutOfSync], [Healthy], [Failure] and [Available] and none of type
    [Violation]; [Failure] is false; [OutOfSync] is true, with the list in
    its message, exactly when some instance is out of sync; [Available] is
    true unless the planner waits, and [Healthy] is true only when nothing
    is out of sync either. *)
Theorem planned_conditions
        (cluster : MySQLCluster) (status : MySQLClusterStatus) (op : Operation) :
  plan cluster status = Ok (Some op, None) ->
  OpConditions op <> [] ->
  let outOfSync := spec_outOfSync status 0 in
  let stored := findCondition (OpConditions op) in
  NoDup (map CondType (OpConditions op)) /\
  (forall t, In t (map CondType (OpConditions op)) <-> t <> ConditionViolation) /\
  stored ConditionFailure = Some (condition ConditionFailure ConditionFalse) /\
  stored ConditionOutOfSync =
  Some (match outOfSync with
        | [] => condition ConditionOutOfSync ConditionFalse
        | _ :: _ => mkCondition ConditionOutOfSync ConditionTrue
                                (outOfSyncMessage outOfSync)
        end) /\
  stored ConditionAvailable =
  Some (condition ConditionAvailable
                  (if Wait op then ConditionFalse else ConditionTrue)) /\
  stored ConditionHealthy =
  Some (condition ConditionHealthy
                  (match Wait op, outOfSync with
                   | false, [] => ConditionTrue
                   | _, _ => ConditionFalse
                   end)).
Proof.
  intros H Hne outOfSync stored. unfold stored.
  apply plan_stages in H as (_ & _ & [[_ ->] | [Hc H]]);
    [now contradiction Hne |].
  destruct H as [(o & ops & _ & ->) | (_ & wait & oos & ops & Hw & _ & ->)];
    [now contradiction Hne |].
  apply waitForReplication_inv in Hw
    as (p & _ & _ & _ & Hp & _ & _ & _ & _ & _ & -> & _).
  rewrite Hc in Hp. injection Hp as <-. fold outOfSync.
  assert (Htypes : forall t : MySQLClusterConditionType,
             (ConditionOutOfSync = t \/ ConditionHealthy = t \/
              ConditionFailure = t \/ ConditionAvailable = t) <->
             t <> ConditionViolation).
  { intros []; split; intros H; try congruence; try tauto;
      destruct H as [H | [H | [H | H]]]; discriminate. }
  destruct wait; simpl;
    unfold unavailableCondition, availableCondition;
    rewrite len_zero_test; destruct outOfSync; simpl;
    (split; [repeat constructor; simpl; intuition discriminate |]);
    (split; [intros t; rewrite <- Htypes; tauto |]);
    repeat split.
Qed.

(** A cluster of one instance has no replica to configure and nothing to
    wait for: once instance 0 is the recorded primary, the planner at once
    reports the cluster available with [syncedReplicas = 1], and turns
    [read_only] off if it is still on. *)
Theorem single_instance_cluster
        (cluster : MySQLCluster) (ins : MySQLInstanceStatus)
        (gv : MySQLGlobalVariablesStatus) :
  Replicas (Spec cluster) = 1 ->
  CurrentPrimaryIndex (Status cluster) = Some 0 ->
  findCondition (Conditions (Status cluster)) ConditionViolation = None ->
  Available ins = true ->
  PrimaryStatus ins <> None ->
  GlobalVariableStatus ins = Some gv ->
  plan cluster {| InstanceStatus := [ins] |} =
  Ok (Some {| Operators :=
                if ReadOnly gv then [turnOffReadOnlyOp 0] else [];
              Wait := false;
              OpConditions := availableCondition [];
              OpSyncedReplicas := Some 1 |}, None).
Proof.
  intros HN Hc Hf Ha Hps Hgv.
  destruct (PrimaryStatus ins) as [ps |] eqn:Eps; [| congruence].
  unfold decideNextOperation, anyUnavailable, validateConstraints,
    updatePrimary, selectPrimary, configureReplication, waitForReplication,
    acceptWriteRequest, countWritable, countReplicated.
  destruct (ReadOnly gv) eqn:Ero;
    repeat (progress (simpl; rewrite ?Ha, ?Hgv, ?Hc, ?Hf, ?Eps, ?HN, ?Ero));
    reflexivity.
Qed.

(** Every operator of a plan acts on an instance of the status: the
    promotion and [TurnOffReadOnly] on instance 0, the configuration of
    replication on another one. *)
Lemma planned_targets (cluster : MySQLCluster) (status : MySQLClusterStatus)
      (op : Operation) (o : Operator) :
  plan cluster status = Ok (Some op, None) ->
  In o (Operators op) ->
  match o with
  | updatePrimaryOp i => i = 0
  | configureReplicationOp i _ =>
      0 < i < Z.of_nat (List.length (InstanceStatus status))
  | turnOffReadOnlyOp i => i = 0
  end.
Proof.
  intros H Hin. apply plan_stages in H as (_ & _ & [[_ ->] | [Hc H]]).
  { destruct Hin as [<- | []]. reflexivity. }
  destruct H as [(o' & ops & Hcfg & ->) | (_ & wait & oos & ops & _ & Ha & ->)].
  - rewrite (configureReplication_eq uniqueName cluster status 0 Hc) in Hcfg.
    injection Hcfg as Hcfg.
    change (In o (o' :: ops)) in Hin. rewrite <- Hcfg in Hin.
    apply in_map_iff in Hin as (i & <- & Hi).
    pose proof (misconfigured_targets status (dns cluster)) as [_ Hr].
    rewrite Forall_forall in Hr. now apply Hr.
  - destruct wait; [contradiction |]. specialize (Ha eq_refl).
    apply acceptWriteRequest_inv in Ha
      as (p & primaryStatus & gv & Hp & _ & _ & _ & ->).
    rewrite Hc in Hp. injection Hp as <-.
    destruct (ReadOnly gv); simpl in Hin; [| contradiction].
    destruct Hin as [<- | []]. reflexivity.
Qed.

(** A plan without error was made for a cluster with at most one writable
    instance: all instances are available, at most one has
    [readOnly=false], it is the current primary when one is recorded, and
    no [Violation] condition is stored. *)
Theorem planned_means_single_writer
        (cluster : MySQLCluster) (status : MySQLClusterStatus) (op : Operation) :
  plan cluster status = Ok (Some op, None) ->
  Forall (fun ins => Available ins = true) (InstanceStatus status) /\
  (List.length (spec_writableInstances status) <= 1)%nat /\
  (forall current i,
      CurrentPrimaryIndex (Status cluster) = Some current ->
      In i (spec_writableInstances status) -> i = current) /\
  findCondition (Conditions (Status cluster)) ConditionViolation = None.
Proof.
  intros H. apply plan_stages in H as (Ha & Hv & _).
  split; [now apply anyUnavailable_false |].
  now apply validated_writers in Hv as (_ & H1 & H2 & H3).
Qed.

End PlannerCoverage.

(** ** The operators *)

Section OperatorCoverage.

Variable ReplicationPasswordKey : string.
Variable MySQLPort : Z.
Variable ReplicatorUser : string.
Variable infra : infrastructure.
Variable access : replicationAccess.

Local Abbreviation Run :=
  (Run ReplicationPasswordKey MySQLPort ReplicatorUser infra access).
Local Abbreviation runOperators :=
  (runOperators ReplicationPasswordKey MySQLPort ReplicatorUser infra access).

(** A run of [UpdatePrimary(newIndex)] that returns nil has recorded
    [newIndex] in the cluster object and in the store, has switched
    instance [newIndex] to semi-sync master, and has set the wait count to
    [replicas / 2] exactly when the observed value differed: these are all
    its calls, in this order. *)
Theorem update_primary_success
        (newIndex : Z) (cluster : MySQLCluster) (status : MySQLClusterStatus) :
  let run := updatePrimaryOp_Run newIndex infra cluster status in
  let written := withCurrentPrimaryIndex cluster newIndex in
  let expected := Z.quot (Replicas (Spec cluster)) 2 in
  returned run = Ok None ->
  exists st gv,
    nth_error (InstanceStatus status) (Z.to_nat newIndex) = Some st /\
    GlobalVariableStatus st = Some gv /\
    clusterAfter run = written /\
    statusUpdate infra written = None /\
    trace run =
    [StatusUpdate written; Exec newIndex setSemiSyncMaster []] ++
    (if RplSemiSyncMasterWaitForSlaveCount gv =? expected then []
     else [Exec newIndex setWaitForSlaveCount [expected]]).
Proof.
  intros run written expected. unfold run, updatePrimaryOp_Run.
  destruct (getDB infra cluster newIndex) as [e | db]; [discriminate |].
  fold written.
  destruct (statusUpdate infra written) eqn:Eu; [discriminate |].
  destruct (exec db setSemiSyncMaster []); [discriminate |].
  destruct (index (InstanceStatus status) newIndex) as [st | p] eqn:Ei;
    simpl bind; [| discriminate].
  destruct (GlobalVariableStatus st) as [gv |] eqn:Eg; simpl deref;
    [| discriminate].
  change (Replicas (Spec written)) with (Replicas (Spec cluster)).
  fold expected. cbv beta iota.
  apply index_Ok_inv in Ei as [_ Hn].
  intros H. exists st, gv.
  destruct (RplSemiSyncMasterWaitForSlaveCount gv =? expected);
    repeat split; assumption.
Qed.

(** A run of [UpdatePrimary(newIndex)] that cannot open the handle does
    nothing.  Any other run sets [currentPrimaryIndex] in the cluster
    object and starts with the update of the store; if the store refuses,
    the run returns the store's error and issues no statement; if the
    store accepts and the semi-sync statement fails, the run returns that
    statement's error after these two calls.  The run panics exactly when
    the handle was opened, the store accepted the update, the semi-sync
    statement succeeded and the status has no global variables for
    instance [newIndex] (no such instance, or nothing read from it); the
    two calls have then been made.  Where the observed wait count differs
    from [replicas / 2], the third call sets it, and what that statement
    answers is what the run returns. *)
Theorem update_primary_failures
        (newIndex : Z) (cluster : MySQLCluster) (status : MySQLClusterStatus) :
  let run := updatePrimaryOp_Run newIndex infra cluster status in
  let written := withCurrentPrimaryIndex cluster newIndex in
  (forall e,
      getDB infra cluster newIndex = inl e ->
      trace run = [] /\ clusterAfter run = cluster /\
      returned run = Ok (Some e)) /\
  (forall db,
      getDB infra cluster newIndex = inr db ->
      clusterAfter run = written /\
      exists rest,
        trace run = StatusUpdate written :: rest /\
        (forall e, statusUpdate infra written = Some e ->
                   rest = [] /\ returned run = Ok (Some e)) /\
        (forall e, statusUpdate infra written = None ->
                   exec db setSemiSyncMaster [] = Some e ->
                   rest = [Exec newIndex setSemiSyncMaster []] /\
                   returned run = Ok (Some e))) /\
  (forall p,
      returned run = Panic p <->
      exists db,
        getDB infra cluster newIndex = inr db /\
        statusUpdate infra written = None /\
        exec db setSemiSyncMaster [] = None /\
        ((p = IndexOutOfRange /\
          (newIndex < 0 \/
           nth_error (InstanceStatus status) (Z.to_nat newIndex) = None)) \/
         (p = NilDereference /\ 0 <= newIndex /\
          exists st,
            nth_error (InstanceStatus status) (Z.to_nat newIndex) = Some st /\
            GlobalVariableStatus st = None))) /\
  (forall p,
      returned run = Panic p ->
      trace run = [StatusUpdate written; Exec newIndex setSemiSyncMaster []]) /\
  (forall db st gv,
      getDB infra cluster newIndex = inr db ->
      statusUpdate infra written = None ->
      exec db setSemiSyncMaster [] = None ->
      0 <= newIndex ->
      nth_error (InstanceStatus status) (Z.to_nat newIndex) = Some st ->
      GlobalVariableStatus st = Some gv ->
      let expected := Z.quot (Replicas (Spec cluster)) 2 in
      RplSemiSyncMasterWaitForSlaveCount gv <> expected ->
      trace run =
      [StatusUpdate written; Exec newIndex setSemiSyncMaster [];
       Exec newIndex setWaitForSlaveCount [expected]] /\
      returned run = Ok (exec db setWaitForSlaveCount [expected])).
Proof.
  intros run written.
  assert (Hlast :
            forall db st gv,
              getDB infra cluster newIndex = inr db ->
              statusUpdate infra written = None ->
              exec db setSemiSyncMaster [] = None ->
              0 <= newIndex ->
              nth_error (InstanceStatus status) (Z.to_nat newIndex) = Some st ->
              GlobalVariableStatus st = Some gv ->
              let expected := Z.quot (Replicas (Spec cluster)) 2 in
              RplSemiSyncMasterWaitForSlaveCount gv <> expected ->
              trace run =
              [StatusUpdate written; Exec newIndex setSemiSyncMaster [];
               Exec newIndex setWaitForSlaveCount [expected]] /\
              returned run = Ok (exec db setWaitForSlaveCount [expected])).
  { intros db st gv Hdb Hu Hx Hpos Hn Hg expected Hne.
    unfold run, updatePrimaryOp_Run. fold written.
    rewrite Hdb, Hu, Hx.
    rewrite (proj2 (index_Ok_inv _ _ _) (conj Hpos Hn)). simpl bind.
    rewrite Hg. simpl deref. cbv beta iota.
    change (Replicas (Spec written)) with (Replicas (Spec cluster)).
    fold expected. apply Z.eqb_neq in Hne. rewrite Hne. split; reflexivity. }
  cut ((forall e,
           getDB infra cluster newIndex = inl e ->
           trace run = [] /\ clusterAfter run = cluster /\
           returned run = Ok (Some e)) /\
       (forall db,
           getDB infra cluster newIndex = inr db ->
           clusterAfter run = written /\
           exists rest,
             trace run = StatusUpdate written :: rest /\
             (forall e, statusUpdate infra written = Some e ->
                        rest = [] /\ returned run = Ok (Some e)) /\
             (forall e, statusUpdate infra written = None ->
                        exec db setSemiSyncMaster [] = Some e ->
                        rest = [Exec newIndex setSemiSyncMaster []] /\
                        returned run = Ok (Some e))) /\
       (forall p,
           returned run = Panic p <->
           exists db,
             getDB infra cluster newIndex = inr db /\
             statusUpdate infra written = None /\
             exec db setSemiSyncMaster [] = None /\
             ((p = IndexOutOfRange /\
               (newIndex < 0 \/
                nth_error (InstanceStatus status) (Z.to_nat newIndex) = None)) \/
              (p = NilDereference /\ 0 <= newIndex /\
               exists st,
                 nth_error (InstanceStatus status) (Z.to_nat newIndex) = Some st /\
                 GlobalVariableStatus st = None))) /\
       (forall p,
           returned run = Panic p ->
           trace run = [StatusUpdate written; Exec newIndex setSemiSyncMaster []])).
  { intros (H1 & H2 & H3 & H4).
    exact (conj H1 (conj H2 (conj H3 (conj H4 Hlast)))). }
  clear Hlast. unfold run, updatePrimaryOp_Run. fold written.
  destruct (getDB infra cluster newIndex) as [e | db].
  { split; [| split; [| split]]; try discriminate.
    - intros e' H. inversion H. now subst.
    - intros p. split; [discriminate |]. intros (db & H & _). discriminate. }
  split; [discriminate |].
  destruct (statusUpdate infra written) as [e |] eqn:Eu.
  { split; [| split]; try discriminate.
    - intros db' _. split; [reflexivity |]. eexists. split; [reflexivity |].
      split; [| discriminate]. intros e' H. inversion H. now subst.
    - intros p. split; [discriminate |].
      intros (db' & _ & H & _). discriminate. }
  destruct (exec db setSemiSyncMaster []) as [e |] eqn:Ex.
  { split; [| split]; try discriminate.
    - intros db' Hdb. injection Hdb as <-. split; [reflexivity |].
      eexists. split; [reflexivity |]. split; [discriminate |].
      intros e' _ H. rewrite Ex in H. inversion H. now subst.
    - intros p. split; [discriminate |].
      intros (db' & Hdb & _ & H & _). injection Hdb as <-. congruence. }
  assert (Hcalls : forall db',
             @inr error DB db = inr db' ->
             forall rest' ret,
               (forall e, @None error = Some e -> rest' = [] /\ ret = Ok (Some e)) /\
               (forall e, @None error = None ->
                          exec db' setSemiSyncMaster [] = Some e ->
                          rest' = [Exec newIndex setSemiSyncMaster []] /\
                          ret = Ok (Some e))).
  { intros db' Hdb rest' ret. injection Hdb as <-.
    split; [discriminate |]. intros e _ H. congruence. }
  destruct (index (InstanceStatus status) newIndex) as [st | p] eqn:Ei;
    simpl bind.
  - apply index_Ok_inv in Ei as [Hpos Hn].
    destruct (GlobalVariableStatus st) as [gv |] eqn:Eg; simpl deref.
    + cbv beta iota.
      match goal with
      | |- context [if ?b then _ else _] => destruct b
      end; simpl;
        (split; [| split]; try discriminate;
         [ intros db' Hdb; (split; [reflexivity |]); eexists;
           (split; [reflexivity | now apply Hcalls])
         | intros p; (split; [discriminate |]);
           intros (db' & _ & _ & _ & [(_ & [Hneg | Hnone]) | (_ & _ & st' & Hn' & Hg)]);
           [lia | congruence | congruence] ]).
    + split; [| split].
      * intros db' Hdb. split; [reflexivity |]. eexists.
        split; [reflexivity | now apply Hcalls].
      * intros p. split.
        -- intros H. injection H as <-. exists db.
           repeat split; try assumption. right. eauto.
        -- intros (db' & _ & _ & _ & [(_ & [Hneg | Hnone]) | (-> & _)]);
             [lia | congruence | reflexivity].
      * reflexivity.
  - assert (Hp : p = IndexOutOfRange /\
                 (newIndex < 0 \/
                  nth_error (InstanceStatus status) (Z.to_nat newIndex) = None)).
    { unfold index in Ei. destruct (newIndex <? 0) eqn:El.
      - apply Z.ltb_lt in El. split; [congruence | now left].
      - destruct (nth_error (InstanceStatus status) (Z.to_nat newIndex));
          [discriminate |]. split; [congruence | now right]. }
    destruct Hp as [-> Hout].
    split; [| split].
    + intros db' Hdb. split; [reflexivity |]. eexists.
      split; [reflexivity | now apply Hcalls].
    + intros p. split.
      * intros H. injection H as <-. exists db.
        repeat split; try assumption. now left.
      * intros (db' & _ & _ & _ & [(-> & _) | (_ & Hpos & st & Hn & _)]);
          [reflexivity |].
        destruct Hout as [Hneg | Hnone]; [lia | congruence].
    + reflexivity.
Qed.

(** The calls of a sequence of statements are the statements up to and
    including the first that fails. *)
Lemma issue_cases (statements : list (Call * option error)) :
  (Forall (fun s => snd s = None) statements /\
   issue statements = (map fst statements, None)) \/
  (exists before c e after,
      statements = before ++ (c, Some e) :: after /\
      Forall (fun s => snd s = None) before /\
      issue statements = (map fst before ++ [c], Some e)).
Proof.
  induction statements as [| [c [e |]] rest IH].
  - left. split; [constructor | reflexivity].
  - right. exists [], c, e, rest. repeat split. constructor.
  - destruct IH as [[Hall Heq] | (before & c' & e & after & Hs & Hall & Heq)].
    + left. split; [now constructor |]. simpl. now rewrite Heq.
    + right. exists ((c, None) :: before), c', e, after.
      split; [simpl; now rewrite Hs |]. split; [now constructor |].
      simpl. now rewrite Heq.
Qed.

(** [ConfigureReplication(index, primaryHost)] never changes the cluster
    object.  When the replication password cannot be read it issues
    nothing and returns that error; when the password is read and the
    handle cannot be opened it issues nothing and returns that error.
    With both at hand it issues, on instance [index] and in this order,
    [STOP SLAVE], [CHANGE MASTER TO] with the primary host, the port, the
    replication user and the password, the switch to semi-sync slave and
    [START SLAVE]: all four and nil if none fails, and otherwise the
    statements up to and including the first that fails, and its error. *)
Theorem configure_replication_run
        (index : Z) (primaryHost : string)
        (cluster : MySQLCluster) (status : MySQLClusterStatus) :
  let run :=
    configureReplicationOp_Run ReplicationPasswordKey MySQLPort ReplicatorUser
                               infra access index primaryHost cluster status in
  object run = cluster /\
  (forall e,
      getPassword access cluster ReplicationPasswordKey = inl e ->
      calls run = [] /\ value run = Ok (Some e)) /\
  (forall password e,
      getPassword access cluster ReplicationPasswordKey = inr password ->
      getDB infra cluster index = inl e ->
      calls run = [] /\ value run = Ok (Some e)) /\
  (forall password db,
      getPassword access cluster ReplicationPasswordKey = inr password ->
      getDB infra cluster index = inr db ->
      let args := [StringArg primaryHost; IntArg MySQLPort;
                   StringArg ReplicatorUser; StringArg password] in
      let script :=
        [(Issued (Exec index stopSlave []), exec db stopSlave []);
         (ExecWith index changeMaster args, execWith access db changeMaster args);
         (Issued (Exec index setSemiSyncSlave []), exec db setSemiSyncSlave []);
         (Issued (Exec index startSlave []), exec db startSlave [])] in
      (Forall (fun s => snd s = None) script /\
       calls run = map fst script /\ value run = Ok None) \/
      (exists before c e after,
          script = before ++ (c, Some e) :: after /\
          Forall (fun s => snd s = None) before /\
          calls run = map fst before ++ [c] /\
          value run = Ok (Some e))).
Proof.
  intros run. unfold run, configureReplicationOp_Run.
  destruct (getPassword access cluster ReplicationPasswordKey)
    as [e | password].
  { split; [reflexivity |]. split; [| split]; try discriminate.
    intros e' H. injection H as <-. split; reflexivity. }
  destruct (getDB infra cluster index) as [e | db].
  { split; [reflexivity |]. split; [| split]; try discriminate.
    intros password' e' _ H. injection H as <-. split; reflexivity. }
  split; [now destruct (issue _) |]. split; [discriminate |].
  split; [discriminate |].
  intros password' db' Hpw Hdb. injection Hpw as <-. injection Hdb as <-.
  cbv zeta.
  match goal with
  | |- context [issue ?s] => destruct (issue_cases s) as [[Hall Heq] | Hfail]
  end.
  - rewrite Heq. left. repeat split. exact Hall.
  - destruct Hfail as (before & c & e & after & Hs & Hall & Heq).
    rewrite Heq. right. exists before, c, e, after. repeat split; assumption.
Qed.

(** A secret that lacks the replication password key is no error: the
    password reads as empty, and [CHANGE MASTER TO] is issued with it once
    [STOP SLAVE] has succeeded. *)
Theorem configure_replication_without_key
        (index : Z) (primaryHost : string)
        (cluster : MySQLCluster) (status : MySQLClusterStatus)
        (data : string -> option string) (db : DB) :
  getSecret access cluster = inr data ->
  data ReplicationPasswordKey = None ->
  getDB infra cluster index = inr db ->
  exec db stopSlave [] = None ->
  let run :=
    configureReplicationOp_Run ReplicationPasswordKey MySQLPort ReplicatorUser
                               infra access index primaryHost cluster status in
  exists rest,
    calls run =
    Issued (Exec index stopSlave []) ::
    ExecWith index changeMaster
             [StringArg primaryHost; IntArg MySQLPort;
              StringArg ReplicatorUser; StringArg EmptyString] :: rest.
Proof.
  intros Hs Hk Hdb Hstop run. unfold run, configureReplicationOp_Run.
  unfold getPassword. rewrite Hs, Hk, Hdb. cbn [issue]. rewrite Hstop.
  destruct (execWith access db changeMaster _); [now eexists |].
  destruct (exec db setSemiSyncSlave []); [now eexists |].
  destruct (exec db startSlave []); now eexists.
Qed.

Lemma issue_calls (statements : list (Call * option error)) (c : Call) :
  In c (fst (issue statements)) -> In c (map fst statements).
Proof.
  induction statements as [| [c' [e |]] rest IH]; simpl.
  - intros [].
  - intros [-> | []]. now left.
  - destruct (issue rest) as [cs err]. simpl in *.
    intros [-> | Hin]; [now left | right; now apply IH].
Qed.

(** What a run leaves of the cluster object. *)
Lemma Run_object (o : Operator) (cluster : MySQLCluster)
      (status : MySQLClusterStatus) :
  object (Run o cluster status) = cluster \/
  exists i, o = updatePrimaryOp i /\
            object (Run o cluster status) = withCurrentPrimaryIndex cluster i.
Proof.
  destruct o as [i | i host | i]; simpl.
  - unfold updatePrimaryOp_Run.
    destruct (getDB infra cluster i) as [e | db]; [now left |].
    right. exists i. split; [reflexivity |].
    destruct (statusUpdate infra _); [reflexivity |].
    destruct (exec db setSemiSyncMaster []); [reflexivity |].
    destruct (bind _ _); [| reflexivity].
    now destruct (_ =? _).
  - left. unfold configureReplicationOp_Run.
    destruct (getPassword access cluster ReplicationPasswordKey);
      [reflexivity |].
    destruct (getDB infra cluster i); [reflexivity |].
    now destruct (issue _).
  - left. unfold turnOffReadOnlyOp_Run.
    now destruct (getDB infra cluster i).
Qed.

Lemma Run_keeps_status (o : Operator) (cluster : MySQLCluster)
      (status : MySQLClusterStatus) :
  let run := Run o cluster status in
  Namespace (object run) = Namespace cluster /\
  Spec (object run) = Spec cluster /\
  Conditions (Status (object run)) = Conditions (Status cluster) /\
  SyncedReplicas (Status (object run)) = SyncedReplicas (Status cluster) /\
  Ready (Status (object run)) = Ready (Status cluster).
Proof.
  intros run. unfold run.
  destruct (Run_object o cluster status) as [-> | (i & _ & ->)];
    repeat split.
Qed.

(** The instance an operator acts on. *)
Lemma Run_calls (o : Operator) (cluster : MySQLCluster)
      (status : MySQLClusterStatus) (c : Call) :
  In c (calls (Run o cluster status)) ->
  match o, c with
  | updatePrimaryOp i, Issued (StatusUpdate written) =>
      written = withCurrentPrimaryIndex cluster i
  | updatePrimaryOp i, Issued (Exec j _ _)
  | configureReplicationOp i _, Issued (Exec j _ _)
  | configureReplicationOp i _, ExecWith j _ _
  | turnOffReadOnlyOp i, Issued (Exec j _ _) => j = i
  | _, _ => False
  end.
Proof.
  destruct o as [i | i host | i]; simpl.
  - pose proof (updatePrimaryOp_Run_trace i infra cluster status) as Ht.
    cbv zeta in Ht.
    destruct Ht as [Ht | [Ht | [[_ Ht] | (_ & _ & Ht)]]]; rewrite Ht; simpl;
      intuition (subst; auto).
  - unfold configureReplicationOp_Run.
    destruct (getPassword access cluster ReplicationPasswordKey)
      as [e | password]; [intros [] |].
    destruct (getDB infra cluster i) as [e | db]; [intros [] |].
    match goal with
    | |- context [issue ?s] =>
        pose proof (issue_calls s c) as Hs; destruct (issue s) as [cs err]
    end.
    simpl in *. intros Hin. apply Hs in Hin. intuition (subst; auto).
  - unfold turnOffReadOnlyOp_Run.
    destruct (getDB infra cluster i); simpl; intuition (subst; auto).
Qed.

(** No operator touches the declared spec, the conditions, the synced
    replica count or the ready flag of the cluster object, and none but
    [UpdatePrimary] touches [currentPrimaryIndex] or writes to the store;
    [UpdatePrimary(i)] leaves the cluster as it was or with
    [currentPrimaryIndex = i]. *)
Theorem operators_keep_status
        (o : Operator) (cluster : MySQLCluster) (status : MySQLClusterStatus) :
  let run := Run o cluster status in
  Namespace (object run) = Namespace cluster /\
  Spec (object run) = Spec cluster /\
  Conditions (Status (object run)) = Conditions (Status cluster) /\
  SyncedReplicas (Status (object run)) = SyncedReplicas (Status cluster) /\
  Ready (Status (object run)) = Ready (Status cluster) /\
  (object run = cluster \/
   exists i, o = updatePrimaryOp i /\
             object run = withCurrentPrimaryIndex cluster i) /\
  (forall written,
      In (Issued (StatusUpdate written)) (calls run) ->
      exists i, o = updatePrimaryOp i /\
                written = withCurrentPrimaryIndex cluster i).
Proof.
  intros run. unfold run.
  destruct (Run_keeps_status o cluster status) as (H1 & H2 & H3 & H4 & H5).
  repeat split; try assumption.
  - apply Run_object.
  - intros written Hin. apply Run_calls in Hin.
    destruct o as [i | i host | i]; [eauto | contradiction | contradiction].
Qed.

(** Operators compose in sequence: running [first ++ others] is running
    [first] and, if all of them returned nil, running [others] on the
    cluster object as [first] left it; after an operator that fails,
    nothing more is run. *)
Theorem operators_run_in_order
        (first others : list Operator)
        (cluster : MySQLCluster) (status : MySQLClusterStatus) :
  let ran := runOperators first cluster status in
  runOperators (first ++ others) cluster status =
  match value ran with
  | Ok None =>
      let rest := runOperators others (object ran) status in
      {| calls := calls ran ++ calls rest;
         object := object rest;
         value := value rest |}
  | _ => ran
  end.
Proof.
  revert cluster.
  induction first as [| o first IH]; intros cluster; simpl.
  - now destruct (runOperators others cluster status).
  - destruct (value (Run o cluster status)) as [[e |] | p] eqn:Ev;
      [now rewrite Ev | | now rewrite Ev].
    rewrite IH. simpl.
    destruct (value (runOperators first _ status)) as [[e |] | p] eqn:E2;
      simpl; rewrite ?E2; [reflexivity | | reflexivity].
    now rewrite app_assoc.
Qed.

(** Running a list of operators never touches the declared spec, the
    conditions, the synced replica count or the ready flag. *)
Lemma runOperators_keep_status (ops : list Operator)
      (status : MySQLClusterStatus) :
  forall cluster,
    let ran := runOperators ops cluster status in
    Namespace (object ran) = Namespace cluster /\
    Spec (object ran) = Spec cluster /\
    Conditions (Status (object ran)) = Conditions (Status cluster) /\
    SyncedReplicas (Status (object ran)) = SyncedReplicas (Status cluster) /\
    Ready (Status (object ran)) = Ready (Status cluster).
Proof.
  induction ops as [| o ops IH]; intros cluster; simpl.
  - repeat split.
  - pose proof (Run_keeps_status o cluster status) as Ho. cbv zeta in Ho.
    destruct (value (Run o cluster status)) as [[e |] | p]; try exact Ho.
    simpl. specialize (IH (object (Run o cluster status))).
    cbv zeta in IH. destruct Ho as (H1 & H2 & H3 & H4 & H5).
    destruct IH as (I1 & I2 & I3 & I4 & I5).
    repeat split; congruence.
Qed.

(** Every call of a list of operators is the call of one of them, run on
    a cluster object that differs from the first at most in
    [currentPrimaryIndex]. *)
Lemma runOperators_calls (ops : list Operator) (status : MySQLClusterStatus)
      (c : Call) :
  forall cluster,
    In c (calls (runOperators ops cluster status)) ->
    exists o cluster',
      In o ops /\ In c (calls (Run o cluster' status)).
Proof.
  induction ops as [| o ops IH]; intros cluster; simpl; [intros [] |].
  destruct (value (Run o cluster status)) as [[e |] | p];
    try (intros Hin; exists o, cluster; split; [now left | exact Hin]).
  simpl. intros Hin. apply in_app_or in Hin as [Hin | Hin].
  - exists o, cluster. split; [now left | exact Hin].
  - apply IH in Hin as (o' & cluster' & Ho & Hc).
    exists o', cluster'. split; [now right | exact Hc].
Qed.

(** Only [UpdatePrimary] can panic, and only for want of the global
    variables of its instance in the status. *)
Lemma Run_panic (o : Operator) (cluster : MySQLCluster)
      (status : MySQLClusterStatus) (p : panic) :
  value (Run o cluster status) = Panic p ->
  exists i,
    o = updatePrimaryOp i /\
    forall st,
      nth_error (InstanceStatus status) (Z.to_nat i) = Some st ->
      0 <= i -> GlobalVariableStatus st = None.
Proof.
  destruct o as [i | i host | i]; simpl.
  - intros H. exists i. split; [reflexivity |].
    unfold updatePrimaryOp_Run in H.
    destruct (getDB infra cluster i) as [e | db]; [discriminate |].
    destruct (statusUpdate infra _); [discriminate |].
    destruct (exec db setSemiSyncMaster []); [discriminate |].
    destruct (index (InstanceStatus status) i) as [st | p'] eqn:Ei;
      simpl bind in H.
    + destruct (GlobalVariableStatus st) as [gv |] eqn:Eg; simpl deref in H.
      * cbv beta iota in H. now destruct (_ =? _).
      * apply index_Ok_inv in Ei as [_ Hn]. intros st' Hn' _. congruence.
    + intros st Hn Hpos.
      rewrite (proj2 (index_Ok_inv _ _ _) (conj Hpos Hn)) in Ei.
      discriminate.
  - unfold configureReplicationOp_Run.
    destruct (getPassword access cluster ReplicationPasswordKey);
      [discriminate |].
    destruct (getDB infra cluster i); [discriminate |].
    now destruct (issue _).
  - unfold turnOffReadOnlyOp_Run.
    now destruct (getDB infra cluster i).
Qed.

Lemma runOperators_panic (ops : list Operator) (status : MySQLClusterStatus)
      (p : panic) :
  forall cluster,
    value (runOperators ops cluster status) = Panic p ->
    exists o cluster', In o ops /\ value (Run o cluster' status) = Panic p.
Proof.
  induction ops as [| o ops IH]; intros cluster; simpl; [discriminate |].
  destruct (value (Run o cluster status)) as [[e |] | p'] eqn:Ev.
  - rewrite Ev. discriminate.
  - simpl. intros H. apply IH in H as (o' & cluster' & Ho & Hp).
    exists o', cluster'. split; [now right | exact Hp].
  - rewrite Ev. intros H. exists o, cluster. split; [now left | congruence].
Qed.

(** A list of operators leaves [currentPrimaryIndex] as it was or as one
    of its [UpdatePrimary] operators set it. *)
Lemma runOperators_index (ops : list Operator) (status : MySQLClusterStatus) :
  forall cluster,
    let ran := runOperators ops cluster status in
    CurrentPrimaryIndex (Status (object ran)) =
    CurrentPrimaryIndex (Status cluster) \/
    exists i, In (updatePrimaryOp i) ops /\
              CurrentPrimaryIndex (Status (object ran)) = Some i.
Proof.
  induction ops as [| o ops IH]; intros cluster; simpl; [now left |].
  assert (Ho : CurrentPrimaryIndex (Status (object (Run o cluster status))) =
               CurrentPrimaryIndex (Status cluster) \/
               exists i, o = updatePrimaryOp i /\
                         CurrentPrimaryIndex
                           (Status (object (Run o cluster status))) = Some i).
  { destruct (Run_object o cluster status) as [-> | (i & -> & ->)];
      [now left | right; now exists i]. }
  destruct (value (Run o cluster status)) as [[e |] | p].
  - destruct Ho as [Ho | (i & -> & Ho)]; [now left |].
    right. exists i. split; [now left | exact Ho].
  - simpl. specialize (IH (object (Run o cluster status))). cbv zeta in IH.
    destruct IH as [IH | (i & Hin & IH)].
    + rewrite IH. destruct Ho as [Ho | (i & -> & Ho)]; [now left |].
      right. exists i. split; [now left | exact Ho].
    + right. exists i. split; [now right | exact IH].
  - destruct Ho as [Ho | (i & -> & Ho)]; [now left |].
    right. exists i. split; [now left | exact Ho].
Qed.

Lemma updatePrimaryOp_Run_nil (i : Z) (cluster : MySQLCluster)
      (status : MySQLClusterStatus) :
  returned (updatePrimaryOp_Run i infra cluster status) = Ok None ->
  clusterAfter (updatePrimaryOp_Run i infra cluster status) =
  withCurrentPrimaryIndex cluster i.
Proof.
  unfold updatePrimaryOp_Run.
  destruct (getDB infra cluster i) as [e | db]; [discriminate |].
  intros _.
  destruct (statusUpdate infra _); [reflexivity |].
  destruct (exec db setSemiSyncMaster []); [reflexivity |].
  destruct (bind _ _); [| reflexivity].
  now destruct (_ =? _).
Qed.

(** When all operators of a list returned nil and one of them is an
    [UpdatePrimary], [currentPrimaryIndex] is what one of them set. *)
Lemma runOperators_nil_index (ops : list Operator)
      (status : MySQLClusterStatus) :
  forall cluster,
    value (runOperators ops cluster status) = Ok None ->
    (exists i, In (updatePrimaryOp i) ops) ->
    exists i,
      In (updatePrimaryOp i) ops /\
      CurrentPrimaryIndex (Status (object (runOperators ops cluster status)))
      = Some i.
Proof.
  induction ops as [| o ops IH]; intros cluster Hv [i Hin];
    [contradiction |].
  simpl in Hv |- *.
  destruct (value (Run o cluster status)) as [[e |] | p] eqn:Ev;
    try (rewrite Ev in Hv; discriminate).
  simpl in Hv |- *.
  destruct (runOperators_index ops status (object (Run o cluster status)))
    as [Hi | (j & Hj & Hi)].
  - destruct o as [k | k host | k].
    + exists k. split; [now left |]. rewrite Hi. simpl.
      simpl in Ev. now rewrite (updatePrimaryOp_Run_nil _ _ _ Ev).
    + destruct Hin as [Hin | Hin]; [discriminate |].
      destruct (IH _ Hv (ex_intro _ i Hin)) as (j & Hj & Hi').
      exists j. split; [now right | exact Hi'].
    + destruct Hin as [Hin | Hin]; [discriminate |].
      destruct (IH _ Hv (ex_intro _ i Hin)) as (j & Hj & Hi').
      exists j. split; [now right | exact Hi'].
  - exists j. split; [now right | exact Hi].
Qed.

End OperatorCoverage.

(** ** The status writer *)

Lemma ConditionType_eqb_eq (a b : MySQLClusterConditionType) :
  ConditionType_eqb a b = true <-> a = b.
Proof.
  destruct a, b; simpl; split; congruence.
Qed.

(** Looking a type up after an upsert. *)
Lemma findCondition_setCondition (conditions : list MySQLClusterCondition)
      (c : MySQLClusterCondition) (t : MySQLClusterConditionType) :
  findCondition (setCondition conditions c) t =
  if ConditionType_eqb (CondType c) t then Some c
  else findCondition conditions t.
Proof.
  induction conditions as [| c0 rest IH]; simpl; [reflexivity |].
  destruct (ConditionType_eqb (CondType c0) (CondType c)) eqn:E0; simpl.
  - apply ConditionType_eqb_eq in E0. rewrite E0.
    now destruct (ConditionType_eqb (CondType c) t).
  - rewrite IH.
    destruct (ConditionType_eqb (CondType c0) t) eqn:E1;
      destruct (ConditionType_eqb (CondType c) t) eqn:E2; try reflexivity.
    apply ConditionType_eqb_eq in E1, E2.
    assert (ConditionType_eqb (CondType c0) (CondType c) = true)
      by (apply ConditionType_eqb_eq; congruence).
    congruence.
Qed.

Lemma findCondition_app (xs ys : list MySQLClusterCondition)
      (t : MySQLClusterConditionType) :
  findCondition (xs ++ ys) t =
  match findCondition xs t with
  | Some c => Some c
  | None => findCondition ys t
  end.
Proof.
  induction xs as [| x xs IH]; simpl; [reflexivity |].
  now destruct (ConditionType_eqb (CondType x) t).
Qed.

Section WriterCoverage.

Variable Error : error -> string.
Variable infra : infrastructure.

(** The loop of [setMySQLClusterStatus]: of the conditions of one type, the
    last of the list is the one that stays. *)
Lemma status_loop (conditions : list MySQLClusterCondition) :
  forall cluster,
    let after :=
      fold_left
        (fun cluster cond =>
           let cluster :=
             if ConditionType_eqb (CondType cond) ConditionAvailable
             then setReady cluster (CondStatus cond)
             else cluster in
           setClusterCondition cluster cond)
        conditions cluster in
    Namespace after = Namespace cluster /\
    Spec after = Spec cluster /\
    CurrentPrimaryIndex (Status after) = CurrentPrimaryIndex (Status cluster) /\
    SyncedReplicas (Status after) = SyncedReplicas (Status cluster) /\
    (forall t,
        findCondition (Conditions (Status after)) t =
        match findCondition (rev conditions) t with
        | Some c => Some c
        | None => findCondition (Conditions (Status cluster)) t
        end) /\
    Ready (Status after) =
    match findCondition (rev conditions) ConditionAvailable with
    | Some c => CondStatus c
    | None => Ready (Status cluster)
    end.
Proof.
  induction conditions as [| x xs IH]; intros cluster.
  - simpl. repeat split.
  - cbn [fold_left rev].
    match goal with
    | |- context [fold_left ?f xs ?c] => specialize (IH c); set (step := c) in *
    end.
    cbv zeta in IH. destruct IH as (H1 & H2 & H3 & H4 & H5 & H6).
    assert (Hstep : Namespace step = Namespace cluster /\
                    Spec step = Spec cluster /\
                    CurrentPrimaryIndex (Status step) =
                    CurrentPrimaryIndex (Status cluster) /\
                    SyncedReplicas (Status step) =
                    SyncedReplicas (Status cluster) /\
                    Conditions (Status step) =
                    setCondition (Conditions (Status cluster)) x /\
                    Ready (Status step) =
                    if ConditionType_eqb (CondType x) ConditionAvailable
                    then CondStatus x else Ready (Status cluster)).
    { unfold step.
      destruct (ConditionType_eqb (CondType x) ConditionAvailable);
        repeat split. }
    destruct Hstep as (S1 & S2 & S3 & S4 & S5 & S6).
    cbv zeta. repeat split; try congruence.
    + intros t. rewrite H5, findCondition_app, S5, findCondition_setCondition.
      simpl. destruct (findCondition (rev xs) t); [reflexivity |].
      now destruct (ConditionType_eqb (CondType x) t).
    + rewrite H6, findCondition_app, S6. simpl.
      destruct (findCondition (rev xs) ConditionAvailable); [reflexivity |].
      now destruct (ConditionType_eqb (CondType x) ConditionAvailable).
Qed.

(** [setMySQLClusterStatus] upserts the given conditions (of several
    conditions of one type the last one stays) and keeps the stored
    conditions of the other types; [ready] takes the status of the
    [Available] condition given, if any; [syncedReplicas] is stored if
    given; [currentPrimaryIndex] and the spec are not touched; what is
    returned is the answer of the store to the update of this object. *)
Theorem status_written
        (cluster : MySQLCluster) (conditions : list MySQLClusterCondition)
        (syncedStatus : option Z) :
  let written := fst (setMySQLClusterStatus infra cluster conditions syncedStatus) in
  (forall t,
      findCondition (Conditions (Status written)) t =
      match findCondition (rev conditions) t with
      | Some c => Some c
      | None => findCondition (Conditions (Status cluster)) t
      end) /\
  Ready (Status written) =
  match findCondition (rev conditions) ConditionAvailable with
  | Some c => CondStatus c
  | None => Ready (Status cluster)
  end /\
  SyncedReplicas (Status written) =
  match syncedStatus with
  | Some n => n
  | None => SyncedReplicas (Status cluster)
  end /\
  CurrentPrimaryIndex (Status written) = CurrentPrimaryIndex (Status cluster) /\
  Spec written = Spec cluster /\
  Namespace written = Namespace cluster /\
  snd (setMySQLClusterStatus infra cluster conditions syncedStatus) =
  statusUpdate infra written.
Proof.
  intros written. unfold written, setMySQLClusterStatus.
  pose proof (status_loop conditions cluster) as L. cbv zeta in L.
  cbv zeta. simpl fst. simpl snd.
  destruct L as (H1 & H2 & H3 & H4 & H5 & H6).
  destruct syncedStatus as [n |]; simpl; repeat split; assumption.
Qed.

(** [setFailureCondition] stores [Failure=True] with the text of the
    error, [Available=False] and [Healthy=False], and [OutOfSync=True] with
    the list when one is given; it keeps every other stored condition, a
    [Violation] among them, and does not touch [ready], [syncedReplicas],
    [currentPrimaryIndex] or the spec: [ready] is not set to the status of
    [Available]. *)
Theorem failure_condition_written
        (cluster : MySQLCluster) (e : error) (outOfSyncInstances : list Z) :
  let written :=
    fst (setFailureCondition Error infra cluster e outOfSyncInstances) in
  let stored := findCondition (Conditions (Status written)) in
  stored ConditionFailure =
  Some (mkCondition ConditionFailure ConditionTrue (Error e)) /\
  stored ConditionAvailable =
  Some (condition ConditionAvailable ConditionFalse) /\
  stored ConditionHealthy = Some (condition ConditionHealthy ConditionFalse) /\
  stored ConditionOutOfSync =
  match outOfSyncInstances with
  | [] => findCondition (Conditions (Status cluster)) ConditionOutOfSync
  | _ :: _ => Some (mkCondition ConditionOutOfSync ConditionTrue
                                (outOfSyncMessage outOfSyncInstances))
  end /\
  stored ConditionViolation =
  findCondition (Conditions (Status cluster)) ConditionViolation /\
  Ready (Status written) = Ready (Status cluster) /\
  SyncedReplicas (Status written) = SyncedReplicas (Status cluster) /\
  CurrentPrimaryIndex (Status written) = CurrentPrimaryIndex (Status cluster) /\
  Spec written = Spec cluster /\
  Namespace written = Namespace cluster /\
  snd (setFailureCondition Error infra cluster e outOfSyncInstances) =
  statusUpdate infra written.
Proof.
  intros written stored. unfold stored, written, setFailureCondition.
  cbv zeta. simpl fst. simpl snd. rewrite len_test.
  destruct outOfSyncInstances as [| i rest]; simpl;
    rewrite !findCondition_setCondition; simpl; repeat split.
Qed.

End WriterCoverage.


(** ** The reconcile driver *)

Section DriverCoverage.

Variable uniqueName : MySQLCluster -> string.
Variable Error : error -> string.
Variable ReplicationPasswordKey : string.
Variable MySQLPort : Z.
Variable ReplicatorUser : string.
Variable infra : infrastructure.
Variable access : replicationAccess.

Local Abbreviation plan := (decideNextOperation uniqueName Error).
Local Abbreviation Run :=
  (Run ReplicationPasswordKey MySQLPort ReplicatorUser infra access).
Local Abbreviation runOperators :=
  (runOperators ReplicationPasswordKey MySQLPort ReplicatorUser infra access).
Local Abbreviation reconcile :=
  (reconcileClustering uniqueName Error ReplicationPasswordKey MySQLPort
                       ReplicatorUser infra access).
Local Abbreviation noRequeue := {| Requeue := false; RequeueAfter := 0 |}.

(** The ways of a reconcile. *)
Lemma reconcile_cases (cluster : MySQLCluster) :
  let r := reconcile cluster in
  (exists p,
      getMySQLClusterStatus infra cluster = Panic p /\
      r = {| calls := []; object := cluster; value := Panic p |}) \/
  exists status,
    getMySQLClusterStatus infra cluster = Ok status /\
    ((exists p,
         plan cluster status = Panic p /\
         r = {| calls := []; object := cluster; value := Panic p |}) \/
     (exists oop e,
         plan cluster status = Ok (oop, Some e) /\
         let written := fst (setFailureCondition Error infra cluster e []) in
         r = {| calls := [Issued (StatusUpdate written)]; object := written;
                value := Ok (noRequeue, Some e) |}) \/
     (exists op,
         plan cluster status = Ok (Some op, None) /\
         let ran := runOperators (Operators op) cluster status in
         (exists p,
             value ran = Panic p /\
             r = {| calls := calls ran; object := object ran;
                    value := Panic p |}) \/
         (exists e,
             value ran = Ok (Some e) /\
             let written :=
               fst (setFailureCondition Error infra (object ran) e []) in
             r = {| calls := calls ran ++ [Issued (StatusUpdate written)];
                    object := written;
                    value := Ok (noRequeue, Some e) |}) \/
         (value ran = Ok None /\
          let written :=
            fst (setMySQLClusterStatus infra (object ran) (OpConditions op)
                                       (OpSyncedReplicas op)) in
          r = {| calls := calls ran ++ [Issued (StatusUpdate written)];
                 object := written;
                 value :=
                   match statusUpdate infra written with
                   | None =>
                       if Wait op
                       then Ok ({| Requeue := false;
                                   RequeueAfter := 10 * Second |}, None)
                       else Ok (noRequeue, None)
                   | Some e => Ok (noRequeue, Some e)
                   end |}))).
Proof.
  intros r. unfold r, reconcileClustering.
  destruct (getMySQLClusterStatus infra cluster) as [status | p];
    [right | left; eauto].
  exists status. split; [reflexivity |].
  pose proof (plan_nil_has_error uniqueName Error cluster status) as Hnil.
  destruct (plan cluster status) as [[[op |] [e |]] | p];
    [right; left | | right; left | congruence | left; eauto].
  - exists (Some op), e. split; reflexivity.
  - right. right. exists op. split; [reflexivity |]. cbv zeta.
    destruct (value (runOperators (Operators op) cluster status))
      as [[e |] | p] eqn:Ev.
    + right. left. exists e. split; reflexivity.
    + right. right. split; [reflexivity |].
      unfold setMySQLClusterStatus. cbv zeta. simpl fst.
      now destruct (statusUpdate infra _).
    + left. exists p. split; reflexivity.
  - exists None, e. split; reflexivity.
Qed.

Ltac reconcile_cases cluster H :=
  let Hr := fresh "Hr" in
  destruct (reconcile_cases cluster)
    as [(?p & ?Hs & Hr)
       | (?status & ?Hs &
          [(?p & ?Hp & Hr)
          | [(?oop & ?e & ?Hp & Hr)
            | (?op & ?Hp &
               [(?p & ?Hv & Hr) | [(?e & ?Hv & Hr) | (?Hv & Hr)]])]])];
  cbv zeta in Hr; try rewrite Hr in H; try rewrite Hr; clear Hr.

(** A reconcile asks to be run again, after ten seconds, exactly when
    the planner said to wait and the status was written; it never sets
    [Requeue]. *)
Theorem requeue_only_when_waiting
        (cluster : MySQLCluster) (res : Result) (oe : option error) :
  value (reconcile cluster) = Ok (res, oe) ->
  Requeue res = false /\
  (RequeueAfter res = 0 \/ RequeueAfter res = 10000000000) /\
  (RequeueAfter res <> 0 <->
   oe = None /\
   exists status op,
     getMySQLClusterStatus infra cluster = Ok status /\
     plan cluster status = Ok (Some op, None) /\
     Wait op = true).
Proof.
  intros H. reconcile_cases cluster H; simpl in H; try discriminate.
  - injection H as <- <-. split; [reflexivity |]. split; [now left |].
    split; [intros X; now contradiction X | intros [X _]; discriminate].
  - injection H as <- <-. split; [reflexivity |]. split; [now left |].
    split; [intros X; now contradiction X | intros [X _]; discriminate].
  - destruct (statusUpdate infra _) as [e |]; [| destruct (Wait op) eqn:Ew];
      injection H as <- <-; (split; [reflexivity |]).
    + split; [now left |].
      split; [intros X; now contradiction X | intros [X _]; discriminate].
    + split; [now right |]. split; [| intros _; discriminate].
      intros _. split; [reflexivity |]. now exists status, op.
    + split; [now left |]. split; [intros X; now contradiction X |].
      intros (_ & status' & op' & Hs' & Hp' & Hw).
      rewrite Hs in Hs'. injection Hs' as <-.
      rewrite Hp in Hp'. injection Hp' as <-. congruence.
Qed.

(** When a declared instance is not reported available, the reconcile
    executes no statement and runs no operator: it writes the failure
    conditions once and returns [ErrUnavailableHost] without requeue,
    whatever the store answers. *)
Theorem unprobed_instance_stops_reconcile
        (cluster : MySQLCluster) (i : Z) :
  0 <= i < Replicas (Spec cluster) ->
  Available (probeInstance infra cluster i) = false ->
  let r := reconcile cluster in
  value r = Ok (noRequeue, Some ErrUnavailableHost) /\
  calls r = [Issued (StatusUpdate (object r))] /\
  object r = fst (setFailureCondition Error infra cluster ErrUnavailableHost []).
Proof.
  intros Hi Hdown r. unfold r, reconcileClustering, getMySQLClusterStatus.
  assert (E : (Replicas (Spec cluster) <? 0) = false)
    by (apply Z.ltb_ge; lia).
  rewrite E.
  match goal with
  | |- context [plan cluster ?s] =>
      assert (Hp : plan cluster s = Ok (None, Some ErrUnavailableHost))
  end.
  { unfold decideNextOperation. rewrite anyUnavailable_existsb.
    replace (existsb _ _) with true; [reflexivity |].
    symmetry. apply existsb_exists.
    exists (probeInstance infra cluster i). split; [| now rewrite Hdown].
    simpl. apply in_map_iff. exists (Z.to_nat i).
    split; [now rewrite Z2Nat.id by lia |]. apply in_seq. lia. }
  rewrite Hp. repeat split.
Qed.

Lemma planned_conditions_no_violation (cluster : MySQLCluster)
      (status : MySQLClusterStatus) (op : Operation) :
  plan cluster status = Ok (Some op, None) ->
  findCondition (rev (OpConditions op)) ConditionViolation = None.
Proof.
  intros H. apply plan_inv in H.
  destruct H as [-> | [(o & ops & _ & ->) | [(oos & _ & ->) | (oos & ops & _ & _ & ->)]]];
    simpl; try reflexivity;
    unfold unavailableCondition, availableCondition;
    rewrite len_zero_test; now destruct oos.
Qed.

(** A reconcile never adds, removes or changes a stored [Violation]
    condition: the operators do not touch conditions, the failure
    conditions and the planner's condition sets have no [Violation], and
    the conditions the planner returns with an error are not written. *)
Theorem reconcile_keeps_violation (cluster : MySQLCluster) :
  findCondition (Conditions (Status (object (reconcile cluster))))
                ConditionViolation =
  findCondition (Conditions (Status cluster)) ConditionViolation.
Proof.
  assert (Hfail : forall c e,
             findCondition
               (Conditions (Status (fst (setFailureCondition Error infra c e []))))
               ConditionViolation =
             findCondition (Conditions (Status c)) ConditionViolation).
  { intros c e. unfold setFailureCondition. simpl.
    now rewrite !findCondition_setCondition. }
  assert (Hran : forall ops c status,
             Conditions (Status (object (runOperators ops c status))) =
             Conditions (Status c)).
  { intros ops c status.
    now destruct (runOperators_keep_status
                    ReplicationPasswordKey MySQLPort ReplicatorUser
                    infra access ops status c) as (_ & _ & H & _). }
  pose proof I as H.
  reconcile_cases cluster H; cbn [object]; try reflexivity.
  - apply Hfail.
  - now rewrite Hran.
  - now rewrite Hfail, Hran.
  - unfold setMySQLClusterStatus. cbv zeta. simpl fst.
    match goal with
    | |- context [fold_left ?f ?conds ?c] =>
        pose proof (status_loop conds c) as L; cbv zeta in L;
        destruct L as (_ & _ & _ & _ & L & _)
    end.
    specialize (L ConditionViolation).
    rewrite (planned_conditions_no_violation _ _ _ Hp), Hran in L.
    now destruct (OpSyncedReplicas op).
Qed.

(** A reconcile never changes the declared spec or the namespace of the
    cluster, and it leaves [currentPrimaryIndex] as it was or set to 0:
    the index is never cleared and never names another instance. *)
Theorem reconcile_primary_index (cluster : MySQLCluster) :
  let after := object (reconcile cluster) in
  Spec after = Spec cluster /\
  Namespace after = Namespace cluster /\
  (CurrentPrimaryIndex (Status after) = CurrentPrimaryIndex (Status cluster) \/
   CurrentPrimaryIndex (Status after) = Some 0).
Proof.
  assert (Hran : forall op status,
             plan cluster status = Ok (Some op, None) ->
             let ran := runOperators (Operators op) cluster status in
             Spec (object ran) = Spec cluster /\
             Namespace (object ran) = Namespace cluster /\
             (CurrentPrimaryIndex (Status (object ran)) =
              CurrentPrimaryIndex (Status cluster) \/
              CurrentPrimaryIndex (Status (object ran)) = Some 0)).
  { intros op status Hp ran. unfold ran.
    destruct (runOperators_keep_status
                ReplicationPasswordKey MySQLPort ReplicatorUser
                infra access (Operators op) status cluster)
      as (H1 & H2 & _).
    split; [exact H2 |]. split; [exact H1 |].
    destruct (runOperators_index
                ReplicationPasswordKey MySQLPort ReplicatorUser
                infra access (Operators op) status cluster)
      as [H | (i & Hin & H)]; [now left |].
    right. rewrite H.
    now rewrite (planned_targets uniqueName Error cluster status op _ Hp Hin). }
  intros after. unfold after. pose proof I as H.
  reconcile_cases cluster H; cbn [object]; try (repeat split; now left).
  - now apply Hran.
  - unfold setFailureCondition. simpl. now apply Hran.
  - unfold setMySQLClusterStatus. cbv zeta. simpl fst.
    match goal with
    | |- context [fold_left ?f ?conds ?c] =>
        pose proof (status_loop conds c) as L; cbv zeta in L;
        destruct L as (L1 & L2 & L3 & _)
    end.
    destruct (Hran op status Hp) as (R1 & R2 & R3).
    destruct (OpSyncedReplicas op); simpl; rewrite L1, L2, L3; auto.
Qed.

(** For a cluster with at least one replica, every statement of a
    reconcile goes to a declared instance: its ordinal is within
    [[0, replicas)]. *)
Theorem statements_target_instances (cluster : MySQLCluster) (c : Call) :
  0 < Replicas (Spec cluster) ->
  In c (calls (reconcile cluster)) ->
  match c with
  | Issued (Exec j _ _) | ExecWith j _ _ => 0 <= j < Replicas (Spec cluster)
  | Issued (StatusUpdate _) => True
  end.
Proof.
  intros HN Hin.
  assert (Hran : forall op status,
             getMySQLClusterStatus infra cluster = Ok status ->
             plan cluster status = Ok (Some op, None) ->
             In c (calls (runOperators (Operators op) cluster status)) ->
             match c with
             | Issued (Exec j _ _) | ExecWith j _ _ =>
                 0 <= j < Replicas (Spec cluster)
             | Issued (StatusUpdate _) => True
             end).
  { intros op status Hs Hp Hc.
    apply getMySQLClusterStatus_observed in Hs as [Hlen _].
    apply runOperators_calls in Hc as (o & cluster' & Ho & Hc).
    apply Run_calls in Hc.
    pose proof (planned_targets uniqueName Error cluster status op o Hp Ho)
      as Ht.
    destruct o as [i | i host | i], c as [[written | j q a] | j q a];
      try exact I; try contradiction; subst; lia. }
  reconcile_cases cluster Hin; cbn [calls] in Hin.
  - contradiction.
  - contradiction.
  - destruct Hin as [<- | []]. exact I.
  - now apply (Hran op status).
  - apply in_app_or in Hin as [Hin | [<- | []]];
      [now apply (Hran op status) | exact I].
  - apply in_app_or in Hin as [Hin | [<- | []]];
      [now apply (Hran op status) | exact I].
Qed.

(** For a cluster with at least one replica a reconcile always returns:
    neither the probe, nor the planner, nor an operator panics. *)
Theorem reconcile_returns (cluster : MySQLCluster) :
  0 < Replicas (Spec cluster) ->
  exists res oe, value (reconcile cluster) = Ok (res, oe).
Proof.
  intros HN. pose proof I as H.
  reconcile_cases cluster H; cbn [value].
  - exfalso. unfold getMySQLClusterStatus in Hs.
    assert (E : (Replicas (Spec cluster) <? 0) = false)
      by (apply Z.ltb_ge; lia).
    rewrite E in Hs. discriminate.
  - exfalso.
    apply getMySQLClusterStatus_observed in Hs as [Hlen Hprobed].
    destruct (anyUnavailable status) eqn:Ea.
    + unfold decideNextOperation in Hp. rewrite Ea in Hp. discriminate.
    + destruct (plan_on_probed uniqueName Error cluster status Ea Hprobed)
        as [[r Hr] | [Hnil _]]; [congruence |].
      rewrite Hnil in Hlen. simpl in Hlen. lia.
  - eauto.
  - exfalso.
    apply runOperators_panic in Hv as (o & cluster' & Ho & Hpanic).
    apply Run_panic in Hpanic as (i & -> & Hgv).
    pose proof (planned_targets uniqueName Error cluster status op _ Hp Ho)
      as Hi. simpl in Hi. subst i.
    apply getMySQLClusterStatus_observed in Hs as [Hlen _].
    apply plan_stages in Hp as (_ & Hval & _).
    apply validateConstraints_no_panic_inv in Hval.
    destruct (InstanceStatus status) as [| st rest] eqn:El;
      [simpl in Hlen; lia |].
    inversion Hval as [| ? ? Hst _]; subst.
    apply Hst, (Hgv st); [reflexivity | lia].
  - eauto.
  - destruct (statusUpdate infra _); [eauto |].
    destruct (Wait op); eauto.
Qed.

(** A reconcile that returns has probed the instances and planned.  If
    the planner returned an error, no operator runs: the failure
    conditions are set in the cluster object and the single call is the
    update of the store with that object.  Otherwise the calls are those
    of the planned operators, run in order on the cluster and the observed
    status, followed by one update of the store with the cluster object
    the reconcile leaves: if an operator failed, the object the operators
    left with the failure conditions set, and the error is the operator's;
    if none failed, that object with the planned conditions and synced
    replica count set, and the error is the answer of the store.  A
    reconcile that returns no error has had this update accepted. *)
Theorem reconcile_calls
        (cluster : MySQLCluster) (res : Result) (oe : option error) :
  value (reconcile cluster) = Ok (res, oe) ->
  let r := reconcile cluster in
  exists status,
    getMySQLClusterStatus infra cluster = Ok status /\
    ((exists oop e,
         plan cluster status = Ok (oop, Some e) /\
         oe = Some e /\
         object r = fst (setFailureCondition Error infra cluster e []) /\
         calls r = [Issued (StatusUpdate (object r))]) \/
     (exists op,
         plan cluster status = Ok (Some op, None) /\
         let ran := runOperators (Operators op) cluster status in
         calls r = calls ran ++ [Issued (StatusUpdate (object r))] /\
         ((exists e,
              value ran = Ok (Some e) /\
              oe = Some e /\
              object r =
              fst (setFailureCondition Error infra (object ran) e [])) \/
          (value ran = Ok None /\
           object r =
           fst (setMySQLClusterStatus infra (object ran) (OpConditions op)
                                      (OpSyncedReplicas op)) /\
           oe = statusUpdate infra (object r))))) /\
    (oe = None -> statusUpdate infra (object r) = None).
Proof.
  intros H r. unfold r. clear r.
  reconcile_cases cluster H; cbn [value calls object] in *;
    try discriminate; exists status; (split; [exact Hs |]).
  - injection H as <- <-. split; [| discriminate].
    left. exists oop, e. repeat split. exact Hp.
  - injection H as <- <-. split; [| discriminate].
    right. exists op. split; [exact Hp |]. cbv zeta.
    split; [reflexivity |]. left. exists e. repeat split. exact Hv.
  - assert (Hoe : oe = statusUpdate infra
                         (fst (setMySQLClusterStatus
                                 infra
                                 (object (runOperators (Operators op) cluster
                                                       status))
                                 (OpConditions op) (OpSyncedReplicas op)))).
    { destruct (statusUpdate infra _); [| destruct (Wait op)];
        now injection H as <- <-. }
    split; [| intros ->; now rewrite <- Hoe].
    right. exists op. split; [exact Hp |]. cbv zeta.
    split; [reflexivity |]. right. repeat split; assumption.
Qed.

(** A reconcile that returns without error leaves instance 0 recorded as
    the primary, in the cluster object and in the store. *)
Theorem successful_reconcile_records_primary
        (cluster : MySQLCluster) (res : Result) :
  value (reconcile cluster) = Ok (res, None) ->
  CurrentPrimaryIndex (Status (object (reconcile cluster))) = Some 0 /\
  statusUpdate infra (object (reconcile cluster)) = None.
Proof.
  intros H. reconcile_cases cluster H; cbn [value object] in *;
    try discriminate.
  destruct (statusUpdate infra _); [discriminate |].
  split; [| reflexivity]. clear H.
  unfold setMySQLClusterStatus. cbv zeta. simpl fst.
  match goal with
  | |- context [fold_left ?f ?conds ?c] =>
      pose proof (status_loop conds c) as L; cbv zeta in L;
      destruct L as (_ & _ & L & _)
  end.
  assert (Hran : CurrentPrimaryIndex
                   (Status (object (runOperators (Operators op) cluster status)))
                 = Some 0).
  { pose proof Hp as Hst.
    apply plan_stages in Hst as (_ & _ & [[_ ->] | [Hc _]]).
    - cbn [Operators] in *.
      destruct (runOperators_nil_index
                  ReplicationPasswordKey MySQLPort ReplicatorUser
                  infra access [updatePrimaryOp 0] status cluster Hv)
        as (i & [Hin | []] & Hi); [exists 0; now left |].
      injection Hin as <-. exact Hi.
    - destruct (runOperators_index
                  ReplicationPasswordKey MySQLPort ReplicatorUser
                  infra access (Operators op) status cluster)
        as [Hi | (i & Hin & Hi)]; [congruence |].
      rewrite Hi.
      now rewrite (planned_targets uniqueName Error cluster status op _
                                   Hp Hin). }
  destruct (OpSyncedReplicas op); simpl; congruence.
Qed.

(** After a reconcile that returns without error and whose plan carried
    conditions, [ready] is the status of the stored [Available]
    condition, and [syncedReplicas] is the planner's value when it gave
    one and the value stored before otherwise. *)
Theorem successful_reconcile_status
        (cluster : MySQLCluster) (status : MySQLClusterStatus)
        (op : Operation) (res : Result) :
  getMySQLClusterStatus infra cluster = Ok status ->
  plan cluster status = Ok (Some op, None) ->
  value (reconcile cluster) = Ok (res, None) ->
  OpConditions op <> [] ->
  let after := Status (object (reconcile cluster)) in
  findCondition (Conditions after) ConditionAvailable =
  Some (condition ConditionAvailable (Ready after)) /\
  Ready after = (if Wait op then ConditionFalse else ConditionTrue) /\
  SyncedReplicas after =
  match OpSyncedReplicas op with
  | Some n => n
  | None => SyncedReplicas (Status cluster)
  end.
Proof.
  intros Hs0 Hp0 H Hne after. unfold after. clear after.
  reconcile_cases cluster H; cbn [value object] in *; try discriminate.
  rewrite Hs0 in Hs. injection Hs as <-.
  rewrite Hp0 in Hp. injection Hp as <-. clear H.
  unfold setMySQLClusterStatus. cbv zeta. simpl fst.
  match goal with
  | |- context [fold_left ?f ?conds ?c] =>
      pose proof (status_loop conds c) as L; cbv zeta in L;
      destruct L as (_ & _ & _ & L4 & L5 & L6)
  end.
  specialize (L5 ConditionAvailable).
  destruct (runOperators_keep_status
              ReplicationPasswordKey MySQLPort ReplicatorUser
              infra access (Operators op) status cluster)
    as (_ & _ & _ & R4 & _).
  assert (Hav : findCondition (rev (OpConditions op)) ConditionAvailable =
                Some (condition ConditionAvailable
                                (if Wait op then ConditionFalse
                                 else ConditionTrue))).
  { pose proof Hp0 as Hi. apply plan_inv in Hi.
    destruct Hi as [-> | [(o & ops & _ & ->) | [(oos & _ & ->) | (oos & ops & _ & _ & ->)]]];
      try (now contradiction Hne); simpl;
      unfold unavailableCondition, availableCondition;
      rewrite len_zero_test; now destruct oos. }
  rewrite Hav in L5, L6. simpl in L6.
  destruct (OpSyncedReplicas op); simpl; rewrite L5, L6;
    repeat split; congruence.
Qed.

(** C7 (Stage B, recovery), as the code has it.  For an observed status in
    which all instances are available and no constraint is violated, the
    validator returns [ErrConstraintsRecovered] exactly when the stored
    condition set carries a condition of type [Violation], whatever its
    status.  The planner then returns that error with the violation
    condition set and no operators, and the reconcile that observed this
    status runs no operator: it sets the failure conditions in the cluster
    object, updates the store with it once and returns the error without
    requeue.  The stored [Violation] condition is kept as it was, so the
    next reconcile of the cluster object, whatever the infrastructure
    then answers, does not plan further when it finds all instances
    available and no constraint violated: it returns
    [ErrConstraintsRecovered] again. *)
Theorem constraints_recovered
        (cluster : MySQLCluster) (status : MySQLClusterStatus) :
  anyUnavailable status = false ->
  Forall probed (InstanceStatus status) ->
  ~ spec_violation cluster status ->
  (validateConstraints status cluster = Ok (Some ErrConstraintsRecovered) <->
   storedViolation cluster) /\
  (storedViolation cluster ->
   plan cluster status =
   Ok (Some {| Operators := []; Wait := false;
               OpConditions := violationCondition Error ErrConstraintsRecovered;
               OpSyncedReplicas := None |},
       Some ErrConstraintsRecovered) /\
   (getMySQLClusterStatus infra cluster = Ok status ->
    let r := reconcile cluster in
    value r = Ok (noRequeue, Some ErrConstraintsRecovered) /\
    calls r = [Issued (StatusUpdate (object r))] /\
    object r =
    fst (setFailureCondition Error infra cluster ErrConstraintsRecovered []) /\
    findCondition (Conditions (Status (object r))) ConditionViolation =
    findCondition (Conditions (Status cluster)) ConditionViolation /\
    storedViolation (object r) /\
    forall (infra' : infrastructure) (access' : replicationAccess)
           (status' : MySQLClusterStatus),
      getMySQLClusterStatus infra' (object r) = Ok status' ->
      anyUnavailable status' = false ->
      ~ spec_violation (object r) status' ->
      let r' :=
        reconcileClustering uniqueName Error ReplicationPasswordKey MySQLPort
                            ReplicatorUser infra' access' (object r) in
      plan (object r) status' =
      Ok (Some {| Operators := []; Wait := false;
                  OpConditions :=
                    violationCondition Error ErrConstraintsRecovered;
                  OpSyncedReplicas := None |},
          Some ErrConstraintsRecovered) /\
      value r' = Ok (noRequeue, Some ErrConstraintsRecovered) /\
      calls r' = [Issued (StatusUpdate (object r'))] /\
      storedViolation (object r'))).
Proof.
  assert (Hkept : forall infra0 c e,
             findCondition
               (Conditions
                  (Status (fst (setFailureCondition Error infra0 c e []))))
               ConditionViolation =
             findCondition (Conditions (Status c)) ConditionViolation).
  { intros infra0 c e. unfold setFailureCondition. simpl.
    now rewrite !findCondition_setCondition. }
  assert (Hstays : forall infra0 c e,
             storedViolation c ->
             storedViolation (fst (setFailureCondition Error infra0 c e []))).
  { intros infra0 c e Hc. unfold storedViolation in *.
    rewrite <- findCondition_Some in *. now rewrite Hkept. }
  assert (Hrun : forall infra0 access0 c st,
             getMySQLClusterStatus infra0 c = Ok st ->
             plan c st =
             Ok (Some {| Operators := []; Wait := false;
                         OpConditions :=
                           violationCondition Error ErrConstraintsRecovered;
                         OpSyncedReplicas := None |},
                 Some ErrConstraintsRecovered) ->
             reconcileClustering uniqueName Error ReplicationPasswordKey
                                 MySQLPort ReplicatorUser infra0 access0 c =
             let written :=
               fst (setFailureCondition Error infra0 c
                                        ErrConstraintsRecovered []) in
             {| calls := [Issued (StatusUpdate written)]; object := written;
                value := Ok (noRequeue, Some ErrConstraintsRecovered) |}).
  { intros infra0 access0 c st Hs Hp. unfold reconcileClustering.
    now rewrite Hs, Hp. }
  intros Ha Hp Hnv.
  destruct (recovered_plan uniqueName Error cluster status Ha Hp Hnv)
    as [Hiff Hplan].
  split; [exact Hiff |]. intros Hstored.
  split; [now apply Hplan |]. intros Hs r.
  assert (Er : r = _) by exact (Hrun infra access cluster status Hs
                                     (Hplan Hstored)).
  cbv zeta in Er. rewrite Er. cbn [value calls object].
  split; [reflexivity |]. split; [reflexivity |]. split; [reflexivity |].
  split; [apply Hkept |]. split; [now apply Hstays |].
  intros infra' access' status' Hs' Ha' Hnv'.
  assert (Hstored' : storedViolation
                       (fst (setFailureCondition Error infra cluster
                                                 ErrConstraintsRecovered [])))
    by now apply Hstays.
  pose proof (getMySQLClusterStatus_observed _ _ _ Hs') as [_ Hp'].
  destruct (recovered_plan uniqueName Error _ status' Ha' Hp' Hnv')
    as [_ Hplan'].
  specialize (Hplan' Hstored').
  rewrite (Hrun infra' access' _ status' Hs' Hplan').
  cbv zeta. cbn [value calls object].
  split; [exact Hplan' |]. split; [reflexivity |]. split; [reflexivity |].
  now apply Hstays.
Qed.

End DriverCoverage.

(** ** The further scenarios, run *)

Module Drills.

Import Scenario Drill.

Lemma planner_errors_witness :
  (Some (planned (cluster (Some 0) []) twoWritable) = None <->
   Some ErrConstraintsViolation = Some ErrUnavailableHost) /\
  planned (cluster (Some 0) []) twoWritable =
  {| Operators := []; Wait := false;
     OpConditions := violationCondition Error ErrConstraintsViolation;
     OpSyncedReplicas := None |}.
Proof.
  destruct (planner_errors uniqueName Error (cluster (Some 0) []) twoWritable
                           (Some (planned (cluster (Some 0) []) twoWritable))
                           (Some ErrConstraintsViolation) eq_refl)
    as [H1 H2].
  split; [exact H1 |]. exact (proj2 (H2 _ eq_refl) _ eq_refl).
Defined.

Lemma planned_means_single_writer_witness :
  (List.length (spec_writableInstances steady) <= 1)%nat /\
  findCondition (Conditions (Status (cluster (Some 0) []))) ConditionViolation
  = None.
Proof.
  destruct (planned_means_single_writer
              uniqueName Error (cluster (Some 0) []) steady
              (planned (cluster (Some 0) []) steady) eq_refl)
    as (_ & H1 & _ & H2).
  split; assumption.
Defined.

Lemma planned_operators_witness :
  exists targets,
    targets <> [] /\
    Operators (planned (cluster (Some 0) []) fresh) =
    map (fun i => configureReplicationOp i "c-0.c.ns.svc") targets /\
    StronglySorted Z.lt targets /\
    Forall (fun i => 0 < i < 3) targets.
Proof.
  destruct (planned_operators uniqueName Error (cluster (Some 0) []) fresh
                              (planned (cluster (Some 0) []) fresh) eq_refl)
    as [H | [H | [H | H]]]; [discriminate H | discriminate H | discriminate H |].
  exact H.
Defined.

Lemma conditions_mean_configured_witness :
  CurrentPrimaryIndex (Status (cluster (Some 0) [])) = Some 0 /\
  spec_misconfigured bothLagging 0 "c-0.c.ns.svc" = [].
Proof.
  destruct (conditions_mean_configured
              uniqueName Error (cluster (Some 0) []) bothLagging
              (planned (cluster (Some 0) []) bothLagging) eq_refl)
    as (H1 & H2 & _); [discriminate |].
  split; assumption.
Defined.

Lemma write_acceptance_is_gated_witness :
  spec_writableInstances oneLagging = [] /\
  spec_misconfigured oneLagging 0 "c-0.c.ns.svc" = [].
Proof.
  destruct (write_acceptance_is_gated
              uniqueName Error (cluster (Some 0) []) oneLagging
              (planned (cluster (Some 0) []) oneLagging) 0 eq_refl)
    as (_ & _ & H1 & H2 & _); [now left |].
  split; assumption.
Defined.

Lemma steady_state_iff_witness :
  plan (cluster (Some 0) []) steady =
  Ok (Some {| Operators := []; Wait := false;
              OpConditions := availableCondition [];
              OpSyncedReplicas := Some 3 |}, None).
Proof.
  apply (steady_state_iff uniqueName Error (cluster (Some 0) []) steady);
    [reflexivity | apply Runs.all_probed; reflexivity | repeat split].
Defined.

Lemma out_of_sync_list_witness :
  exists primaryIndex,
    CurrentPrimaryIndex (Status (cluster (Some 0) [])) = Some primaryIndex /\
    StronglySorted Z.lt [2] /\
    forall i,
      In i [2] <->
      0 <= i /\ i <> primaryIndex /\
      exists ins rs,
        nth_error (InstanceStatus ioError) (Z.to_nat i) = Some ins /\
        ReplicaStatus ins = Some rs /\ LastIoErrno rs <> 0.
Proof.
  apply (out_of_sync_list (cluster (Some 0) []) ioError false [2]).
  reflexivity.
Defined.

Lemma planned_conditions_witness :
  findCondition (OpConditions (planned (cluster (Some 0) []) ioError))
                ConditionOutOfSync =
  Some (mkCondition ConditionOutOfSync ConditionTrue
                    "outOfSync instances: []int{2}") /\
  findCondition (OpConditions (planned (cluster (Some 0) []) ioError))
                ConditionHealthy =
  Some (condition ConditionHealthy ConditionFalse).
Proof.
  destruct (planned_conditions uniqueName Error (cluster (Some 0) []) ioError
                               (planned (cluster (Some 0) []) ioError) eq_refl)
    as (_ & _ & _ & H1 & _ & H2); [discriminate |].
  split; [exact H1 | exact H2].
Defined.

Lemma single_instance_cluster_witness :
  plan (single (Some 0)) alone =
  Ok (Some {| Operators := [turnOffReadOnlyOp 0]; Wait := false;
              OpConditions := availableCondition [];
              OpSyncedReplicas := Some 1 |}, None).
Proof.
  apply (single_instance_cluster
           uniqueName Error (single (Some 0))
           (instance true 0 (gtid "u:1-5") None)
           {| ReadOnly := true; SuperReadOnly := true;
              RplSemiSyncMasterWaitForSlaveCount := 0 |});
    try reflexivity; discriminate.
Defined.

Lemma update_primary_success_witness :
  let run := updatePrimaryOp_Run 0 (healthy steady) (cluster None []) steady in
  exists st gv,
    nth_error (InstanceStatus steady) (Z.to_nat 0) = Some st /\
    GlobalVariableStatus st = Some gv /\
    clusterAfter run = cluster (Some 0) [] /\
    statusUpdate (healthy steady) (cluster (Some 0) []) = None /\
    trace run =
    [StatusUpdate (cluster (Some 0) []); Exec 0 setSemiSyncMaster []] ++
    (if RplSemiSyncMasterWaitForSlaveCount gv =? 1 then []
     else [Exec 0 setWaitForSlaveCount [1]]).
Proof.
  apply (update_primary_success (healthy steady) 0 (cluster None []) steady).
  reflexivity.
Defined.

Lemma configure_replication_without_key_witness :
  exists rest,
    calls (configureReplicationOp_Run
             ReplicationPasswordKey MySQLPort ReplicatorUser
             (healthy fresh) keyless 1 dns (cluster (Some 0) []) fresh) =
    Issued (Exec 1 stopSlave []) ::
    ExecWith 1 changeMaster
             [StringArg dns; IntArg MySQLPort;
              StringArg ReplicatorUser; StringArg EmptyString] :: rest.
Proof.
  apply (configure_replication_without_key
           ReplicationPasswordKey MySQLPort ReplicatorUser
           (healthy fresh) keyless 1 dns (cluster (Some 0) []) fresh
           (fun _ => None) (answering (instance true 1 null None)));
    reflexivity.
Defined.

Lemma requeue_only_when_waiting_witness :
  value (reconcile (healthy bothLagging) granted (cluster (Some 0) [])) =
  Ok ({| Requeue := false; RequeueAfter := 10 * Second |}, None) /\
  (10 * Second = 0 \/ 10 * Second = 10000000000).
Proof.
  split; [reflexivity |].
  apply (requeue_only_when_waiting
           uniqueName Error ReplicationPasswordKey MySQLPort ReplicatorUser
           (healthy bothLagging) granted (cluster (Some 0) [])
           {| Requeue := false; RequeueAfter := 10 * Second |} None).
  reflexivity.
Defined.

(** The stored status said ready; instance 1 does not answer in full:
    the failure conditions are written and [ready] stays as it was. *)
Lemma unprobed_instance_witness :
  value (reconcile (flaky steady) granted readyCluster) =
  Ok ({| Requeue := false; RequeueAfter := 0 |}, Some ErrUnavailableHost) /\
  Ready (Status (object (reconcile (flaky steady) granted readyCluster))) =
  ConditionTrue.
Proof.
  split; [| reflexivity].
  apply (unprobed_instance_stops_reconcile
           uniqueName Error ReplicationPasswordKey MySQLPort ReplicatorUser
           (flaky steady) granted readyCluster 1);
    [simpl; lia | reflexivity].
Defined.

Lemma statements_target_instances_witness :
  0 <= 2 < Replicas (Spec (cluster (Some 0) [])).
Proof.
  apply (statements_target_instances
           uniqueName Error ReplicationPasswordKey MySQLPort ReplicatorUser
           (healthy fresh) granted (cluster (Some 0) [])
           (Issued (Exec 2 startSlave [])));
    [simpl; lia |].
  simpl. tauto.
Defined.

Lemma reconcile_returns_witness :
  exists res oe,
    value (reconcile (conflicting fresh) refused (cluster None [])) =
    Ok (res, oe).
Proof.
  apply (reconcile_returns
           uniqueName Error ReplicationPasswordKey MySQLPort ReplicatorUser
           (conflicting fresh) refused (cluster None [])).
  simpl. lia.
Defined.

Lemma reconcile_calls_witness :
  let r := reconcile (healthy fresh) granted (cluster None []) in
  calls r =
  [Issued (StatusUpdate (cluster (Some 0) []));
   Issued (Exec 0 setSemiSyncMaster []);
   Issued (StatusUpdate (cluster (Some 0) []))] /\
  exists status,
    getMySQLClusterStatus (healthy fresh) (cluster None []) = Ok status /\
    ((exists oop e,
         plan (cluster None []) status = Ok (oop, Some e) /\
         @None error = Some e /\
         object r =
         fst (setFailureCondition Error (healthy fresh) (cluster None []) e []) /\
         calls r = [Issued (StatusUpdate (object r))]) \/
     (exists op,
         plan (cluster None []) status = Ok (Some op, None) /\
         let ran :=
           runOperators ReplicationPasswordKey MySQLPort ReplicatorUser
                        (healthy fresh) granted (Operators op)
                        (cluster None []) status in
         calls r = calls ran ++ [Issued (StatusUpdate (object r))] /\
         ((exists e,
              value ran = Ok (Some e) /\
              @None error = Some e /\
              object r =
              fst (setFailureCondition Error (healthy fresh) (object ran) e [])) \/
          (value ran = Ok None /\
           object r =
           fst (setMySQLClusterStatus (healthy fresh) (object ran)
                                      (OpConditions op) (OpSyncedReplicas op)) /\
           None = statusUpdate (healthy fresh) (object r))))) /\
    (@None error = None -> statusUpdate (healthy fresh) (object r) = None).
Proof.
  split; [reflexivity |].
  apply (reconcile_calls
           uniqueName Error ReplicationPasswordKey MySQLPort ReplicatorUser
           (healthy fresh) granted (cluster None [])
           {| Requeue := false; RequeueAfter := 0 |} None).
  reflexivity.
Defined.

Lemma successful_reconcile_records_primary_witness :
  CurrentPrimaryIndex
    (Status (object (reconcile (healthy fresh) granted (cluster None [])))) =
  Some 0 /\
  statusUpdate (healthy fresh)
               (object (reconcile (healthy fresh) granted (cluster None []))) =
  None.
Proof.
  apply (successful_reconcile_records_primary
           uniqueName Error ReplicationPasswordKey MySQLPort ReplicatorUser
           (healthy fresh) granted (cluster None [])
           {| Requeue := false; RequeueAfter := 0 |}).
  reflexivity.
Defined.

Lemma successful_reconcile_status_witness :
  let after :=
    Status (object (reconcile (healthy ioError) granted (cluster (Some 0) []))) in
  findCondition (Conditions after) ConditionAvailable =
  Some (condition ConditionAvailable (Ready after)) /\
  Ready after = ConditionTrue /\
  SyncedReplicas after = 2.
Proof.
  apply (successful_reconcile_status
           uniqueName Error ReplicationPasswordKey MySQLPort ReplicatorUser
           (healthy ioError) granted (cluster (Some 0) []) ioError
           (planned (cluster (Some 0) []) ioError)
           {| Requeue := false; RequeueAfter := 0 |});
    try reflexivity.
  discriminate.
Defined.

(** A stored [Violation=False] with nothing violated: the reconcile
    returns [ErrConstraintsRecovered], and so does the next one. *)
Lemma constraints_recovered_witness :
  let c := cluster (Some 0) clearedViolation in
  let r := reconcile (healthy steady) granted c in
  let r' := reconcile (healthy steady) granted (object r) in
  storedViolation c /\
  getMySQLClusterStatus (healthy steady) c = Ok steady /\
  getMySQLClusterStatus (healthy steady) (object r) = Ok steady /\
  plan c steady =
  Ok (Some {| Operators := []; Wait := false;
              OpConditions := violationCondition Error ErrConstraintsRecovered;
              OpSyncedReplicas := None |},
      Some ErrConstraintsRecovered) /\
  value r =
  Ok ({| Requeue := false; RequeueAfter := 0 |}, Some ErrConstraintsRecovered) /\
  calls r = [Issued (StatusUpdate (object r))] /\
  storedViolation (object r) /\
  value r' =
  Ok ({| Requeue := false; RequeueAfter := 0 |}, Some ErrConstraintsRecovered) /\
  calls r' = [Issued (StatusUpdate (object r'))] /\
  storedViolation (object r').
Proof.
  intros c r r'.
  assert (Hs : storedViolation c).
  { eexists. split; [left; reflexivity | reflexivity]. }
  assert (Hnv : forall c0,
             CurrentPrimaryIndex (Status c0) = Some 0 ->
             ~ spec_violation c0 steady).
  { intros c0 Hc [H | (current & i & Hcur & Hw & Hne)].
    - simpl in H. lia.
    - rewrite Hc in Hcur. injection Hcur as <-.
      injection Hw as <-. now apply Hne. }
  destruct (constraints_recovered
              uniqueName Error ReplicationPasswordKey MySQLPort ReplicatorUser
              (healthy steady) granted c steady)
    as [_ H]; [reflexivity | apply Runs.all_probed; reflexivity
               | now apply Hnv |].
  destruct (H Hs) as [Hplan Hrun]. clear H.
  destruct (Hrun eq_refl) as (Hv & Hc & _ & _ & Hkept & Hnext). clear Hrun.
  destruct (Hnext (healthy steady) granted steady)
    as (_ & Hv' & Hc' & Hkept'); [reflexivity | reflexivity | now apply Hnv |].
  repeat split; try assumption.
Defined.

(** Even with [Violation=True] stored and all constraints met again,
    reconcile after reconcile only rewrites the failure conditions: the
    planner never gets past the validator. *)
Example recovery_does_not_replan :
  let stored := [condition ConditionViolation ConditionTrue] in
  let first := reconcile (healthy steady) granted (cluster (Some 0) stored) in
  let second := reconcile (healthy steady) granted (object first) in
  let third := reconcile (healthy steady) granted (object second) in
  plan (cluster (Some 0) []) steady =
  Ok (Some {| Operators := []; Wait := false;
              OpConditions := availableCondition [];
              OpSyncedReplicas := Some 3 |}, None) /\
  map (fun r => (value r, calls r)) [first; second; third] =
  map (fun r =>
         (Ok ({| Requeue := false; RequeueAfter := 0 |},
              Some ErrConstraintsRecovered),
          [Issued (StatusUpdate (object r))]))
      [first; second; third] /\
  Conditions (Status (object third)) =
  [condition ConditionViolation ConditionTrue;
   mkCondition ConditionFailure ConditionTrue
               (Error ErrConstraintsRecovered);
   condition ConditionAvailable ConditionFalse;
   condition ConditionHealthy ConditionFalse].
Proof. repeat split. Qed.

(** The first reconcile of a fresh cluster records instance 0 as primary
    and makes it semi-sync master; the second configures the two
    replicas. *)
Example first_two_reconciles :
  calls (reconcile (healthy fresh) granted (cluster None [])) =
  [Issued (StatusUpdate (cluster (Some 0) []));
   Issued (Exec 0 setSemiSyncMaster []);
   Issued (StatusUpdate (cluster (Some 0) []))] /\
  map (fun c => match c with
                | Issued (Exec i q _) | ExecWith i q _ => (i, q)
                | Issued (StatusUpdate _) => (-1, "update")
                end)
      (calls (reconcile (healthy fresh) granted (cluster (Some 0) []))) =
  [(1, stopSlave); (1, changeMaster); (1, setSemiSyncSlave); (1, startSlave);
   (2, stopSlave); (2, changeMaster); (2, setSemiSyncSlave); (2, startSlave);
   (-1, "update")].
Proof. split; reflexivity. Qed.

(** A refused [CHANGE MASTER TO] stops the reconcile on the first
    replica: the second is not touched and [START SLAVE] is not issued. *)
Example refused_change_master :
  map (fun c => match c with
                | Issued (Exec i q _) | ExecWith i q _ => (i, q)
                | Issued (StatusUpdate _) => (-1, "update")
                end)
      (calls (reconcile (healthy fresh) refused (cluster (Some 0) []))) =
  [(1, stopSlave); (1, changeMaster); (-1, "update")] /\
  value (reconcile (healthy fresh) refused (cluster (Some 0) [])) =
  Ok ({| Requeue := false; RequeueAfter := 0 |},
      Some (ErrOther "access denied")).
Proof. split; reflexivity. Qed.

End Drills.
